(** * shinbun: incremental Slack synchronisation and digest assembly

    A shallow embedding of the Go sources
      - [main.go]                              (module [Main])
      - [internal/slack/slack_client.go]       (module [Slack])
      - [internal/openai/openai_client.go]     (module [OpenAI])
      - [internal/commontypes]                 (record [Update])
    together with the properties of the synchronisation and digest-assembly
    pipeline.

    Conventions.
    - A Go [string] is a byte string: Rocq's [string].
    - A Go [int]/[int64] is a [Z]; wrap-around is written out where the
      source can reach it.
    - Remote collaborators (Slack API, SQL database, chat-completion client)
      are scripted: a paged call of the Slack API consumes the next reply of
      a list of replies, the store answers each kind of statement with the
      reply fixed for the channel pass, and every call that is answered is
      recorded in a trace of [Event]s.  A loop that waits for the remote
      side returns [None] when the replies run out.
    - Logging calls have no influence on control flow and are left out; the
      decisions of the rendering loop that the source logs are kept in a
      journal. *)

From Stdlib Require Import ZArith List Bool Ascii String DecimalString Lia.
From stdpp Require Import base option list sorting strings gmap.
Import ListNotations.

Local Open Scope string_scope.
Local Open Scope list_scope.
Local Open Scope Z_scope.

(** ** commontypes.Update (also [type Update] of main.go) *)

Record Update : Type := mkUpdate
  { Text : string
  ; Timestamp : string
  ; Link : string
  ; Channel : string
  ; Category : string
  ; Priority : Z }.

(** ** Deduplicating merge, main.go lines 869-884 *)

Module Merge.

(** Go's [seenMessages[k]] on a [map[string]bool]: a missing key reads
    as [false]. *)
Definition seen_get (seen : gmap string bool) (k : string) : bool :=
  default false (seen !! k).

(** One iteration of either [for _, update := range ...] loop body:
[[
    if !seenMessages[update.Timestamp] {
        seenMessages[update.Timestamp] = true
        updates = append(updates, update)
    }
]] *)
Definition step (st : gmap string bool * list Update) (update : Update)
  : gmap string bool * list Update :=
  let '(seenMessages, updates) := st in
  if negb (seen_get seenMessages (Timestamp update))
  then (<[Timestamp update := true]> seenMessages, updates ++ [update])
  else (seenMessages, updates).

Definition range (l : list Update) (st : gmap string bool * list Update) :=
  fold_left step l st.

(** [var updates []Update; seenMessages := make(map[string]bool)], then the
    loop over [slackUpdates], then the loop over [dbUpdates]. *)
Definition merge (slackUpdates dbUpdates : list Update) : list Update :=
  snd (range dbUpdates (range slackUpdates (∅, []))).

(** First element carrying a given dedup key. *)
Definition first_with (ts : string) (l : list Update) : option Update :=
  List.find (fun u => String.eqb (Timestamp u) ts) l.

(** The dedup keys of a list of updates. *)
Definition keys (l : list Update) : list string := map Timestamp l.

(** Invariant of the two loops: the result has no repeated key, and the
    [seen] map is exactly the set of keys of the result. *)
Definition merge_inv (st : gmap string bool * list Update) : Prop :=
  NoDup (keys (snd st)) /\
  forall k, seen_get (fst st) k = true <-> In k (keys (snd st)).

End Merge.


(** ** The parts of Go's standard library the sources call

    [strings.Contains], [strings.Split], [strings.Fields],
    [strings.TrimSpace], [strings.Replace] and [strconv.ParseInt] are
    modelled on byte strings.  The Unicode case tables behind
    [strings.ToLower], the calendar behind [time.Format] and the float scan
    of [fmt.Sscanf] are taken as the fields of a [GoRuntime] record, so that
    every statement below holds for whatever these functions compute; one
    concrete instance, exact on ASCII text, is given for evaluation. *)

Module Go.

Definition code (c : ascii) : Z := Z.of_nat (nat_of_ascii c).

(** [strings.Contains(s, substr)]. *)
Fixpoint Contains (s substr : string) : bool :=
  String.prefix substr s ||
  match s with
  | EmptyString => false
  | String _ s' => Contains s' substr
  end.

(** [strings.Split(s, sep)] for a one-byte separator: one more part than
    there are separators. *)
Fixpoint Split (s : string) (sep : ascii) : list string :=
  match s with
  | EmptyString => [EmptyString]
  | String c s' =>
      match Split s' sep with
      | hd :: tl => if Ascii.eqb c sep then EmptyString :: hd :: tl else String c hd :: tl
      | [] => [EmptyString]
      end
  end.

(** [strings.Replace(s, old, new, 1)] for a one-byte [old] and empty [new]:
    the first occurrence is removed. *)
Fixpoint RemoveFirst (s : string) (old : ascii) : string :=
  match s with
  | EmptyString => EmptyString
  | String c s' => if Ascii.eqb c old then s' else String c (RemoveFirst s' old)
  end.

(** Width in bytes of the white-space rune (as of [unicode.IsSpace]) whose
    UTF-8 encoding starts [s]; [0] when [s] does not start with one.  The
    runes are U+0009..U+000D, U+0020, U+0085, U+00A0, U+1680,
    U+2000..U+200A, U+2028, U+2029, U+202F, U+205F and U+3000. *)
Definition space_width (s : string) : nat :=
  match s with
  | String a r =>
      let x := code a in
      if (9 <=? x) && (x <=? 13) || (x =? 32) then 1%nat
      else match r with
      | String b r2 =>
          let y := code b in
          if (x =? 194) && ((y =? 133) || (y =? 160)) then 2%nat
          else match r2 with
          | String c _ =>
              let z := code c in
              if (x =? 225) && (y =? 154) && (z =? 128) then 3%nat
              else if (x =? 226) && (y =? 128) &&
                      ((128 <=? z) && (z <=? 138) || (z =? 168) || (z =? 169) || (z =? 175))
                   then 3%nat
              else if (x =? 226) && (y =? 129) && (z =? 159) then 3%nat
              else if (x =? 227) && (y =? 128) && (z =? 128) then 3%nat
              else 0%nat
          | EmptyString => 0%nat
          end
      | EmptyString => 0%nat
      end
  | EmptyString => 0%nat
  end.

(** The scan of [strings.Fields]: [skip] counts the bytes of a white-space
    rune still to be passed, [cur] is the field being read (its bytes in
    reverse), if any. *)
Fixpoint fields_scan (s : string) (skip : nat) (cur : option string) : list string :=
  let close := match cur with Some f => [String.rev f] | None => [] end in
  match s with
  | EmptyString => close
  | String c s' =>
      match skip with
      | S k => fields_scan s' k None
      | O =>
          match space_width s with
          | S k => close ++ fields_scan s' k None
          | O => fields_scan s' 0 (Some (String c (default EmptyString cur)))
          end
      end
  end.

(** [strings.Fields(s)]. *)
Definition Fields (s : string) : list string := fields_scan s 0 None.

(** [s] consists of white-space runes only. *)
Fixpoint all_space_scan (s : string) (skip : nat) : bool :=
  match s with
  | EmptyString => true
  | String _ s' =>
      match skip with
      | S k => all_space_scan s' k
      | O => match space_width s with
             | S k => all_space_scan s' k
             | O => false
             end
      end
  end.

Fixpoint TrimLeftSpace (s : string) (skip : nat) : string :=
  match s with
  | EmptyString => EmptyString
  | String _ s' =>
      match skip with
      | S k => TrimLeftSpace s' k
      | O => match space_width s with
             | S k => TrimLeftSpace s' k
             | O => s
             end
      end
  end.

Fixpoint TrimRightSpace (s : string) : string :=
  match s with
  | EmptyString => EmptyString
  | String c s' => if all_space_scan s 0 then EmptyString else String c (TrimRightSpace s')
  end.

(** [strings.TrimSpace(s)]. *)
Definition TrimSpace (s : string) : string := TrimRightSpace (TrimLeftSpace s 0).

(** Decimal digits of [strconv.ParseUint(s, 10, 64)]. *)
Fixpoint parse_digits (s : string) (acc : Z) : option Z :=
  match s with
  | EmptyString => Some acc
  | String c s' =>
      let x := code c in
      if (48 <=? x) && (x <=? 57) then parse_digits s' (acc * 10 + (x - 48)) else None
  end.

Definition ParseUint64 (s : string) : option Z :=
  match s with
  | EmptyString => None
  | _ => match parse_digits s 0 with
         | Some n => if n <? 2 ^ 64 then Some n else None
         | None => None
         end
  end.

(** [strconv.ParseInt(s, 10, 64)]; [None] stands for any non-nil error
    (syntax or range), which is all the callers look at. *)
Definition ParseInt (s : string) : option Z :=
  match s with
  | EmptyString => None
  | String c s' =>
      let neg := Ascii.eqb c "-" in
      let body := if Ascii.eqb c "+" || Ascii.eqb c "-" then s' else s in
      match ParseUint64 body with
      | None => None
      | Some un =>
          if neg then (if un <=? 2 ^ 63 then Some (- un) else None)
          else (if un <? 2 ^ 63 then Some un else None)
      end
  end.

(** [strconv.Itoa], also the [%d] verb of [fmt.Sprintf]. *)
Definition Itoa (z : Z) : string := NilZero.string_of_int (Z.to_int z).

(** Two's complement wrap-around of an [int64] result. *)
Definition wrap64 (z : Z) : Z := (z + 2 ^ 63) mod 2 ^ 64 - 2 ^ 63.

(** What is not modelled byte by byte. *)
Record GoRuntime : Type := mkGoRuntime
  { (** [strings.ToLower] *)
    ToLower : string -> string
  ; (** [time.Unix(sec, 0).In(jst).Format(layout)], JST being UTC+9 *)
    FormatJST : string -> Z -> string
  ; (** [fmt.Sscanf(s, "%f", &f)] followed by [int64(f)]: the seconds, or
        the message of the scan error *)
    ScanSeconds : string -> Z + string
  ; (** [time.LoadLocation("Asia/Tokyo")]: [None], or the message of the
        error when the zone database lacks the zone *)
    LoadTokyo : option string }.

End Go.

(** One [GoRuntime], exact on ASCII text, on the proleptic Gregorian
    calendar and on timestamps written as decimal digits with an optional
    fraction.  It is used to evaluate the model on concrete inputs. *)
Module GoEval.
Import Go.

Definition lower_ascii (c : ascii) : ascii :=
  let x := code c in
  if (65 <=? x) && (x <=? 90) then ascii_of_nat (Z.to_nat (x + 32)) else c.

Fixpoint ToLowerASCII (s : string) : string :=
  match s with
  | EmptyString => EmptyString
  | String c s' => String (lower_ascii c) (ToLowerASCII s')
  end.

Definition pad (width : nat) (z : Z) : string :=
  let digits := NilZero.string_of_uint (N.to_uint (Z.to_N (Z.abs z))) in
  let zeros := String.concat "" (repeat "0" (width - String.length digits)) in
  (if z <? 0 then "-" else "") +:+ zeros +:+ digits.

(** Year, month and day of a day count since 1970-01-01. *)
Definition civil (days : Z) : Z * Z * Z :=
  let z := days + 719468 in
  let era := z / 146097 in
  let doe := z - era * 146097 in
  let yoe := (doe - doe / 1460 + doe / 36524 - doe / 146096) / 365 in
  let doy := doe - (365 * yoe + yoe / 4 - yoe / 100) in
  let mp := (5 * doy + 2) / 153 in
  let d := doy - (153 * mp + 2) / 5 + 1 in
  let m := if mp <? 10 then mp + 3 else mp - 9 in
  let y := yoe + era * 400 + (if m <=? 2 then 1 else 0) in
  (y, m, d).

(** The layouts used by the sources: date, time of day to the second or to
    the minute, and the literal [JST]. *)
Definition FormatJSTCalendar (layout : string) (sec : Z) : string :=
  let local := sec + 9 * 60 * 60 in
  let '(y, m, d) := civil (local / 86400) in
  let r := local mod 86400 in
  let date := pad 4 y +:+ "-" +:+ pad 2 m +:+ "-" +:+ pad 2 d in
  let hm := pad 2 (r / 3600) +:+ ":" +:+ pad 2 (r mod 3600 / 60) in
  if String.eqb layout "2006-01-02 15:04 JST"
  then date +:+ " " +:+ hm +:+ " JST"
  else date +:+ " " +:+ hm +:+ ":" +:+ pad 2 (r mod 60) +:+ " JST".

Definition ScanDecimalSeconds (s : string) : Z + string :=
  let whole := match Split s "." with w :: _ => w | [] => s end in
  match ParseInt whole with
  | Some sec => inl sec
  | None => inr "strconv.ParseFloat: parsing: invalid syntax"
  end.

Definition runtime : GoRuntime :=
  {| ToLower := ToLowerASCII
   ; FormatJST := FormatJSTCalendar
   ; ScanSeconds := ScanDecimalSeconds
   ; LoadTokyo := None |}.

End GoEval.

(** ** Results, remote collaborators and the trace of calls *)

(** A Go [(T, error)] pair: a value with a nil error, or a non-nil error
    with its message. *)
Inductive result (A : Type) : Type :=
| Ok (a : A)
| Err (e : string).
Arguments Ok {A} a.
Arguments Err {A} e.

(** [time.Time], as nanoseconds since the Unix epoch. *)
Definition Time : Type := Z.

(** [time.Time{}], January 1 of year 1, 00:00 UTC. *)
Definition zeroTime : Time := -62135596800 * 10 ^ 9.
Definition IsZero (t : Time) : bool := t =? zeroTime.

(** [t.AddDate(0, 0, -7)] and [t.Add(-24 * time.Hour)], the daylight-saving
    shifts of the local zone left out. *)
Definition sevenDaysBefore (t : Time) : Time := t - 7 * 86400 * 10 ^ 9.
Definition oneDayBefore (t : Time) : Time := t - 86400 * 10 ^ 9.

Module Remote.

(** The fields of [slack.Message] that the sources read. *)
Record Message : Type := mkMessage
  { BotID : string
  ; Type_ : string
  ; SubType : string
  ; ThreadTimestamp : string
  ; Timestamp : string
  ; Text : string }.

(** A message of a history page, together with the reply the remote side
    gives to the [GetPermalink] call made for it ([Err] = the call fails). *)
Record Delivered : Type := mkDelivered
  { msg : Message
  ; permalinkReply : result string }.

(** Reply to one [api.GetConversationHistory] call. *)
Inductive HistoryReply : Type :=
| HistoryError (err : string)
| HistoryPage (Messages : list Delivered) (HasMore : bool) (NextCursor : string).

(** The fields of [slack.Channel] that the sources read. *)
Record Conversation : Type := mkConversation
  { ID : string
  ; Name : string
  ; IsPrivate : bool }.

(** Reply to one [api.GetConversations] call. *)
Inductive ConversationsReply : Type :=
| ConversationsError (err : string)
| ConversationsPage (channels : list Conversation) (nextCursor : string).

(** [*slack.Client]: the replies the workspace will give, in call order. *)
Record Client : Type := mkClient
  { conversations : list ConversationsReply
  ; history : list HistoryReply }.

(** Reply to [SELECT id, slack_id FROM channels WHERE name = $1]. *)
Inductive LookupReply : Type :=
| RowFound (dbID : Z) (slackID : string)
| ErrNoRows
| LookupError (err : string).

(** Reply to [SELECT last_fetched FROM channels WHERE id = $1]. *)
Inductive LastFetchReply : Type :=
| LastFetchError (err : string)
| LastFetchNoRows
| LastFetchNull
| LastFetchAt (t : Time).

(** A row of [SELECT text, timestamp, permalink, c.name FROM messages ...]. *)
Record MessageRow : Type := mkMessageRow
  { rowText : string
  ; rowTimestamp : string
  ; rowPermalink : string
  ; rowChannel : string }.

(** [*sql.DB]: the replies of the store during one channel pass. *)
Record DB : Type := mkDB
  { lookupReply : LookupReply
  ; upsertReply : result Z
  ; lastFetchReply : LastFetchReply
  ; updateLastFetchReply : result unit
  ; messagesReply : result (list MessageRow)
  ; saveReply : Update -> result unit }.

End Remote.

(** The calls that leave the process, in the order they are made.
    [EvGetHistory] carries the value of the variable [since] of the caller;
    the [Oldest] parameter that each file formats from it (the seconds with
    six decimals in internal/slack, the whole seconds in main.go) is not
    part of the event. *)
Inductive Event : Type :=
| EvLookupChannel (name : string)
| EvGetConversations (cursor : string)
| EvUpsertChannel (slackID name : string)
| EvGetLastFetch (dbID : Z)
| EvGetHistory (channelID : string) (since : Time) (cursor : string)
| EvGetPermalink (channelID ts : string)
| EvQueryMessages (dbID : Z) (since : Time)
| EvSaveMessage (dbID : Z) (u : Update)
| EvUpdateLastFetch (dbID : Z)
| EvChatCompletion (model system user : string)
| EvSleep (milliseconds : Z).

(** The watermark writes of a trace. *)
Definition is_watermark_write (e : Event) : bool :=
  match e with EvUpdateLastFetch _ => true | _ => false end.

Definition watermark_writes (tr : list Event) : list Event :=
  List.filter is_watermark_write tr.

(** A trace without a write to [last_fetched]. *)
Definition quiet (tr : list Event) : Prop := watermark_writes tr = [].

(** The history requests of a trace, as the cursors they carry. *)
Definition history_cursors (tr : list Event) : list string :=
  flat_map (fun e => match e with EvGetHistory _ _ c => [c] | _ => [] end) tr.

(** ** internal/slack/slack_client.go *)

Module Slack.
Import Go.

Section WithRuntime.
Variable rt : GoRuntime.

Definition alertKeywords : list string :=
  ["alert"; "incident"; "down"; " outage"; "critical"; "p0"; "sev0"; "sev1"].
Definition supportKeywords : list string :=
  ["support request"; "customer issue"; "ticket"; "bug report"; "need help"; "assistance"].
Definition highPriorityKeywords : list string :=
  ["urgent"; "asap"; "blocker"; "immediately"].

(** [for _, keyword := range keywords { if strings.Contains(s, keyword) {...} }]
    enters its body for the first keyword found, if any. *)
Definition containsAny (s : string) (keywords : list string) : bool :=
  existsb (Contains s) keywords.

(** [categorizeMessage], lines 395-448. *)
Definition categorizeMessage (channelName text : string) : string * Z :=
  let lowerText := ToLower rt text in
  let lowerChannelName := ToLower rt channelName in
  let priority := 1 in
  let priority := if containsAny lowerText highPriorityKeywords then 3 else priority in
  if containsAny lowerText alertKeywords then
    ("alert", if priority <? 3 then 3 else priority)
  else if Contains lowerChannelName "support" || Contains lowerChannelName "customer"
          || Contains lowerChannelName "help" then
    if containsAny lowerText supportKeywords then
      ("support", if priority <? 2 then 2 else priority)
    else
      ("support", if priority <? 2 then 2 else priority)
  else if containsAny lowerText supportKeywords then
    ("support", if priority <? 2 then 2 else priority)
  else ("general", priority).

(** The two guards at the head of the message loop, lines 151-159:
[[
    if msg.BotID != "" || msg.SubType != "" { continue }
    if msg.ThreadTimestamp != "" && msg.SubType != "thread_broadcast" { continue }
]] *)
Definition skipped (m : Remote.Message) : bool :=
  (negb (String.eqb (Remote.BotID m) "") || negb (String.eqb (Remote.SubType m) ""))
  || (negb (String.eqb (Remote.ThreadTimestamp m) "")
      && negb (String.eqb (Remote.SubType m) "thread_broadcast")).

(** The body of [for _, msg := range history.Messages], lines 151-193. *)
Definition processMessage (channelSlackID channelName : string)
    (st : list Event * list Update) (d : Remote.Delivered) : list Event * list Update :=
  let '(tr, updates) := st in
  let m := Remote.msg d in
  if skipped m then (tr, updates)
  else
    let permalink :=
      match Remote.permalinkReply d with
      | Ok link => link
      | Err _ => "https://slack.com/archives/" +:+ channelSlackID +:+ "/p"
                 +:+ RemoveFirst (Remote.Timestamp m) "."
      end in
    let '(category, priority) := categorizeMessage channelName (Remote.Text m) in
    let update :=
      {| Text := Remote.Text m
       ; Timestamp := Remote.Timestamp m
       ; Link := permalink
       ; Channel := channelName
       ; Category := category
       ; Priority := priority |} in
    (tr ++ [EvGetPermalink channelSlackID (Remote.Timestamp m)], updates ++ [update]).

(** The pagination loop of [SummarizeChannel], lines 121-206.  Each
    iteration consumes one reply; [None] when the replies run out while the
    loop still waits. *)
Fixpoint fetchLoop (channelSlackID channelName : string) (since : Time)
    (replies : list Remote.HistoryReply) (cursor : string) (updates : list Update)
  : list Event * option (result (list Update)) :=
  match replies with
  | [] => ([], None)
  | reply :: rest =>
      let request := EvGetHistory channelSlackID since cursor in
      match reply with
      | Remote.HistoryError err =>
          if Contains err "channel_not_found" then
            ([request],
             Some (Err ("slack channel '" +:+ channelName +:+ "' (ID: " +:+ channelSlackID
                        +:+ ") not found or bot lacks permission")))
          else if Contains err "ratelimited" then
            let '(tr, out) := fetchLoop channelSlackID channelName since rest cursor updates in
            (request :: EvSleep 30000 :: tr, out)
          else
            ([request],
             Some (Err ("failed to get Slack conversation history for '" +:+ channelName
                        +:+ "': " +:+ err)))
      | Remote.HistoryPage Messages HasMore NextCursor =>
          let '(ptr, updates') :=
            fold_left (processMessage channelSlackID channelName) Messages ([], updates) in
          if negb HasMore || String.eqb NextCursor "" then
            (request :: ptr, Some (Ok updates'))
          else
            let '(tr, out) :=
              fetchLoop channelSlackID channelName since rest NextCursor updates' in
            (request :: ptr ++ EvSleep 1200 :: tr, out)
      end
  end.

(** [upsertChannel], lines 311-335. *)
Definition upsertChannel (db : option Remote.DB) (slackID name : string)
  : list Event * result Z :=
  match db with
  | None => ([], Err "cannot upsert channel: database connection is nil")
  | Some d =>
      match Remote.upsertReply d with
      | Err err =>
          ([EvUpsertChannel slackID name],
           Err ("error upserting channel '" +:+ name +:+ "' (ID: " +:+ slackID +:+ "): " +:+ err))
      | Ok id => ([EvUpsertChannel slackID name], Ok id)
      end
  end.

(** First channel of a page whose name is the one looked for. *)
Definition matchName (channels : list Remote.Conversation) (channelName : string)
  : option Remote.Conversation :=
  List.find (fun ch => String.eqb (Remote.Name ch) channelName) channels.

(** The directory loop of [getChannelID], lines 262-289, with the
    [if !found] that follows it. *)
Fixpoint scanConversations (replies : list Remote.ConversationsReply)
    (cursor channelName : string) : list Event * option (result string) :=
  match replies with
  | [] => ([], None)
  | reply :: rest =>
      let request := EvGetConversations cursor in
      match reply with
      | Remote.ConversationsError listErr =>
          ([request], Some (Err ("error getting conversations from Slack: " +:+ listErr)))
      | Remote.ConversationsPage channels nextCursor =>
          match matchName channels channelName with
          | Some channel => ([request], Some (Ok (Remote.ID channel)))
          | None =>
              if String.eqb nextCursor "" then
                ([request],
                 Some (Err ("channel '" +:+ channelName +:+ "' not found via Slack API")))
              else
                let '(tr, out) := scanConversations rest nextCursor channelName in
                (request :: EvSleep 500 :: tr, out)
          end
      end
  end.

(** Steps 2 and 3 of [getChannelID], lines 253-307. *)
Definition resolveRemote (api : Remote.Client) (db : option Remote.DB) (channelName : string)
  : list Event * option (result (string * Z)) :=
  let '(tr, found) := scanConversations (Remote.conversations api) "" channelName in
  match found with
  | None => (tr, None)
  | Some (Err e) => (tr, Some (Err e))
  | Some (Ok slackID) =>
      match db with
      | Some _ =>
          let '(utr, upserted) := upsertChannel db slackID channelName in
          match upserted with
          | Err _ => (tr ++ utr, Some (Ok (slackID, 0)))
          | Ok dbID => (tr ++ utr, Some (Ok (slackID, dbID)))
          end
      | None => (tr, Some (Ok (slackID, 0)))
      end
  end.

(** [getChannelID], lines 233-308. *)
Definition getChannelID (api : Remote.Client) (db : option Remote.DB) (channelName : string)
  : list Event * option (result (string * Z)) :=
  match db with
  | Some d =>
      match Remote.lookupReply d with
      | Remote.RowFound dbID slackID =>
          ([EvLookupChannel channelName], Some (Ok (slackID, dbID)))
      | Remote.LookupError err =>
          ([EvLookupChannel channelName],
           Some (Err ("error querying channel '" +:+ channelName +:+ "' from database: " +:+ err)))
      | Remote.ErrNoRows =>
          let '(tr, out) := resolveRemote api db channelName in
          (EvLookupChannel channelName :: tr, out)
      end
  | None => resolveRemote api db channelName
  end.

(** [UpsertChannel], lines 59-67. *)
Definition UpsertChannel (db : Remote.DB) (slackID name : string) : list Event * result Z :=
  match Remote.upsertReply db with
  | Err err => ([EvUpsertChannel slackID name], Err ("upsert error: " +:+ err))
  | Ok id => ([EvUpsertChannel slackID name], Ok id)
  end.

(** The directory loop of [GetChannelID], lines 33-55. *)
Fixpoint ScanConversations (db : Remote.DB) (replies : list Remote.ConversationsReply)
    (cursor channelName : string) : list Event * option (result (string * Z)) :=
  match replies with
  | [] => ([], None)
  | reply :: rest =>
      let request := EvGetConversations cursor in
      match reply with
      | Remote.ConversationsError err_api =>
          ([request], Some (Err ("slack api error: " +:+ err_api)))
      | Remote.ConversationsPage channels nextCursor =>
          match matchName channels channelName with
          | Some ch =>
              let '(utr, upserted) := UpsertChannel db (Remote.ID ch) (Remote.Name ch) in
              match upserted with
              | Err _ => (request :: utr, Some (Ok (Remote.ID ch, 0)))
              | Ok dbID => (request :: utr, Some (Ok (Remote.ID ch, dbID)))
              end
          | None =>
              if String.eqb nextCursor "" then
                ([request], Some (Err ("channel '" +:+ channelName +:+ "' not found")))
              else
                let '(tr, out) := ScanConversations db rest nextCursor channelName in
                (request :: EvSleep 500 :: tr, out)
          end
      end
  end.

(** [GetChannelID], lines 17-56. *)
Definition GetChannelID (api : Remote.Client) (db : Remote.DB) (channelName : string)
  : list Event * option (result (string * Z)) :=
  match Remote.lookupReply db with
  | Remote.RowFound dbID slackID => ([EvLookupChannel channelName], Some (Ok (slackID, dbID)))
  | Remote.LookupError err =>
      ([EvLookupChannel channelName], Some (Err ("db query error: " +:+ err)))
  | Remote.ErrNoRows =>
      let '(tr, out) := ScanConversations db (Remote.conversations api) "" channelName in
      (EvLookupChannel channelName :: tr, out)
  end.

(** [getLastFetchTime], lines 338-367; [now] is the reading of the clock. *)
Definition getLastFetchTime (db : option Remote.DB) (channelDBID : Z) (now : Time)
  : list Event * result Time :=
  match db with
  | None => ([], Err "cannot get last fetch time: database connection is nil")
  | Some d =>
      if channelDBID =? 0 then
        ([], Err "cannot get last fetch time: invalid channel DB ID 0")
      else
        let query := [EvGetLastFetch channelDBID] in
        match Remote.lastFetchReply d with
        | Remote.LastFetchNoRows =>
            (query, Err ("no database record found for channel id " +:+ Itoa channelDBID))
        | Remote.LastFetchError err =>
            (query, Err ("error querying last fetch time for DB ID " +:+ Itoa channelDBID
                         +:+ ": " +:+ err))
        | Remote.LastFetchNull => (query, Ok (sevenDaysBefore now))
        | Remote.LastFetchAt t =>
            if IsZero t then (query, Ok (sevenDaysBefore now)) else (query, Ok t)
        end
  end.

(** [updateLastFetchTime], lines 370-392.  The [UPDATE] statement is the
    only write to [last_fetched]; it is sent only past the two guards. *)
Definition updateLastFetchTime (db : option Remote.DB) (channelDBID : Z)
  : list Event * result unit :=
  match db with
  | None => ([], Err "cannot update last fetch time: database connection is nil")
  | Some d =>
      if channelDBID =? 0 then
        ([], Err "cannot update last fetch time: invalid channel DB ID 0")
      else
        match Remote.updateLastFetchReply d with
        | Err err =>
            ([EvUpdateLastFetch channelDBID],
             Err ("error executing last fetch time update for DB ID " +:+ Itoa channelDBID
                  +:+ ": " +:+ err))
        | Ok _ => ([EvUpdateLastFetch channelDBID], Ok tt)
        end
  end.

(** [SummarizeChannel], lines 70-226. *)
Definition SummarizeChannel (api : Remote.Client) (db : option Remote.DB)
    (channelName : string) (fromDateOverride : Time) (now : Time)
  : list Event * option (result (list Update)) :=
  if match db with None => IsZero fromDateOverride | Some _ => false end then
    ([], Some (Err ("database connection is nil and no --from-date override provided for channel '"
                    +:+ channelName +:+ "'")))
  else
    (* 1. Get Channel Slack ID and DB ID *)
    let '(tr1, resolved) := getChannelID api db channelName in
    match resolved with
    | None => (tr1, None)
    | Some (Err err) =>
        (tr1, Some (Err ("failed to get channel info for '" +:+ channelName +:+ "': " +:+ err)))
    | Some (Ok (channelSlackID, channelDBID)) =>
        (* 2. Determine 'since' time *)
        let '(tr2, since) :=
          if negb (IsZero fromDateOverride) then ([], Ok fromDateOverride)
          else match db with
               | Some _ =>
                   let '(tr, lastFetch) := getLastFetchTime db channelDBID now in
                   match lastFetch with
                   | Err _ => (tr, Ok (sevenDaysBefore now))
                   | Ok t => (tr, Ok t)
                   end
               | None =>
                   ([], Err ("internal error: DB is nil and fromDateOverride is zero for channel '"
                             +:+ channelName +:+ "'"))
               end in
        match since with
        | Err e => (tr1 ++ tr2, Some (Err e))
        | Ok since =>
            (* 3. Fetch Messages from Slack *)
            let '(tr3, fetched) :=
              fetchLoop channelSlackID channelName since (Remote.history api) "" [] in
            match fetched with
            | None => (tr1 ++ tr2 ++ tr3, None)
            | Some (Err e) => (tr1 ++ tr2 ++ tr3, Some (Err e))
            | Some (Ok updates) =>
                (* 4. Update Last Fetch Time in DB (if DB is available) *)
                let tr4 :=
                  match db with
                  | Some _ => fst (updateLastFetchTime db channelDBID)
                  | None => []
                  end in
                (tr1 ++ tr2 ++ tr3 ++ tr4, Some (Ok updates))
            end
        end
    end.

End WithRuntime.
End Slack.

(** ** main.go *)

Module Main.
Import Go.

Section WithRuntime.
Variable rt : GoRuntime.

(** [upsertChannel], lines 228-247. *)
Definition upsertChannel (db : Remote.DB) (slackID name : string) : list Event * result Z :=
  match Remote.upsertReply db with
  | Err err => ([EvUpsertChannel slackID name], Err ("error upserting channel: " +:+ err))
  | Ok id => ([EvUpsertChannel slackID name], Ok id)
  end.

(** The directory loop of [getChannelID], lines 197-225. *)
Fixpoint scanConversations (db : Remote.DB) (replies : list Remote.ConversationsReply)
    (cursor channelName : string) : list Event * option (result (string * Z)) :=
  match replies with
  | [] => ([], None)
  | reply :: rest =>
      let request := EvGetConversations cursor in
      match reply with
      | Remote.ConversationsError err =>
          ([request], Some (Err ("error getting conversations: " +:+ err)))
      | Remote.ConversationsPage channels nextCursor =>
          match Slack.matchName channels channelName with
          | Some channel =>
              let '(utr, upserted) := upsertChannel db (Remote.ID channel) channelName in
              (* on error [upsertChannel] has returned [0, err]; the error is logged *)
              let dbID := match upserted with Ok id => id | Err _ => 0 end in
              (request :: utr, Some (Ok (Remote.ID channel, dbID)))
          | None =>
              if String.eqb nextCursor "" then
                ([request], Some (Err ("channel " +:+ channelName +:+ " not found")))
              else
                let '(tr, out) := scanConversations db rest nextCursor channelName in
                (request :: tr, out)
          end
      end
  end.

(** [getChannelID], lines 177-226. *)
Definition getChannelID (api : Remote.Client) (db : Remote.DB) (channelName : string)
  : list Event * option (result (string * Z)) :=
  match Remote.lookupReply db with
  | Remote.RowFound dbID slackID => ([EvLookupChannel channelName], Some (Ok (slackID, dbID)))
  | Remote.LookupError err =>
      ([EvLookupChannel channelName],
       Some (Err ("error querying channel from database: " +:+ err)))
  | Remote.ErrNoRows =>
      let '(tr, out) := scanConversations db (Remote.conversations api) "" channelName in
      (EvLookupChannel channelName :: tr, out)
  end.

(** [getLastFetchTime], lines 249-264. *)
Definition getLastFetchTime (db : Remote.DB) (channelID : Z) (now : Time)
  : list Event * result Time :=
  let query := [EvGetLastFetch channelID] in
  match Remote.lastFetchReply db with
  | Remote.LastFetchError err => (query, Err ("error getting last fetch time: " +:+ err))
  | Remote.LastFetchNoRows =>
      (query, Err "error getting last fetch time: sql: no rows in result set")
  | Remote.LastFetchNull => (query, Ok (sevenDaysBefore now))
  | Remote.LastFetchAt t => (query, Ok t)
  end.

(** [updateLastFetchTime], lines 266-276: the only write to [last_fetched]. *)
Definition updateLastFetchTime (db : Remote.DB) (channelID : Z) : list Event * result unit :=
  match Remote.updateLastFetchReply db with
  | Err err => ([EvUpdateLastFetch channelID], Err ("error updating last fetch time: " +:+ err))
  | Ok _ => ([EvUpdateLastFetch channelID], Ok tt)
  end.

(** [formatTimestamp], lines 462-474, as the seconds of the parsed time. *)
Definition formatTimestamp (timestamp : string) : result Z :=
  match ScanSeconds rt timestamp with
  | inr err => Err ("error parsing timestamp: " +:+ err)
  | inl sec =>
      match LoadTokyo rt with
      | Some err => Err ("error loading JST timezone: " +:+ err)
      | None => Ok sec
      end
  end.

(** [saveMessage], lines 278-302. *)
Definition saveMessage (db : Remote.DB) (channelID : Z) (msg : Update)
  : list Event * result unit :=
  match formatTimestamp (Timestamp msg) with
  | Err err => ([], Err ("error parsing timestamp: " +:+ err))
  | Ok _ =>
      match Remote.saveReply db msg with
      | Err err => ([EvSaveMessage channelID msg], Err ("error saving message: " +:+ err))
      | Ok _ => ([EvSaveMessage channelID msg], Ok tt)
      end
  end.

(** [getMessagesFromDB], lines 304-332: the four scanned columns fill an
    [Update] whose [Category] and [Priority] keep their zero values. *)
Definition getMessagesFromDB (db : Remote.DB) (channelID : Z) (since : Time)
  : list Event * result (list Update) :=
  let query := [EvQueryMessages channelID since] in
  match Remote.messagesReply db with
  | Err err => (query, Err ("error querying messages: " +:+ err))
  | Ok rows =>
      (query,
       Ok (map (fun r => {| Text := Remote.rowText r
                          ; Timestamp := Remote.rowTimestamp r
                          ; Link := Remote.rowPermalink r
                          ; Channel := Remote.rowChannel r
                          ; Category := ""
                          ; Priority := 0 |}) rows))
  end.

(** [categorizeMessage], lines 419-441. *)
Definition urgentTerms : list string :=
  ["urgent"; "emergency"; "critical"; "outage"; "down"; "broken"; "failed"; "error"].

Definition categorizeMessage (channelName text : string) : string * Z :=
  let '(category, priority) :=
    if Contains channelName "alert" || Contains channelName "incident" then ("alert", 3)
    else if Contains channelName "support" then ("support", 2)
    else ("general", 1) in
  let lowercaseText := ToLower rt text in
  let priority :=
    fold_left (fun p term => if Contains lowercaseText term then p + 1 else p)
              urgentTerms priority in
  (category, priority).

(** The guard at the head of the message loop, line 363. *)
Definition skipped (m : Remote.Message) : bool :=
  negb (String.eqb (Remote.BotID m) "")
  || negb (String.eqb (Remote.Type_ m) "message")
  || (negb (String.eqb (Remote.ThreadTimestamp m) "")
      && negb (String.eqb (Remote.ThreadTimestamp m) (Remote.Timestamp m))).

(** The body of [for _, msg := range history.Messages], lines 361-395. *)
Definition processMessage (channelID channelName : string)
    (st : list Event * list Update) (d : Remote.Delivered) : list Event * list Update :=
  let '(tr, updates) := st in
  let m := Remote.msg d in
  if skipped m then (tr, updates)
  else
    let permalink := match Remote.permalinkReply d with Ok link => link | Err _ => "N/A" end in
    let '(category, priority) := categorizeMessage channelName (Remote.Text m) in
    (tr ++ [EvGetPermalink channelID (Remote.Timestamp m)],
     updates ++ [{| Text := Remote.Text m
                  ; Timestamp := Remote.Timestamp m
                  ; Link := permalink
                  ; Channel := channelName
                  ; Category := category
                  ; Priority := priority |}]).

(** The pagination loop of [summarizeChannel], lines 343-407: every error
    of the history call is returned. *)
Fixpoint fetchLoop (channelID channelName : string) (since : Time)
    (replies : list Remote.HistoryReply) (cursor : string) (updates : list Update)
  : list Event * option (result (list Update)) :=
  match replies with
  | [] => ([], None)
  | reply :: rest =>
      let request := EvGetHistory channelID since cursor in
      match reply with
      | Remote.HistoryError err =>
          ([request],
           Some (Err ("error getting channel history (cursor: " +:+ cursor +:+ "): " +:+ err)))
      | Remote.HistoryPage Messages HasMore NextCursor =>
          let '(ptr, updates') :=
            fold_left (processMessage channelID channelName) Messages ([], updates) in
          if negb HasMore || String.eqb NextCursor "" then
            (request :: ptr, Some (Ok updates'))
          else
            let '(tr, out) := fetchLoop channelID channelName since rest NextCursor updates' in
            (request :: ptr ++ tr, out)
      end
  end.

(** [summarizeChannel], lines 334-417. *)
Definition summarizeChannel (api : Remote.Client) (channelID channelName : string)
    (since : Time) : list Event * option (result (list Update)) :=
  fetchLoop channelID channelName since (Remote.history api) "" [].

(** The save loop of [main], lines 893-900. *)
Definition saveStep (db : Remote.DB) (channelDbID : Z) (st : list Event * Z) (update : Update)
  : list Event * Z :=
  let '(tr, messagesSaved) := st in
  let '(etr, saved) := saveMessage db channelDbID update in
  match saved with
  | Err _ => (tr ++ etr, messagesSaved)
  | Ok _ => (tr ++ etr, messagesSaved + 1)
  end.

Definition saveAll (db : Remote.DB) (channelDbID : Z) (slackUpdates : list Update)
  : list Event * Z :=
  fold_left (saveStep db channelDbID) slackUpdates ([], 0).

(** How one iteration of [for _, channelName := range targetChannels] ends:
    by a [continue], or at its last statement with the merged [updates]
    appended to [allUpdates]. *)
Inductive Pass : Type :=
| Skipped
| Completed (updates : list Update) (messagesSaved : Z).

(** The body of the channel loop of [main], lines 822-917. *)
Definition processChannel (api : Remote.Client) (db : Remote.DB) (channelName : string)
    (fromDate now : Time) : list Event * option Pass :=
  let channelName := TrimSpace channelName in
  if String.eqb channelName "" then ([], Some Skipped)
  else
    let '(tr1, resolved) := getChannelID api db channelName in
    match resolved with
    | None => (tr1, None)
    | Some (Err _) => (tr1, Some Skipped)
    | Some (Ok (channelSlackID, channelDbID)) =>
        let '(tr2, since) :=
          if negb (IsZero fromDate) then ([], fromDate)
          else
            let '(tr, lastFetch) := getLastFetchTime db channelDbID now in
            (tr, match lastFetch with Err _ => oneDayBefore now | Ok t => t end) in
        let '(tr3, fetched) := summarizeChannel api channelSlackID channelName since in
        match fetched with
        | None => (tr1 ++ tr2 ++ tr3, None)
        | Some (Err _) => (tr1 ++ tr2 ++ tr3, Some Skipped)
        | Some (Ok slackUpdates) =>
            let '(tr4, queried) := getMessagesFromDB db channelDbID (sevenDaysBefore now) in
            match queried with
            | Err _ => (tr1 ++ tr2 ++ tr3 ++ tr4, Some Skipped)
            | Ok dbUpdates =>
                let updates := Merge.merge slackUpdates dbUpdates in
                let '(tr5, messagesSaved) := saveAll db channelDbID slackUpdates in
                let tr6 :=
                  if messagesSaved >? 0 then fst (updateLastFetchTime db channelDbID) else [] in
                (tr1 ++ tr2 ++ tr3 ++ tr4 ++ tr5 ++ tr6, Some (Completed updates messagesSaved))
            end
        end
    end.

(** The channel loop of [main], lines 818-918: each target channel comes
    with the replies the workspace and the store give during its pass.  The
    result is [allUpdates] and [totalMessagesSaved]. *)
Fixpoint processChannels (targets : list (string * Remote.Client * Remote.DB))
    (fromDate now : Time) (allUpdates : list Update) (totalMessagesSaved : Z)
  : list Event * option (list Update * Z) :=
  match targets with
  | [] => ([], Some (allUpdates, totalMessagesSaved))
  | (channelName, api, db) :: rest =>
      let '(tr, pass) := processChannel api db channelName fromDate now in
      match pass with
      | None => (tr, None)
      | Some Skipped =>
          let '(tr', out) := processChannels rest fromDate now allUpdates totalMessagesSaved in
          (tr ++ tr', out)
      | Some (Completed updates messagesSaved) =>
          let '(tr', out) :=
            processChannels rest fromDate now (allUpdates ++ updates)
                            (totalMessagesSaved + messagesSaved) in
          (tr ++ tr', out)
      end
  end.

End WithRuntime.
End Main.

(** ** internal/openai/openai_client.go *)

Module OpenAI.
Import Go.

(** The double quote and the line feed. *)
Definition dq : string := String (ascii_of_nat 34) EmptyString.
Definition nl : string := String (ascii_of_nat 10) EmptyString.

Definition maxPromptLength : Z := 3800.

(** [time.Unix(sec, nsec)] as the pair that [Time.Before] compares: the
    seconds since year 1 and the nanoseconds within the second. *)
Definition unixToInternal : Z := 62135596800.

Definition Unix (sec nsec : Z) : Z * Z :=
  let '(sec, nsec) :=
    if (nsec <? 0) || (nsec >=? 10 ^ 9) then
      let n := Z.quot nsec (10 ^ 9) in
      let sec := wrap64 (sec + n) in
      let nsec := nsec - n * 10 ^ 9 in
      if nsec <? 0 then (wrap64 (sec - 1), nsec + 10 ^ 9) else (sec, nsec)
    else (sec, nsec) in
  (wrap64 (sec + unixToInternal), nsec).

(** [t.Before(u)]. *)
Definition Before (t u : Z * Z) : bool :=
  (fst t <? fst u) || ((fst t =? fst u) && (snd t <? snd u)).

(** Bytes [0..n) of a string, and padding with ["0"] up to six bytes. *)
Definition firstBytes (n : nat) (s : string) : string := String.substring 0 n s.

Definition padZeros (s : string) : string :=
  s +:+ String.concat "" (repeat "0" (6 - String.length s)).

(** [FormatTimestamp], lines 183-208; [None] is the non-nil error. *)
Definition FormatTimestamp (timestamp : string) : option (Z * Z) :=
  match Split timestamp "." with
  | [secStr; nsecStr] =>
      match ParseInt secStr with
      | None => None
      | Some sec =>
          let nsec :=
            if (0 <? String.length nsecStr)%nat then
              let nsecStr :=
                if (6 <? String.length nsecStr)%nat then firstBytes 6 nsecStr else nsecStr in
              let nsecStr := padZeros nsecStr in
              match ParseInt nsecStr with
              | Some n => n * 1000
              | None => 0 * 1000
              end
            else 0 in
          Some (Unix sec nsec)
      end
  | _ => None
  end.

(** Byte-wise [<] on strings. *)
Definition stringLess (a b : string) : bool :=
  match String.compare a b with Lt => true | _ => false end.

(** The [less] function handed to [sort.SliceStable], lines 29-39. *)
Definition less (ui uj : Update) : bool :=
  if negb (Priority ui =? Priority uj) then Priority ui <? Priority uj
  else
    match FormatTimestamp (Timestamp ui), FormatTimestamp (Timestamp uj) with
    | Some tsI, Some tsJ => Before tsI tsJ
    | _, _ => stringLess (Timestamp ui) (Timestamp uj)
    end.

(** [sort.SliceStable], as the insertion sort of package [sort]: every
    element moves left past the neighbours it is [less] than.  [sorted] is
    the part already in order, last element first.  Beyond twenty elements
    package [sort] merges sorted blocks.  Where [less] is a strict weak
    order, that is when [FormatTimestamp] accepts every timestamp, every
    stable sort gives this same result; where it is not, the merge may
    leave updates of one priority in another order than an insertion sort
    does, their priorities being in ascending order either way.  What is
    stated below about the order within a priority is stated for
    timestamps that [FormatTimestamp] accepts. *)
Fixpoint insertLeft (x : Update) (sorted : list Update) : list Update :=
  match sorted with
  | [] => [x]
  | y :: rest => if less x y then y :: insertLeft x rest else x :: y :: rest
  end.

Definition SliceStable (updates : list Update) : list Update :=
  rev (fold_left (fun sorted x => insertLeft x sorted) updates []).

(** Ascending priority, the first key of the sort. *)
Definition byPriority (a b : Update) : Prop := Priority a <= Priority b.

Section WithRuntime.
Variable rt : GoRuntime.

(** [formatMessage], lines 211-214. *)
Definition formatMessage (text : string) : string := TrimSpace text.

(** [formatTimestamp], lines 217-231. *)
Definition formatTimestamp (slackTs : string) : result string :=
  match Split slackTs "." with
  | [] => Err "invalid timestamp format"
  | secStr :: _ =>
      match ParseInt secStr with
      | None => Err "invalid seconds in timestamp"
      | Some sec => Ok (FormatJST rt "2006-01-02 15:04:05 JST" sec)
      end
  end.

(** The line rendered for one update, lines 55-60. *)
Definition messageLine (formattedTime : string) (u : Update) : string :=
  "[" +:+ formattedTime +:+ "] #" +:+ Channel u +:+ ": " +:+ formatMessage (Text u)
  +:+ " Link: <" +:+ Link u +:+ "|View Message>" +:+ nl.

(** [len(strings.Fields(messageLine))]. *)
Definition lineTokens (line : string) : Z := Z.of_nat (List.length (Fields line)).

(** What the rendering loop does with an update: it writes its line, or
    skips it because [formatTimestamp] fails (the [continue] of line 52),
    or stops at it because the limit is reached (the [break] of line 72). *)
Inductive Fate : Type :=
| Written (line : string)
| Unformattable
| OverLimit.

(** The variables of the rendering loop, with a journal of its decisions
    in iteration order. *)
Record Builder : Type := mkBuilder
  { sb : string
  ; currentTokenCount : Z
  ; includedMessages : Z
  ; journal : list (Update * Fate) }.

(** The loop [for i := len(updates) - 1; i >= 0; i--], lines 47-78, over
    the updates it still has to visit: [updates[i]] first, [updates[0]]
    last. *)
Fixpoint render (limit : Z) (remaining : list Update) (b : Builder) : Builder :=
  match remaining with
  | [] => b
  | u :: rest =>
      match formatTimestamp (Timestamp u) with
      | Err _ =>
          render limit rest
            {| sb := sb b
             ; currentTokenCount := currentTokenCount b
             ; includedMessages := includedMessages b
             ; journal := journal b ++ [(u, Unformattable)] |}
      | Ok formattedTime =>
          let line := messageLine formattedTime u in
          if currentTokenCount b + lineTokens line >? limit then
            {| sb := sb b
             ; currentTokenCount := currentTokenCount b
             ; includedMessages := includedMessages b
             ; journal := journal b ++ [(u, OverLimit)] |}
          else
            render limit rest
              {| sb := sb b +:+ line
               ; currentTokenCount := currentTokenCount b + lineTokens line
               ; includedMessages := includedMessages b + 1
               ; journal := journal b ++ [(u, Written line)] |}
      end
  end.

Definition emptyBuilder : Builder :=
  {| sb := EmptyString; currentTokenCount := 0; includedMessages := 0; journal := [] |}.

(** The sort of lines 29-39 followed by the loop of lines 47-78. *)
Definition assemble (limit : Z) (updates : list Update) : Builder :=
  render limit (rev (SliceStable updates)) emptyBuilder.

(** The [support] template up to [{{.CurrentTime}}]. *)
Definition supportTemplateHead : string :=
  String.concat nl
  [
   "Summarize the following support-related messages. Structure the summary into these sections:";
   EmptyString;
   "1.  **Critical/Urgent Issues:** Bullet points for any urgent matters needing immediate attention.";
   "2.  **New Support Requests:** Briefly list new issues raised.";
   "3.  **Updates & Resolutions:** Summarize progress on ongoing issues or confirmed resolutions.";
   "4.  **Statistics:** Provide a brief statistical overview including: the total number of requests/messages summarized, a breakdown of request types (if possible), components frequently mentioned, and teams involved/mentioned.";
   EmptyString;
   "IMPORTANT: Each message below includes a " +:+ dq +:+ "Link:" +:+ dq +:+ " field containing the exact Slack message URL. When referencing messages, MUST use these exact URLs in markdown links: [Description](exact-slack-url).";
   EmptyString;
   "Use a professional and direct tone. Focus on actionable information.";
   EmptyString;
   "Current time for context: "
  ].

(** The [support] template between [{{.CurrentTime}}] and [{{.Messages}}]. *)
Definition supportTemplateMiddle : string :=
  String.concat nl
  [
   ".";
   EmptyString;
   "Messages:";
   EmptyString
  ].

(** The [support] template after [{{.Messages}}]. *)
Definition supportTemplateTail : string :=
  String.concat nl
  [
   EmptyString
  ].

(** The [default] template up to [{{.CurrentTime}}]. *)
Definition defaultTemplateHead : string :=
  String.concat nl
  [
   "You are an assistant that is providing me with important updates and information. You are going to give me key information for the week prior. I like my information presented";
   "like a newspaper, with key information at the top, important highlights, and any urgent topics clearly called out. The remaining information should";
   "be presented as a short summary with key highlights or takeaways that I should be aware of.";
   EmptyString;
   "Each message includes a timestamp in JST (Japan Standard Time). Use these timestamps to provide accurate timing information in your summary.";
   "For example, if a message is from " +:+ dq +:+ "2025-02-01 14:30:00 JST" +:+ dq +:+ ", say " +:+ dq +:+ "yesterday at 2:30 PM" +:+ dq +:+ " or " +:+ dq +:+ "on February 1st" +:+ dq +:+ " as appropriate.";
   "The current time is "
  ].

(** The [default] template between [{{.CurrentTime}}] and [{{.Messages}}]. *)
Definition defaultTemplateMiddle : string :=
  String.concat nl
  [
   ".";
   EmptyString;
   "Structure the summary in the following sections:";
   EmptyString;
   "1. " +:+ dq +:+ "Top highlights" +:+ dq +:+ " - 3-5 bullet points of the most important items, with links to the relevant Slack messages.";
   "2. " +:+ dq +:+ "Urgent Incidents and Support Issues" +:+ dq +:+ " - Bullet points of major support issues and incidents, with links to the relevant Slack message. Include any data in the information like when the incident started.";
   "3. " +:+ dq +:+ "General Updates" +:+ dq +:+ " - Group and summarize other interesting topics and announcements, provide any takeaways.";
   "4. " +:+ dq +:+ "Support and Incident Summary" +:+ dq +:+ " - Provide an overview of support requests and incidents, provide any takeaways and identify any follow up actions that I need.";
   EmptyString;
   "IMPORTANT: Each message below includes a " +:+ dq +:+ "Link:" +:+ dq +:+ " field containing the exact Slack message URL. When referencing messages in your summary, you MUST use these exact URLs in your markdown links. Do not modify the URLs or use placeholders. Format your links as [description](url)";
   EmptyString;
   "After you create your summary, review the above context to make sure the summary meets those expectations both in terms of format and content. ";
   "Also you need to double-check that the links to the slack message are correct and working links. They should be exactly the link provided in the 'Link:' field.";
   EmptyString;
   "As for the tone, I want you to sound cheery and bright. Make it happy and fun to read with little jokes and fun comments.";
   EmptyString;
   "Messages to summarize:";
   EmptyString
  ].

(** The [default] template after [{{.Messages}}]. *)
Definition defaultTemplateTail : string :=
  String.concat nl
  [
   EmptyString;
   EmptyString;
   "Please summarize these messages, making sure to use the exact Slack message URLs provided in the Link: fields above."
  ].

(** [tmpl.Execute] on the template selected by [focus], lines 85-153. *)
Definition prompt (focus CurrentTime Messages : string) : string :=
  if String.eqb focus "support" then
    supportTemplateHead +:+ CurrentTime +:+ supportTemplateMiddle +:+ Messages
    +:+ supportTemplateTail
  else
    defaultTemplateHead +:+ CurrentTime +:+ defaultTemplateMiddle +:+ Messages
    +:+ defaultTemplateTail.

(** [*goopenai.Client]: the reply to [CreateChatCompletion] for a user
    prompt, as the contents of [resp.Choices], or the error. *)
Definition Client : Type := string -> result (list string).

Definition systemMessage : string := "You summarize Slack messages into markdown digests.".

(** [GenerateSummary], lines 23-180; [now] is the reading of the clock, in
    seconds since the Unix epoch. *)
Definition GenerateSummary (client : Client) (updates : list Update) (focus : string)
    (now : Z) : list Event * result string :=
  if (List.length updates =? 0)%nat then ([], Ok "No new updates found.")
  else
    let b := assemble maxPromptLength updates in
    if (String.length (sb b) =? 0)%nat then
      ([], Ok "No processable messages found within token limits.")
    else
      let user := prompt focus (FormatJST rt "2006-01-02 15:04 JST" now) (sb b) in
      let call := [EvChatCompletion "gpt-4-turbo-preview" systemMessage user] in
      match client user with
      | Err err => (call, Err ("openai error: " +:+ err))
      | Ok [] => (call, Err "openai returned empty summary")
      | Ok (content :: _) =>
          if String.eqb content "" then (call, Err "openai returned empty summary")
          else (call, Ok content)
      end.

End WithRuntime.
End OpenAI.

(** ** Predicates on scripted replies used to state the properties *)

Module Script.

(** A directory page without a channel of the given name and with a
    continuation cursor: the directory loop goes on to the next page. *)
Definition isMissPage (channelName : string) (r : Remote.ConversationsReply) : bool :=
  match r with
  | Remote.ConversationsPage channels nextCursor =>
      match Slack.matchName channels channelName with
      | None => negb (String.eqb nextCursor "")
      | Some _ => false
      end
  | Remote.ConversationsError _ => false
  end.

(** The error of a history call that the loop of internal/slack treats as a
    rate limit: it is not a channel_not_found error and contains
    ratelimited. *)
Definition rateLimited (err : string) : bool :=
  negb (Go.Contains err "channel_not_found") && Go.Contains err "ratelimited".

Definition isRateLimitedReply (r : Remote.HistoryReply) : bool :=
  match r with
  | Remote.HistoryError err => rateLimited err
  | Remote.HistoryPage _ _ _ => false
  end.

(** The pauses taken after a rate limit. *)
Definition isBackoff (e : Event) : bool :=
  match e with EvSleep ms => ms =? 30000 | _ => false end.

End Script.

Module Retry.

(** Number of pauses taken after a rate limit in a trace. *)
Definition backoffs (tr : list Event) : nat := List.length (List.filter Script.isBackoff tr).



End Retry.

(** ** The fate of each message of a digest, by position in the sorted slice *)

Module Digest.

Section WithRuntime.
Variable rt : Go.GoRuntime.

(** The lines written by the rendering loop, in the order written. *)
Definition writtenLines (j : list (Update * OpenAI.Fate)) : list string :=
  flat_map (fun e => match snd e with OpenAI.Written line => [line] | _ => [] end) j.

(** The content of a [strings.Builder] after writing [lines] in order. *)
Definition written (lines : list string) : string :=
  fold_right String.append EmptyString lines.

Definition sumTokens (lines : list string) : Z :=
  fold_right (fun line total => OpenAI.lineTokens line + total) 0 lines.

(** A journal entry agrees with [formatTimestamp]: a written line is the
    line of the update, and an update is skipped as unformattable exactly
    when its timestamp does not format. *)
Definition fateSound (e : Update * OpenAI.Fate) : Prop :=
  match snd e with
  | OpenAI.Written line =>
      exists formattedTime,
        OpenAI.formatTimestamp rt (Timestamp (fst e)) = Ok formattedTime
        /\ line = OpenAI.messageLine formattedTime (fst e)
  | OpenAI.Unformattable =>
      exists err, OpenAI.formatTimestamp rt (Timestamp (fst e)) = Err err
  | OpenAI.OverLimit =>
      exists formattedTime, OpenAI.formatTimestamp rt (Timestamp (fst e)) = Ok formattedTime
  end.

(** What the loop did with [updates[i]] of the sorted slice; [None] when
    the loop stopped before reaching it.  The loop visits index
    [len(updates) - 1] first. *)
Definition fateAt (limit : Z) (updates : list Update) (i : nat) : option OpenAI.Fate :=
  let n := List.length updates in
  if (i <? n)%nat
  then snd <$> (OpenAI.journal (OpenAI.assemble rt limit updates) !! (n - 1 - i)%nat)
  else None.

(** [updates[i]] has its line in the prompt. *)
Definition included (limit : Z) (updates : list Update) (i : nat) : Prop :=
  exists line, fateAt limit updates i = Some (OpenAI.Written line).

(** [updates[i]] has no line in the prompt. *)
Definition excluded (limit : Z) (updates : list Update) (i : nat) : Prop :=
  (i < List.length updates)%nat /\ ~ included limit updates i.

(** [updates[i]] has no line in the prompt because of the limit: the loop
    stopped at it or before reaching it. *)
Definition excludedForBudget (limit : Z) (updates : list Update) (i : nat) : Prop :=
  (i < List.length updates)%nat
  /\ (fateAt limit updates i = Some OpenAI.OverLimit \/ fateAt limit updates i = None).

(** The ordering that C2 states: once a message is excluded for the
    budget, every message without a line precedes, in the sorted slice,
    every message with a line. *)
Definition exclusionsPrecedeInclusions (limit : Z) (updates : list Update) : Prop :=
  (exists i, excludedForBudget limit updates i) ->
  forall i j, excluded limit updates i -> included limit updates j -> (i < j)%nat.


End WithRuntime.
End Digest.

Module Renderable.

Section WithRuntime.
Variable rt : Go.GoRuntime.



End WithRuntime.
End Renderable.
From Stdlib Require DecimalPos.


(** ** Readings of scripts and traces used by the further properties *)

Module Reading.

(** The messages delivered by the pages of a list of history replies, in
    order. *)
Definition deliveredOf (replies : list Remote.HistoryReply) : list Remote.Delivered :=
  flat_map (fun r => match r with
                     | Remote.HistoryPage Messages _ _ => Messages
                     | Remote.HistoryError _ => []
                     end) replies.

(** The store with another content of [last_fetched]. *)
Definition withLastFetch (db : Remote.DB) (stored : Remote.LastFetchReply) : Remote.DB :=
  {| Remote.lookupReply := Remote.lookupReply db
   ; Remote.upsertReply := Remote.upsertReply db
   ; Remote.lastFetchReply := stored
   ; Remote.updateLastFetchReply := Remote.updateLastFetchReply db
   ; Remote.messagesReply := Remote.messagesReply db
   ; Remote.saveReply := Remote.saveReply db |}.

(** The timestamps of the permalink calls of a trace. *)
Definition permalinkCalls (tr : list Event) : list string :=
  flat_map (fun e => match e with EvGetPermalink _ ts => [ts] | _ => [] end) tr.

(** The reads of [last_fetched], the cache upserts, the directory requests
    and the message saves of a trace. *)
Definition lastFetchReads (tr : list Event) : list Event :=
  List.filter (fun e => match e with EvGetLastFetch _ => true | _ => false end) tr.

Definition upserts (tr : list Event) : list Event :=
  List.filter (fun e => match e with EvUpsertChannel _ _ => true | _ => false end) tr.

Definition directoryCursors (tr : list Event) : list string :=
  flat_map (fun e => match e with EvGetConversations c => [c] | _ => [] end) tr.

Definition saves (tr : list Event) : list Event :=
  List.filter (fun e => match e with EvSaveMessage _ _ => true | _ => false end) tr.

Definition chatCalls (tr : list Event) : list Event :=
  List.filter (fun e => match e with EvChatCompletion _ _ _ => true | _ => false end) tr.

Section WithRuntime.
Variable rt : Go.GoRuntime.

(** The [Update] that internal/slack builds for a kept message, lines
    161-183: permalink or fallback link, classification, struct literal. *)
Definition slackUpdateFor (channelSlackID channelName : string) (d : Remote.Delivered)
  : Update :=
  let m := Remote.msg d in
  {| Text := Remote.Text m
   ; Timestamp := Remote.Timestamp m
   ; Link := match Remote.permalinkReply d with
             | Ok link => link
             | Err _ => "https://slack.com/archives/" +:+ channelSlackID +:+ "/p"
                        +:+ Go.RemoveFirst (Remote.Timestamp m) "."
             end
   ; Channel := channelName
   ; Category := fst (Slack.categorizeMessage rt channelName (Remote.Text m))
   ; Priority := snd (Slack.categorizeMessage rt channelName (Remote.Text m)) |}.

(** The [Update] that main.go builds for a kept message, lines 373-393. *)
Definition mainUpdateFor (channelName : string) (d : Remote.Delivered) : Update :=
  let m := Remote.msg d in
  {| Text := Remote.Text m
   ; Timestamp := Remote.Timestamp m
   ; Link := match Remote.permalinkReply d with Ok link => link | Err _ => "N/A" end
   ; Channel := channelName
   ; Category := fst (Main.categorizeMessage rt channelName (Remote.Text m))
   ; Priority := snd (Main.categorizeMessage rt channelName (Remote.Text m)) |}.

Definition slackKept (d : Remote.Delivered) : bool := negb (Slack.skipped (Remote.msg d)).
Definition mainKept (d : Remote.Delivered) : bool := negb (Main.skipped (Remote.msg d)).

End WithRuntime.
End Reading.

Module Directory.

(** A directory reply that ends the search without a match: an error of
    the call, or a page without a channel of the given name and without a
    continuation cursor. *)
Definition endsWithoutMatch (channelName : string) (r : Remote.ConversationsReply) : bool :=
  match r with
  | Remote.ConversationsError _ => true
  | Remote.ConversationsPage channels nextCursor =>
      match Slack.matchName channels channelName with
      | None => String.eqb nextCursor ""
      | Some _ => false
      end
  end.

(** What a resolver leaves in the cache: nothing, or one row for the
    channel it returns. *)
Definition writesAtMostTheMatch (nm : string) (run : list Event * option (result (string * Z)))
  : Prop :=
  Reading.upserts (fst run) = []
  \/ exists sid id, snd run = Some (Ok (sid, id)) /\ Reading.upserts (fst run) = [EvUpsertChannel sid nm].

End Directory.

Module Pass.

(** The events a channel pass may show when reads of [last_fetched] are
    allowed or not, writes of it are allowed or not, and every history
    request is made with the variable [since] of the caller holding
    [since]. *)
Definition allowed (reads writes : bool) (since : Time) (e : Event) : bool :=
  match e with
  | EvGetLastFetch _ => reads
  | EvUpdateLastFetch _ => writes
  | EvGetHistory _ s _ => s =? since
  | EvChatCompletion _ _ _ => false
  | _ => true
  end.

Definition within (reads writes : bool) (since : Time) (tr : list Event) : Prop :=
  Forall (fun e => allowed reads writes since e = true) tr.

End Pass.

Module Order.

(** [a] may stand before [b] in a slice sorted with [less]: [b] is not
    less than [a]. *)
Definition inOrder (a b : Update) : Prop := OpenAI.less b a = false.

(** The timestamp of the update has the form that [FormatTimestamp]
    accepts. *)
Definition sortable (u : Update) : Prop := OpenAI.FormatTimestamp (Timestamp u) <> None.

(** Neither update is less than the other: the sort has no reason to
    change their order. *)
Definition tied (a b : Update) : bool := negb (OpenAI.less a b) && negb (OpenAI.less b a).

End Order.

Module Run.

Section WithRuntime.
Variable rt : Go.GoRuntime.

(** [saveMessage] succeeds for the update: its timestamp scans, the zone
    loads, and the store accepts the row. *)
Definition savedOk (db : Remote.DB) (u : Update) : bool :=
  match Main.formatTimestamp rt (Timestamp u) with
  | Ok _ => match Remote.saveReply db u with Ok _ => true | Err _ => false end
  | Err _ => false
  end.

(** One pass of the channel loop for a target, and what a pass contributes
    to [allUpdates] and [totalMessagesSaved]. *)
Definition passOf (fromDate now : Time) (target : string * Remote.Client * Remote.DB)
  : list Event * option Main.Pass :=
  let '(channelName, api, db) := target in
  Main.processChannel rt api db channelName fromDate now.

Definition passUpdates (p : option Main.Pass) : list Update :=
  match p with Some (Main.Completed updates _) => updates | _ => [] end.

Definition passSaved (p : option Main.Pass) : Z :=
  match p with Some (Main.Completed _ messagesSaved) => messagesSaved | _ => 0 end.

End WithRuntime.
End Run.

(** ** main.go, continued *)

Module MainText.
Import Go.

(** [strings.ReplaceAll(s, old, new)] for a non-empty [old], given as its
    first byte and the rest: matches are taken from left to right and do
    not overlap.  [skip] counts the bytes of a match still to be passed. *)
Fixpoint replaceFrom (s : string) (oldHead : ascii) (oldTail new : string) (skip : nat)
  : string :=
  match s with
  | EmptyString => EmptyString
  | String c s' =>
      match skip with
      | S k => replaceFrom s' oldHead oldTail new k
      | O =>
          if String.prefix (String oldHead oldTail) s
          then new +:+ replaceFrom s' oldHead oldTail new (String.length oldTail)
          else String c (replaceFrom s' oldHead oldTail new 0)
      end
  end.

Definition ReplaceAll (s : string) (oldHead : ascii) (oldTail new : string) : string :=
  replaceFrom s oldHead oldTail new 0.

Definition lf : ascii := ascii_of_nat 10.

(** The bytes after the first one of the fourth pattern of [formatMessage],
    as they stand in the source file: 0xC3 0xA2 0xE2 0x82 0xAC 0xC2 0xA2. *)
Definition bulletHead : ascii := ascii_of_nat 195.
Definition bulletTail : string :=
  String (ascii_of_nat 162) (String (ascii_of_nat 226) (String (ascii_of_nat 130)
    (String (ascii_of_nat 172) (String (ascii_of_nat 194) (String (ascii_of_nat 162)
      EmptyString))))).

(** [formatMessage] of main.go, lines 450-460. *)
Definition formatMessage (text : string) : string :=
  let text := ReplaceAll text "*" "" "" in
  let text := ReplaceAll text "_" "" "" in
  let text := ReplaceAll text "`" "" "" in
  let text := ReplaceAll text bulletHead bulletTail "-" in
  let text := ReplaceAll text lf (String lf (String lf EmptyString)) (String lf EmptyString) in
  let text := ReplaceAll text lf (String lf EmptyString) (String lf EmptyString) in
  text.

(** The bytes of a string. *)
Definition bytes (s : string) : list ascii := list_ascii_of_string s.

End MainText.

Module MainSummary.
Import Go.

(** The backslash, which the raw string of the [support] prompt holds
    before each double quote. *)
Definition bs : string := String (ascii_of_nat 92) EmptyString.
Definition dq : string := OpenAI.dq.
Definition nl : string := OpenAI.nl.

(** The four slices filled by the loop of lines 486-498. *)
Record Buckets : Type := mkBuckets
  { alertUpdates : list Update
  ; supportUpdates : list Update
  ; generalUpdates : list Update
  ; highPriorityUpdates : list Update }.

Definition noBuckets : Buckets :=
  {| alertUpdates := []; supportUpdates := []; generalUpdates := []
   ; highPriorityUpdates := [] |}.

(** The body of the loop of lines 486-498. *)
Definition place (b : Buckets) (update : Update) : Buckets :=
  let b :=
    if Priority update >=? 3 then
      {| alertUpdates := alertUpdates b; supportUpdates := supportUpdates b
       ; generalUpdates := generalUpdates b
       ; highPriorityUpdates := highPriorityUpdates b ++ [update] |}
    else b in
  if String.eqb (Category update) "alert" then
    {| alertUpdates := alertUpdates b ++ [update]; supportUpdates := supportUpdates b
     ; generalUpdates := generalUpdates b; highPriorityUpdates := highPriorityUpdates b |}
  else if String.eqb (Category update) "support" then
    {| alertUpdates := alertUpdates b; supportUpdates := supportUpdates b ++ [update]
     ; generalUpdates := generalUpdates b; highPriorityUpdates := highPriorityUpdates b |}
  else
    {| alertUpdates := alertUpdates b; supportUpdates := supportUpdates b
     ; generalUpdates := generalUpdates b ++ [update]
     ; highPriorityUpdates := highPriorityUpdates b |}.

Definition fill (updates : list Update) : Buckets := fold_left place updates noBuckets.

(** The order that [sort.Slice] of lines 477-479 leaves: no update stands
    before one of a greater priority.  The sort is not stable, so the
    functions below take the slice as the sort left it. *)
Definition descending (sorted : list Update) : Prop :=
  StronglySorted (fun a b => Priority b <= Priority a) sorted.

Definition header : string :=
  "Here are the messages from the last week, grouped by category:" +:+ nl +:+ nl.

Section WithRuntime.
Variable rt : GoRuntime.

(** The four [WriteString] calls for one update, lines 505-516. *)
Definition block (update : Update) : string :=
  let timeStr :=
    match Main.formatTimestamp rt (Timestamp update) with
    | Ok msgTime => FormatJST rt "2006-01-02 15:04:05 JST" msgTime
    | Err _ => "unknown time"
    end in
  ("Channel: " +:+ Channel update +:+ nl)
  +:+ ("Time: " +:+ timeStr +:+ nl)
  +:+ ("Message: " +:+ MainText.formatMessage (Text update) +:+ nl)
  +:+ ("Link: " +:+ Link update +:+ nl +:+ nl).

(** The closure [writeUpdates], lines 502-519, on the builder [sb]. *)
Definition writeUpdates (sb : string) (updates : list Update) (section : string) : string :=
  if (0 <? List.length updates)%nat then
    fold_left (fun sb update => sb +:+ block update) updates (sb +:+ (section +:+ ":" +:+ nl))
  else sb.

(** The builder after lines 500-524. *)
Definition messages (sorted : list Update) : string :=
  let b := fill sorted in
  let sb := header in
  let sb := writeUpdates sb (highPriorityUpdates b) "High Priority Messages" in
  let sb := writeUpdates sb (alertUpdates b) "Alert Messages" in
  let sb := writeUpdates sb (supportUpdates b) "Support Messages" in
  let sb := writeUpdates sb (generalUpdates b) "General Messages" in
  sb.

(** The updates in the order of their blocks in the builder. *)
Definition blocksWritten (sorted : list Update) : list Update :=
  let b := fill sorted in
  highPriorityUpdates b ++ alertUpdates b ++ supportUpdates b ++ generalUpdates b.

(** The system message of the [support] focus. *)
Definition supportSystemMessage : string :=
  String.concat nl
  [
   "You are a highly efficient support team assistant. You analyze Slack messages from support channels and provide a concise, actionable summary focused on customer issues, escalations, and resolutions. Prioritize clarity and urgency."
  ].

(** The [support] prompt up to the current time. *)
Definition supportPromptHead : string :=
  String.concat nl
  [
   "Summarize the following support-related messages. Structure the summary into these sections:";
   EmptyString;
   "1.  **Critical/Urgent Issues:** Bullet points for any urgent matters needing immediate attention.";
   "2.  **New Support Requests:** Briefly list new issues raised.";
   "3.  **Updates & Resolutions:** Summarize progress on ongoing issues or confirmed resolutions.";
   "4.  **Statistics:** Provide a brief statistical overview including: the total number of requests/messages summarized, a breakdown of request types (if possible), components frequently mentioned, and teams involved/mentioned.";
   EmptyString;
   "IMPORTANT: Each message below includes a " +:+ bs +:+ dq +:+ "Link:" +:+ bs +:+ dq +:+ " field containing the exact Slack message URL. When referencing messages, MUST use these exact URLs in markdown links: [Description](exact-slack-url).";
   EmptyString;
   "Use a professional and direct tone. Focus on actionable information.";
   EmptyString;
   "Current time for context: "
  ].

(** The [support] prompt between the current time and the messages. *)
Definition supportPromptMiddle : string :=
  String.concat nl
  [
   ".";
   EmptyString;
   "Messages:";
   EmptyString
  ].

(** The [support] prompt after the messages. *)
Definition supportPromptTail : string :=
  String.concat nl
  [
   EmptyString;
   "Please provide the support-focused summary."
  ].

(** The system message of the [default] focus. *)
Definition defaultSystemMessage : string :=
  String.concat nl
  [
   "You are a helpful assistant providing a fun, newspaper-style summary of Slack channel updates. Highlight key info and urgent items clearly."
  ].

(** The [default] prompt up to the current time. *)
Definition defaultPromptHead : string :=
  String.concat nl
  [
   "You are an assistant that is providing me with important updates and information. You are going to give me key information for the week prior. I like my information presented";
   "like a newspaper, with key information at the top, important highlights, and any urgent topics clearly called out. The remaining information should";
   "be presented as a short summary with key highlights or takeaways that I should be aware of.";
   EmptyString;
   "Each message includes a timestamp in JST (Japan Standard Time). Use these timestamps to provide accurate timing information in your summary.";
   "For example, if a message is from " +:+ dq +:+ "2025-02-01 14:30:00 JST" +:+ dq +:+ ", say " +:+ dq +:+ "yesterday at 2:30 PM" +:+ dq +:+ " or " +:+ dq +:+ "on February 1st" +:+ dq +:+ " as appropriate.";
   "The current time is "
  ].

(** The [default] prompt between the current time and the messages. *)
Definition defaultPromptMiddle : string :=
  String.concat nl
  [
   ".";
   EmptyString;
   "Structure the summary in the following sections:";
   EmptyString;
   "1. " +:+ dq +:+ "Top highlights" +:+ dq +:+ " - 3-5 bullet points of the most important items, with links to the relevant Slack messages.";
   "2. " +:+ dq +:+ "Urgent Incidents and Support Issues" +:+ dq +:+ " - Bullet points of major support issues and incidents, with links to the relevant Slack message. Include any data in the information like when the incident started.";
   "3. " +:+ dq +:+ "General Updates" +:+ dq +:+ " - Group and summarize other interesting topics and announcements, provide any takeaways.";
   "4. " +:+ dq +:+ "Support and Incident Summary" +:+ dq +:+ " - Provide an overview of support requests and incidents, provide any takeaways and identify any follow up actions that I need.";
   EmptyString;
   "IMPORTANT: Each message below includes a " +:+ dq +:+ "Link:" +:+ dq +:+ " field containing the exact Slack message URL. When referencing messages in your summary, you MUST use these exact URLs in your markdown links. Do not modify the URLs or use placeholders. Format your links as [description](url)";
   EmptyString;
   "After you create your summary, review the above context to make sure the summary meets those expectations both in terms of format and content. ";
   "Also you need to double-check that the links to the slack message are correct and working links. They should be exactly the link provided in the 'Link:' field.";
   EmptyString;
   "As for the tone, I want you to sound cheery and bright. Make it happy and fun to read with little jokes and fun comments.";
   EmptyString;
   "Messages to summarize:";
   EmptyString
  ].

(** The [default] prompt after the messages. *)
Definition defaultPromptTail : string :=
  String.concat nl
  [
   EmptyString;
   EmptyString;
   "Please summarize these messages, making sure to use the exact Slack message URLs provided in the Link: fields above."
  ].

(** The system message and the user prompt selected by [focus], lines
    526-575; [clock layout] is [time.Now().Format(layout)]. *)
Definition request (clock : string -> string) (sorted : list Update) (focus : string)
  : string * string :=
  if String.eqb focus "support" then
    (supportSystemMessage,
     supportPromptHead +:+ clock "2006-01-02 15:04 JST" +:+ supportPromptMiddle
     +:+ messages sorted +:+ supportPromptTail)
  else
    (defaultSystemMessage,
     defaultPromptHead +:+ clock "2006-01-02 15:04:05 JST" +:+ defaultPromptMiddle
     +:+ messages sorted +:+ defaultPromptTail).

(** [*openai.Client]: the reply to [CreateChatCompletion] for a system
    message and a user prompt, as the contents of [resp.Choices], or the
    error. *)
Definition Client : Type := string -> string -> result (list string).

(** How a call of [generateSummary] ends: it returns, or the index
    expression [resp.Choices[0]] of line 607 panics. *)
Inductive Outcome : Type :=
| Returns (r : result string)
| IndexOutOfRange.

(** [generateSummary], lines 476-608, from line 481 on: [sorted] is the
    slice as the sort of lines 477-479 left it. *)
Definition generateSummary (client : Client) (clock : string -> string)
    (sorted : list Update) (focus : string) : list Event * Outcome :=
  let '(systemMessage, prompt) := request clock sorted focus in
  let call := [EvChatCompletion "gpt-4o-mini-2024-07-18" systemMessage prompt] in
  match client systemMessage prompt with
  | Err err => (call, Returns (Err ("error generating summary: " +:+ err)))
  | Ok [] => (call, IndexOutOfRange)
  | Ok (content :: _) => (call, Returns (Ok content))
  end.

End WithRuntime.
End MainSummary.

Module MainFlags.
Import Go.

(** [strings.HasSuffix] and [strings.TrimSuffix]. *)
Definition HasSuffix (s suffix : string) : bool :=
  (String.length suffix <=? String.length s)%nat
  && String.eqb (String.substring (String.length s - String.length suffix)
                   (String.length suffix) s) suffix.

Definition TrimSuffix (s suffix : string) : string :=
  if HasSuffix s suffix
  then String.substring 0 (String.length s - String.length suffix) s
  else s.

(** The parsers of package time that [parseFromDate] calls. *)
Record TimeParsers : Type := mkTimeParsers
  { (** [time.Parse("2006-01-02", s)] followed by [time.Date] at midnight
        of that day in [time.Local]; [None] is the parse error *)
    ParseLocalDate : string -> option Time
  ; (** [time.ParseDuration(s)], in nanoseconds; [None] is the error *)
    ParseDuration : string -> option Z }.

(** [parseFromDate], lines 122-159; [now] is the reading of the clock. *)
Definition parseFromDate (tp : TimeParsers) (now : Time) (fromDateStr : string)
  : result Time :=
  if String.eqb fromDateStr "" then Ok zeroTime
  else
    match ParseLocalDate tp fromDateStr with
    | Some t => Ok t
    | None =>
        let converted : result string :=
          if HasSuffix fromDateStr "d" then
            let daysStr := TrimSuffix fromDateStr "d" in
            match ParseInt daysStr with
            | Some days =>
                if days >? 0 then
                  let hours := wrap64 (days * 24) in
                  Ok (Itoa hours +:+ "h")
                else Err "invalid day format in --from-date duration"
            | None => Err "invalid day format in --from-date duration"
            end
          else Ok fromDateStr in
        match converted with
        | Err e => Err e
        | Ok fromDateStr =>
            match ParseDuration tp fromDateStr with
            | Some dur =>
                let dur := if dur >? 0 then - dur else dur in
                Ok (now + dur)
            | None =>
                Err "invalid --from-date format. Use YYYY-MM-DD or duration (e.g., 24h, 7d)"
            end
        end
    end.

End MainFlags.

(** Predicates used to state the properties of main.go's generateSummary. *)
Module Bucket.

Definition isHigh (u : Update) : bool := Priority u >=? 3.
Definition isAlert (u : Update) : bool := String.eqb (Category u) "alert".
Definition isSupport (u : Update) : bool := String.eqb (Category u) "support".
Definition isGeneral (u : Update) : bool := negb (isAlert u) && negb (isSupport u).

End Bucket.

(** ** Concrete inputs on which the model is evaluated *)

Module Samples.

(** A thread reply that is also broadcast to the channel. *)
Definition broadcastReply : Remote.Message :=
  {| Remote.BotID := ""
   ; Remote.Type_ := "message"
   ; Remote.SubType := "thread_broadcast"
   ; Remote.ThreadTimestamp := "1700000000.000100"
   ; Remote.Timestamp := "1700000100.000200"
   ; Remote.Text := "fix is deployed" |}.

(** A store without a row for the channel and whose upsert fails. *)
Definition brokenUpsertDb : Remote.DB :=
  {| Remote.lookupReply := Remote.ErrNoRows
   ; Remote.upsertReply := Err "pq: connection reset"
   ; Remote.lastFetchReply := Remote.LastFetchNull
   ; Remote.updateLastFetchReply := Ok tt
   ; Remote.messagesReply := Ok []
   ; Remote.saveReply := fun _ => Ok tt |}.

(** A directory of two pages; the channel support-tier1 is on the second. *)
Definition firstPage : Remote.ConversationsReply :=
  Remote.ConversationsPage
    [ Remote.mkConversation "C111" "general" false
    ; Remote.mkConversation "C112" "random" false ] "cursor-2".

Definition secondPageChannels : list Remote.Conversation :=
  [ Remote.mkConversation "C221" "alerts" false
  ; Remote.mkConversation "C222" "support-tier1" true ].

(** A store that knows the channel (local id 7, watermark set) and accepts
    every write. *)
Definition healthyDb : Remote.DB :=
  {| Remote.lookupReply := Remote.RowFound 7 "C222"
   ; Remote.upsertReply := Ok 7
   ; Remote.lastFetchReply := Remote.LastFetchAt 1700000000000000000
   ; Remote.updateLastFetchReply := Ok tt
   ; Remote.messagesReply := Ok []
   ; Remote.saveReply := fun _ => Ok tt |}.

(** A workspace whose history call succeeds with an empty page. *)
Definition quietWorkspace : Remote.Client :=
  {| Remote.conversations := []
   ; Remote.history := [Remote.HistoryPage [] false ""] |}.

(** A workspace whose history call fails twice with an error text that has
    ratelimited in it and then fails with channel_not_found. *)
Definition forbiddenWorkspace : Remote.Client :=
  {| Remote.conversations := []
   ; Remote.history :=
       [ Remote.HistoryError "slack rate limit exceeded: ratelimited"
       ; Remote.HistoryError "ratelimited"
       ; Remote.HistoryError "channel_not_found" ] |}.


(** A workspace whose history call fails with a network error. *)
Definition unreachableWorkspace : Remote.Client :=
  {| Remote.conversations := []
   ; Remote.history := [Remote.HistoryError "dial tcp: i/o timeout"] |}.

(** The clock of the sample runs, 2023-11-15 in nanoseconds. *)
Definition sampleNow : Time := 1700006400000000000.

(** A workspace whose history is one page with one ordinary message. *)
Definition deployNotice : Remote.Message :=
  {| Remote.BotID := ""
   ; Remote.Type_ := "message"
   ; Remote.SubType := ""
   ; Remote.ThreadTimestamp := ""
   ; Remote.Timestamp := "1700000200.000300"
   ; Remote.Text := "deploy finished" |}.

Definition busyWorkspace : Remote.Client :=
  {| Remote.conversations := []
   ; Remote.history :=
       [Remote.HistoryPage
          [Remote.mkDelivered deployNotice (Ok "https://example.slack.com/archives/C222/p1")]
          false ""] |}.

(** Three updates for a digest: a long report of low priority, a short note
    of medium priority, and an alert whose timestamp is the text of a SQL
    timestamp column rather than Slack's decimal seconds. *)
Definition longReport : Update :=
  {| Text := String.concat "" (repeat "word " 3800)
   ; Timestamp := "1700000000.000100"
   ; Link := "https://example.slack.com/archives/C222/p1"
   ; Channel := "general"
   ; Category := "general"
   ; Priority := 1 |}.

Definition shortNote : Update :=
  {| Text := "ticket 42 is waiting for the customer"
   ; Timestamp := "1700000300.000200"
   ; Link := "https://example.slack.com/archives/C222/p2"
   ; Channel := "support-tier1"
   ; Category := "support"
   ; Priority := 2 |}.

Definition strayAlert : Update :=
  {| Text := "database is down"
   ; Timestamp := "2025-02-01T05:30:00Z"
   ; Link := "https://example.slack.com/archives/C222/p3"
   ; Channel := "alerts"
   ; Category := "alert"
   ; Priority := 3 |}.

Definition digestInput : list Update := [shortNote; strayAlert; longReport].

(** The merge scenario: three fresh messages, the first two with the same
    timestamp, and two persisted ones. *)
Definition stamped (text ts : string) : Update :=
  {| Text := text; Timestamp := ts; Link := ""; Channel := "general"
   ; Category := ""; Priority := 0 |}.

Definition freshBatch : list Update :=
  [stamped "fresh a" "100.001"; stamped "fresh a again" "100.001"; stamped "fresh b" "200.000"].

Definition persistedBatch : list Update :=
  [stamped "stored b" "200.000"; stamped "stored c" "50.000"].

(** A store without a row for the channel that accepts the upsert. *)
Definition emptyCacheDb : Remote.DB :=
  {| Remote.lookupReply := Remote.ErrNoRows
   ; Remote.upsertReply := Ok 7
   ; Remote.lastFetchReply := Remote.LastFetchNull
   ; Remote.updateLastFetchReply := Ok tt
   ; Remote.messagesReply := Ok []
   ; Remote.saveReply := fun _ => Ok tt |}.

Definition twoPageDirectory : Remote.Client :=
  {| Remote.conversations :=
       [firstPage; Remote.ConversationsPage secondPageChannels ""]
   ; Remote.history := [] |}.

(** A history of two pages: a bot message and an ordinary one, then, after
    a rate limit, a thread reply and an ordinary message whose permalink
    call fails. *)
Definition plain (ts text : string) : Remote.Message :=
  {| Remote.BotID := ""; Remote.Type_ := "message"; Remote.SubType := ""
   ; Remote.ThreadTimestamp := ""; Remote.Timestamp := ts; Remote.Text := text |}.

Definition fromBot : Remote.Message :=
  {| Remote.BotID := "B01"; Remote.Type_ := "message"; Remote.SubType := ""
   ; Remote.ThreadTimestamp := ""; Remote.Timestamp := "1700000400.000100"
   ; Remote.Text := "build passed" |}.

Definition threadReply : Remote.Message :=
  {| Remote.BotID := ""; Remote.Type_ := "message"; Remote.SubType := ""
   ; Remote.ThreadTimestamp := "1700000200.000300"; Remote.Timestamp := "1700000250.000100"
   ; Remote.Text := "thanks" |}.

Definition pagedHistory : list Remote.HistoryReply :=
  [ Remote.HistoryPage
      [ Remote.mkDelivered fromBot (Ok "https://example.slack.com/archives/C222/p9")
      ; Remote.mkDelivered (plain "1700000300.000200" "urgent: need help with login")
          (Ok "https://example.slack.com/archives/C222/p8") ]
      true "page-2"
  ; Remote.HistoryError "ratelimited"
  ; Remote.HistoryPage
      [ Remote.mkDelivered threadReply (Ok "https://example.slack.com/archives/C222/p7")
      ; Remote.mkDelivered (plain "1700000200.000300" "deploy finished") (Err "timeout") ]
      false "" ].

Definition pagedWorkspace : Remote.Client :=
  {| Remote.conversations := []; Remote.history := pagedHistory |}.

(** The fetch of internal/slack over that history. *)
Definition pagedFetch : list Event * list Update :=
  match Slack.fetchLoop GoEval.runtime "C222" "support-tier1" 0 pagedHistory "" [] with
  | (tr, Some (Ok us)) => (tr, us)
  | (tr, _) => (tr, [])
  end.

(** A directory whose second and last page has no channel of the name. *)
Definition exhaustedDirectory : Remote.Client :=
  {| Remote.conversations :=
       [firstPage] ++ Remote.ConversationsPage secondPageChannels "" :: []
   ; Remote.history := [] |}.

(** The user prompt that GenerateSummary sends for the short note alone. *)
Definition shortNotePrompt : string :=
  match fst (OpenAI.GenerateSummary GoEval.runtime (fun _ => Ok ["a summary"]) [shortNote]
               "support" 1700006400) with
  | [EvChatCompletion _ _ user] => user
  | _ => EmptyString
  end.

(** Three targets for a run of the channel loop: a channel with one new
    message, one whose history call fails, and one without new messages. *)
Definition threeTargets : list (string * Remote.Client * Remote.DB) :=
  [ ("support-tier1", busyWorkspace, healthyDb)
  ; ("alerts", unreachableWorkspace, healthyDb)
  ; ("general", quietWorkspace, healthyDb) ].


(** Parsers that know durations in whole hours, as [168h], and no date:
    enough to evaluate parseFromDate on relative dates. *)
Definition wholeHours : MainFlags.TimeParsers :=
  {| MainFlags.ParseLocalDate := fun _ => None
   ; MainFlags.ParseDuration := fun s =>
       if MainFlags.HasSuffix s "h" then
         match Go.ParseInt (MainFlags.TrimSuffix s "h") with
         | Some hours => Some (hours * 3600 * 10 ^ 9)
         | None => None
         end
       else None |}.

(** A slice as the sort of generateSummary may leave it, and a clock. *)
Definition sortedInput : list Update := [strayAlert; shortNote; longReport].

Definition fixedClock (layout : string) : string := "2023-11-15 09:00 JST".
End Samples.

(** * Properties *)

Section MergeFacts.
Import Merge.

Lemma merge_inv_init : merge_inv (∅, []).
Proof.
  split; simpl.
  - constructor.
  - intros k. unfold seen_get. rewrite lookup_empty. simpl. split; [discriminate | tauto].
Qed.

Lemma seen_get_insert seen k k' :
  seen_get (<[k := true]> seen) k' = true <-> k = k' \/ seen_get seen k' = true.
Proof.
  unfold seen_get. destruct (decide (k = k')) as [->|Hne].
  - rewrite lookup_insert_eq. simpl. tauto.
  - rewrite lookup_insert_ne by done. tauto.
Qed.

Lemma step_inv st u : merge_inv st -> merge_inv (step st u).
Proof.
  destruct st as [seen out]. intros [Hnd Hseen]. unfold step. simpl in *.
  destruct (seen_get seen (Timestamp u)) eqn:E; simpl.
  - split; assumption.
  - split; simpl; unfold keys in *; rewrite map_app; simpl.
    + apply NoDup_app. split; [assumption|]. split.
      * intros x Hx Hin. apply list_elem_of_In in Hx. apply list_elem_of_In in Hin.
        simpl in Hin. destruct Hin as [<-|[]].
        apply Hseen in Hx. congruence.
      * apply NoDup_singleton.
    + intros k. rewrite seen_get_insert, in_app_iff, Hseen. simpl. tauto.
Qed.

Lemma range_inv l st : merge_inv st -> merge_inv (range l st).
Proof.
  revert st. induction l as [|u l IH]; intros st H; simpl; [assumption|].
  apply IH, step_inv, H.
Qed.

End MergeFacts.

Section MergeTheorems.
Import Merge.

Lemma find_snoc {A} (f : A -> bool) (l : list A) (x : A) :
  find f (l ++ [x]) =
  match find f l with Some y => Some y | None => if f x then Some x else None end.
Proof.
  induction l as [|y l IH]; simpl; [reflexivity|].
  destruct (f y); [reflexivity | exact IH].
Qed.

Lemma step_first_with ts st u :
  merge_inv st ->
  first_with ts (snd (step st u)) =
  match first_with ts (snd st) with
  | Some v => Some v
  | None => if String.eqb (Timestamp u) ts then Some u else None
  end.
Proof.
  destruct st as [seen out]. intros [_ Hseen]. unfold step, first_with. simpl in *.
  destruct (seen_get seen (Timestamp u)) eqn:E; simpl.
  - destruct (find _ out) eqn:F; [reflexivity|].
    destruct (String.eqb_spec (Timestamp u) ts) as [Heq|]; [|reflexivity].
    exfalso. apply Hseen in E. unfold keys in E. apply in_map_iff in E.
    destruct E as (v & Hv & Hin).
    eapply find_none in F; [|exact Hin]. simpl in F.
    rewrite Hv, Heq, String.eqb_refl in F. discriminate.
  - rewrite find_snoc. reflexivity.
Qed.

(** Once a key has an element in the result, later iterations keep it. *)
Lemma range_first_with_keep ts l st v :
  merge_inv st -> first_with ts (snd st) = Some v ->
  first_with ts (snd (range l st)) = Some v.
Proof.
  revert st. induction l as [|u l IH]; intros st Hinv Hv; simpl; [assumption|].
  apply IH; [apply step_inv, Hinv|]. rewrite step_first_with by assumption.
  rewrite Hv. reflexivity.
Qed.

(** While a key has no element in the result, the loop picks the first
    element of the ranged list that carries it. *)
Lemma range_first_with_new ts l st :
  merge_inv st -> first_with ts (snd st) = None ->
  first_with ts (snd (range l st)) = first_with ts l.
Proof.
  revert st. induction l as [|u l IH]; intros st Hinv Hn; simpl; [assumption|].
  pose proof (step_first_with ts st u Hinv) as Hs. rewrite Hn in Hs.
  destruct (String.eqb (Timestamp u) ts) eqn:E.
  - apply range_first_with_keep; [apply step_inv, Hinv | exact Hs].
  - apply IH; [apply step_inv, Hinv | exact Hs].
Qed.

Lemma first_with_unique ts l u :
  NoDup (keys l) -> In u l -> Timestamp u = ts -> first_with ts l = Some u.
Proof.
  induction l as [|v l IH]; simpl; intros Hnd Hin Hts; [contradiction|].
  unfold keys in Hnd. simpl in Hnd. apply NoDup_cons in Hnd as [Hnotin Hnd].
  destruct (String.eqb_spec (Timestamp v) ts) as [Hv|Hv].
  - destruct Hin as [->|Hin]; [reflexivity|]. exfalso. apply Hnotin.
    apply list_elem_of_In, in_map_iff. exists u. split; [congruence | assumption].
  - destruct Hin as [->|Hin]; [contradiction|]. apply IH; assumption.
Qed.

Lemma first_with_is_Some ts l : In ts (keys l) -> exists u, first_with ts l = Some u.
Proof.
  unfold keys. rewrite in_map_iff. intros (u & Hu & Hin).
  unfold first_with. destruct (find _ l) eqn:F; [eauto|].
  eapply find_none in F; [|exact Hin]. simpl in F.
  rewrite Hu, String.eqb_refl in F. discriminate.
Qed.

(** C1. The merge of freshly fetched and persisted messages contains every
    Timestamp (the dedup key) at most once, and for every Timestamp that
    occurs in both inputs the element of the result carrying it is the
    fresh copy (the first fresh message with that Timestamp). *)
Theorem merge_no_duplicates_fresh_wins (freshMessages persistedMessages : list Update) :
  NoDup (keys (merge freshMessages persistedMessages)) /\
  (forall ts, In ts (keys freshMessages) -> In ts (keys persistedMessages) ->
     exists u, first_with ts freshMessages = Some u /\
               In u (merge freshMessages persistedMessages) /\
               forall v, In v (merge freshMessages persistedMessages) ->
                         Timestamp v = ts -> v = u).
Proof.
  unfold merge.
  pose proof (range_inv freshMessages _ merge_inv_init) as Hf.
  pose proof (range_inv persistedMessages _ Hf) as Hm.
  split; [apply Hm|].
  intros ts Hfresh _.
  destruct (first_with_is_Some ts freshMessages Hfresh) as [u Hu].
  assert (Hfu : first_with ts (snd (range freshMessages (∅, []))) = Some u).
  { rewrite range_first_with_new; [exact Hu | apply merge_inv_init | reflexivity]. }
  pose proof (range_first_with_keep ts persistedMessages _ u Hf Hfu) as Hall.
  exists u. split; [exact Hu|]. split.
  - unfold first_with in Hall. apply find_some in Hall. apply Hall.
  - intros v Hv Hts. pose proof (first_with_unique ts _ v (proj1 Hm) Hv Hts) as E.
    congruence.
Qed.

End MergeTheorems.

(** ** The classifier *)

Section ClassifierFacts.
Import Go.

Lemma containsAny_In s kw kws :
  In kw kws -> Contains s kw = true -> Slack.containsAny s kws = true.
Proof.
  intros Hin Hc. unfold Slack.containsAny. apply existsb_exists. eauto.
Qed.

(** In internal/slack, a text with one of the alert keywords of the source
    is an alert of priority 3, whatever the channel. *)
Lemma slack_alert_keyword_wins (rt : GoRuntime) (channelName text : string) :
  Slack.containsAny (ToLower rt text) Slack.alertKeywords = true ->
  Slack.categorizeMessage rt channelName text = ("alert", 3).
Proof.
  intros H. unfold Slack.categorizeMessage. rewrite H.
  destruct (Slack.containsAny (ToLower rt text) Slack.highPriorityKeywords); reflexivity.
Qed.

(** In main.go the category is a function of the channel name alone. *)
Lemma main_category_from_channel (rt : GoRuntime) (channelName text text' : string) :
  fst (Main.categorizeMessage rt channelName text)
  = fst (Main.categorizeMessage rt channelName text').
Proof.
  unfold Main.categorizeMessage.
  destruct (Contains channelName "alert" || Contains channelName "incident");
    [reflexivity|].
  destruct (Contains channelName "support"); reflexivity.
Qed.

(** C3, as the sources have it: in internal/slack, for every channel name
    and every text whose lower-cased form contains one of the keywords
    alert, incident, down, critical, p0, sev0, sev1, categorizeMessage
    returns the category alert with priority 3 (the maximum of the
    priority reached so far and 3), also when the channel name would
    select support.  In main.go the category returned by categorizeMessage
    depends on the channel name only. *)
Theorem slack_alert_keywords_force_alert :
  (forall (rt : GoRuntime) (channelName text keyword : string),
     In keyword ["alert"; "incident"; "down"; "critical"; "p0"; "sev0"; "sev1"] ->
     Contains (ToLower rt text) keyword = true ->
     Slack.categorizeMessage rt channelName text = ("alert", 3))
  /\ (forall (rt : GoRuntime) (channelName text text' : string),
        fst (Main.categorizeMessage rt channelName text)
        = fst (Main.categorizeMessage rt channelName text')).
Proof.
  split.
  - intros rt channelName text keyword Hin Hc. apply slack_alert_keyword_wins.
    apply containsAny_In with keyword; [|exact Hc].
    unfold Slack.alertKeywords. simpl in *. intuition.
  - apply main_category_from_channel.
Qed.

Lemma slack_alert_keywords_force_alert_witness :
  Slack.categorizeMessage GoEval.runtime "support-tier1" "Payments are DOWN again"
  = ("alert", 3).
Proof.
  apply (proj1 slack_alert_keywords_force_alert GoEval.runtime
           "support-tier1" "Payments are DOWN again" "down").
  - simpl. tauto.
  - vm_compute. reflexivity.
Defined.

(** C3 fails as stated.  In main.go a text with alert keywords posted in a
    support channel stays in the category support; in internal/slack the
    text outage alone is not an alert, the keyword of the source being
    outage preceded by a space. *)
Lemma alert_keyword_not_always_alert :
  Main.categorizeMessage GoEval.runtime "support" "alert: database incident"
    = ("support", 2)
  /\ Slack.categorizeMessage GoEval.runtime "general" "outage" = ("general", 1).
Proof. split; vm_compute; reflexivity. Qed.

End ClassifierFacts.

(** ** The message filter of the history loop *)

Section FilterFacts.

(** What the two guards of internal/slack amount to: a message is kept only
    when bot id, subtype and thread timestamp are all empty. *)
Lemma slack_skipped_iff (m : Remote.Message) :
  Slack.skipped m = false <->
  Remote.BotID m = "" /\ Remote.SubType m = "" /\ Remote.ThreadTimestamp m = "".
Proof.
  unfold Slack.skipped.
  destruct (String.eqb_spec (Remote.BotID m) ""), (String.eqb_spec (Remote.SubType m) "") as [E|E],
           (String.eqb_spec (Remote.ThreadTimestamp m) ""); try rewrite E; simpl;
    intuition congruence.
Qed.

(** C8, the code at the failing input: a thread reply broadcast to the
    channel is skipped by the first guard of internal/slack (its subtype is
    not empty), and a page made of it yields no update; main.go skips it as
    well. *)
Theorem broadcast_thread_reply_is_skipped :
  Slack.skipped Samples.broadcastReply = true
  /\ (forall rt since,
        Slack.fetchLoop rt "C1" "general" since
          [Remote.HistoryPage [Remote.mkDelivered Samples.broadcastReply (Ok "https://x/p1")] false ""]
          "" []
        = ([EvGetHistory "C1" since ""], Some (Ok [])))
  /\ Main.skipped Samples.broadcastReply = true.
Proof. repeat split. Qed.

End FilterFacts.

(** ** Channel resolution *)

Section ResolverFacts.

Lemma slack_scan_finds name pre channels next post cursor ch :
  forallb (Script.isMissPage name) pre = true ->
  Slack.matchName channels name = Some ch ->
  snd (Slack.scanConversations (pre ++ Remote.ConversationsPage channels next :: post)
         cursor name)
  = Some (Ok (Remote.ID ch)).
Proof.
  intros Hpre Hm. revert cursor.
  induction pre as [|r pre IH]; intros cursor; simpl.
  - rewrite Hm. reflexivity.
  - simpl in Hpre. apply andb_prop in Hpre as [Hr Hpre].
    destruct r as [e|chs nc]; simpl in Hr; [discriminate|].
    destruct (Slack.matchName chs name); [discriminate|].
    destruct (String.eqb nc ""); [discriminate|].
    specialize (IH Hpre nc).
    destruct (Slack.scanConversations _ nc name) as [tr out]. exact IH.
Qed.

Lemma slack_exported_scan_finds db name pre channels next post cursor ch e :
  forallb (Script.isMissPage name) pre = true ->
  Slack.matchName channels name = Some ch ->
  Remote.upsertReply db = Err e ->
  snd (Slack.ScanConversations db (pre ++ Remote.ConversationsPage channels next :: post)
         cursor name)
  = Some (Ok (Remote.ID ch, 0)).
Proof.
  intros Hpre Hm Hu. revert cursor.
  induction pre as [|r pre IH]; intros cursor; simpl.
  - rewrite Hm. unfold Slack.UpsertChannel. rewrite Hu. reflexivity.
  - simpl in Hpre. apply andb_prop in Hpre as [Hr Hpre].
    destruct r as [e'|chs nc]; simpl in Hr; [discriminate|].
    destruct (Slack.matchName chs name); [discriminate|].
    destruct (String.eqb nc ""); [discriminate|].
    specialize (IH Hpre nc).
    destruct (Slack.ScanConversations db _ nc name) as [tr out]. exact IH.
Qed.

Lemma main_scan_finds db name pre channels next post cursor ch e :
  forallb (Script.isMissPage name) pre = true ->
  Slack.matchName channels name = Some ch ->
  Remote.upsertReply db = Err e ->
  snd (Main.scanConversations db (pre ++ Remote.ConversationsPage channels next :: post)
         cursor name)
  = Some (Ok (Remote.ID ch, 0)).
Proof.
  intros Hpre Hm Hu. revert cursor.
  induction pre as [|r pre IH]; intros cursor; simpl.
  - rewrite Hm. unfold Main.upsertChannel. rewrite Hu. reflexivity.
  - simpl in Hpre. apply andb_prop in Hpre as [Hr Hpre].
    destruct r as [e'|chs nc]; simpl in Hr; [discriminate|].
    destruct (Slack.matchName chs name); [discriminate|].
    destruct (String.eqb nc ""); [discriminate|].
    specialize (IH Hpre nc).
    destruct (Main.scanConversations db _ nc name) as [tr out]. exact IH.
Qed.

(** C7. When the cache has no row for the channel name, the remote
    directory yields a channel of that name (after any number of pages
    without one), and the upsert of the found channel fails, then resolution
    succeeds all the same: it returns the remote id of the found channel
    together with the local id 0 and a nil error.  This holds for
    getChannelID and GetChannelID of internal/slack and for getChannelID of
    main.go. *)
Theorem resolve_survives_failed_upsert
    (db : Remote.DB) (channelName : string)
    (pre post : list Remote.ConversationsReply)
    (channels : list Remote.Conversation) (nextCursor : string)
    (history : list Remote.HistoryReply) (found : Remote.Conversation) (upsertErr : string) :
  let api := {| Remote.conversations :=
                  pre ++ Remote.ConversationsPage channels nextCursor :: post
              ; Remote.history := history |} in
  Remote.lookupReply db = Remote.ErrNoRows ->
  forallb (Script.isMissPage channelName) pre = true ->
  Slack.matchName channels channelName = Some found ->
  Remote.upsertReply db = Err upsertErr ->
  snd (Slack.getChannelID api (Some db) channelName) = Some (Ok (Remote.ID found, 0))
  /\ snd (Slack.GetChannelID api db channelName) = Some (Ok (Remote.ID found, 0))
  /\ snd (Main.getChannelID api db channelName) = Some (Ok (Remote.ID found, 0)).
Proof.
  intros api Hmiss Hpre Hm Hu. repeat split.
  - unfold Slack.getChannelID. rewrite Hmiss. unfold Slack.resolveRemote. simpl.
    pose proof (slack_scan_finds channelName pre channels nextCursor post "" found Hpre Hm) as H.
    destruct (Slack.scanConversations _ "" channelName) as [tr out]. simpl in H. subst out.
    unfold Slack.upsertChannel. rewrite Hu. reflexivity.
  - unfold Slack.GetChannelID. rewrite Hmiss. simpl.
    pose proof (slack_exported_scan_finds db channelName pre channels nextCursor post ""
                  found upsertErr Hpre Hm Hu) as H.
    destruct (Slack.ScanConversations db _ "" channelName) as [tr out]. exact H.
  - unfold Main.getChannelID. rewrite Hmiss. simpl.
    pose proof (main_scan_finds db channelName pre channels nextCursor post ""
                  found upsertErr Hpre Hm Hu) as H.
    destruct (Main.scanConversations db _ "" channelName) as [tr out]. exact H.
Qed.

End ResolverFacts.

Lemma resolve_survives_failed_upsert_witness :
  let api := {| Remote.conversations :=
                  [Samples.firstPage]
                  ++ Remote.ConversationsPage Samples.secondPageChannels "" :: []
              ; Remote.history := [] |} in
  snd (Slack.getChannelID api (Some Samples.brokenUpsertDb) "support-tier1")
    = Some (Ok ("C222", 0))
  /\ snd (Slack.GetChannelID api Samples.brokenUpsertDb "support-tier1")
    = Some (Ok ("C222", 0))
  /\ snd (Main.getChannelID api Samples.brokenUpsertDb "support-tier1")
    = Some (Ok ("C222", 0)).
Proof.
  apply (resolve_survives_failed_upsert Samples.brokenUpsertDb "support-tier1"
           [Samples.firstPage] [] Samples.secondPageChannels "" []
           (Remote.mkConversation "C222" "support-tier1" true) "pq: connection reset");
    reflexivity.
Defined.

(** ** Watermark writes *)

Create HintDb quiet.

Section WatermarkFacts.

Lemma quiet_nil : quiet [].
Proof. reflexivity. Qed.

Lemma quiet_app tr1 tr2 : quiet tr1 -> quiet tr2 -> quiet (tr1 ++ tr2).
Proof.
  unfold quiet, watermark_writes. intros H1 H2.
  rewrite List.filter_app, H1, H2. reflexivity.
Qed.

Lemma quiet_cons e tr : is_watermark_write e = false -> quiet tr -> quiet (e :: tr).
Proof. unfold quiet, watermark_writes. simpl. intros -> H. exact H. Qed.

Lemma watermark_writes_app tr1 tr2 :
  watermark_writes (tr1 ++ tr2) = watermark_writes tr1 ++ watermark_writes tr2.
Proof. apply List.filter_app. Qed.

Lemma quiet_app_l tr1 tr2 : quiet tr1 -> watermark_writes (tr1 ++ tr2) = watermark_writes tr2.
Proof. intros H. rewrite watermark_writes_app, H. reflexivity. Qed.

#[local] Hint Resolve quiet_nil quiet_app quiet_cons : quiet.

Lemma slack_processMessage_quiet rt id nm msgs st :
  quiet (fst st) -> quiet (fst (fold_left (Slack.processMessage rt id nm) msgs st)).
Proof.
  revert st. induction msgs as [|d msgs IH]; intros [tr us] H; simpl; [exact H|].
  apply IH. unfold Slack.processMessage.
  destruct (Slack.skipped _); [exact H|].
  destruct (Slack.categorizeMessage _ _ _). simpl. auto with quiet.
Qed.

Lemma slack_fetchLoop_quiet rt id nm since replies cursor acc :
  quiet (fst (Slack.fetchLoop rt id nm since replies cursor acc)).
Proof.
  revert cursor acc. induction replies as [|r replies IH]; intros cursor acc; simpl.
  - apply quiet_nil.
  - destruct r as [err|msgs more next].
    + destruct (Go.Contains err "channel_not_found"); [simpl; auto with quiet|].
      destruct (Go.Contains err "ratelimited"); [|simpl; auto with quiet].
      specialize (IH cursor acc).
      destruct (Slack.fetchLoop rt id nm since replies cursor acc) as [tr out].
      simpl in *. auto with quiet.
    + pose proof (slack_processMessage_quiet rt id nm msgs ([], acc) quiet_nil) as Hp.
      destruct (fold_left _ msgs ([], acc)) as [ptr us]. simpl in Hp.
      destruct (negb more || String.eqb next ""); [simpl; auto with quiet|].
      specialize (IH next us).
      destruct (Slack.fetchLoop rt id nm since replies next us) as [tr out].
      simpl in *. auto with quiet.
Qed.

Lemma slack_scanConversations_quiet replies cursor nm :
  quiet (fst (Slack.scanConversations replies cursor nm)).
Proof.
  revert cursor. induction replies as [|r replies IH]; intros cursor; simpl.
  - apply quiet_nil.
  - destruct r as [err|chs next]; [simpl; auto with quiet|].
    destruct (Slack.matchName chs nm); [simpl; auto with quiet|].
    destruct (String.eqb next ""); [simpl; auto with quiet|].
    specialize (IH next). destruct (Slack.scanConversations replies next nm) as [tr out].
    simpl in *. auto with quiet.
Qed.

Lemma slack_getChannelID_quiet api db nm : quiet (fst (Slack.getChannelID api db nm)).
Proof.
  assert (Hr : quiet (fst (Slack.resolveRemote api db nm))).
  { unfold Slack.resolveRemote.
    pose proof (slack_scanConversations_quiet (Remote.conversations api) "" nm) as Hs.
    destruct (Slack.scanConversations _ "" nm) as [tr [[sid|e]|]]; simpl in *; auto.
    destruct db as [d|]; simpl; auto.
    destruct (Remote.upsertReply d); simpl; auto with quiet. }
  unfold Slack.getChannelID. destruct db as [d|]; [|exact Hr].
  destruct (Remote.lookupReply d); simpl; auto with quiet.
  destruct (Slack.resolveRemote api (Some d) nm) as [tr out]. simpl in *. auto with quiet.
Qed.

Lemma slack_getLastFetchTime_quiet db id now :
  quiet (fst (Slack.getLastFetchTime db id now)).
Proof.
  unfold Slack.getLastFetchTime. destruct db as [d|]; [|apply quiet_nil].
  destruct (id =? 0); [apply quiet_nil|].
  destruct (Remote.lastFetchReply d); simpl; auto with quiet.
  destruct (IsZero t); simpl; auto with quiet.
Qed.

(** In internal/slack a pass either returns the updates of a fetch loop
    that succeeded, or leaves the watermark alone. *)
Lemma slack_pass_shape rt api db nm fromDate now :
  (exists updates sid since ftr,
     snd (Slack.SummarizeChannel rt api db nm fromDate now) = Some (Ok updates)
     /\ Slack.fetchLoop rt sid nm since (Remote.history api) "" [] = (ftr, Some (Ok updates)))
  \/ (quiet (fst (Slack.SummarizeChannel rt api db nm fromDate now))
      /\ forall updates,
           snd (Slack.SummarizeChannel rt api db nm fromDate now) <> Some (Ok updates)).
Proof.
  unfold Slack.SummarizeChannel.
  destruct (match db with Some _ => false | None => IsZero fromDate end);
    [right; split; [apply quiet_nil | discriminate]|].
  pose proof (slack_getChannelID_quiet api db nm) as H1.
  destruct (Slack.getChannelID api db nm) as [tr1 [[[sid did]|e]|]]; simpl in H1;
    [|right; split; [exact H1 | discriminate]|right; split; [exact H1 | discriminate]].
  set (X := if negb (IsZero fromDate) then _ else _).
  assert (H2 : quiet (fst X)).
  { subst X. destruct (negb (IsZero fromDate)); [apply quiet_nil|].
    destruct db as [d|]; [|apply quiet_nil].
    pose proof (slack_getLastFetchTime_quiet (Some d) did now) as Hq.
    destruct (Slack.getLastFetchTime (Some d) did now) as [tr [t|e]]; exact Hq. }
  destruct X as [tr2 since]. simpl in H2.
  destruct since as [since|e]; [|right; simpl; split; [auto with quiet | discriminate]].
  pose proof (slack_fetchLoop_quiet rt sid nm since (Remote.history api) "" []) as H3.
  destruct (Slack.fetchLoop rt sid nm since (Remote.history api) "" []) as [tr3 [[us|e]|]] eqn:F;
    simpl in H3.
  - left. exists us, sid, since, tr3. split; [reflexivity | exact F].
  - right. simpl. split; [auto with quiet | discriminate].
  - right. simpl. split; [auto with quiet | discriminate].
Qed.

End WatermarkFacts.

Section MainWatermarkFacts.

#[local] Hint Resolve quiet_nil quiet_app quiet_cons : quiet.

Lemma main_processMessage_quiet rt id nm msgs st :
  quiet (fst st) -> quiet (fst (fold_left (Main.processMessage rt id nm) msgs st)).
Proof.
  revert st. induction msgs as [|d msgs IH]; intros [tr us] H; simpl; [exact H|].
  apply IH. unfold Main.processMessage.
  destruct (Main.skipped _); [exact H|].
  destruct (Main.categorizeMessage _ _ _). simpl. auto with quiet.
Qed.

Lemma main_fetchLoop_quiet rt id nm since replies cursor acc :
  quiet (fst (Main.fetchLoop rt id nm since replies cursor acc)).
Proof.
  revert cursor acc. induction replies as [|r replies IH]; intros cursor acc; simpl.
  - apply quiet_nil.
  - destruct r as [err|msgs more next]; [simpl; auto with quiet|].
    pose proof (main_processMessage_quiet rt id nm msgs ([], acc) quiet_nil) as Hp.
    destruct (fold_left _ msgs ([], acc)) as [ptr us]. simpl in Hp.
    destruct (negb more || String.eqb next ""); [simpl; auto with quiet|].
    specialize (IH next us).
    destruct (Main.fetchLoop rt id nm since replies next us) as [tr out].
    simpl in *. auto with quiet.
Qed.

Lemma main_scanConversations_quiet db replies cursor nm :
  quiet (fst (Main.scanConversations db replies cursor nm)).
Proof.
  revert cursor. induction replies as [|r replies IH]; intros cursor; simpl.
  - apply quiet_nil.
  - destruct r as [err|chs next]; [simpl; auto with quiet|].
    destruct (Slack.matchName chs nm).
    + unfold Main.upsertChannel. destruct (Remote.upsertReply db); simpl; auto with quiet.
    + destruct (String.eqb next ""); [simpl; auto with quiet|].
      specialize (IH next). destruct (Main.scanConversations db replies next nm) as [tr out].
      simpl in *. auto with quiet.
Qed.

Lemma main_getChannelID_quiet api db nm : quiet (fst (Main.getChannelID api db nm)).
Proof.
  unfold Main.getChannelID. destruct (Remote.lookupReply db); simpl; auto with quiet.
  pose proof (main_scanConversations_quiet db (Remote.conversations api) "" nm) as H.
  destruct (Main.scanConversations db _ "" nm) as [tr out]. simpl in *. auto with quiet.
Qed.

Lemma main_getLastFetchTime_quiet db id now : quiet (fst (Main.getLastFetchTime db id now)).
Proof.
  unfold Main.getLastFetchTime. destruct (Remote.lastFetchReply db); simpl; auto with quiet.
Qed.

Lemma main_getMessagesFromDB_quiet db id since :
  quiet (fst (Main.getMessagesFromDB db id since)).
Proof.
  unfold Main.getMessagesFromDB. destruct (Remote.messagesReply db); simpl; auto with quiet.
Qed.

Lemma main_saveStep_inv rt db id st u :
  quiet (fst st) -> 0 <= snd st ->
  quiet (fst (Main.saveStep rt db id st u)) /\ snd st <= snd (Main.saveStep rt db id st u).
Proof.
  destruct st as [tr n]. simpl. intros Hq Hn. unfold Main.saveStep, Main.saveMessage.
  destruct (Main.formatTimestamp rt (Timestamp u)); simpl.
  - destruct (Remote.saveReply db u); simpl; split; auto with quiet; lia.
  - split; [rewrite app_nil_r; exact Hq | lia].
Qed.

Lemma main_saveLoop_inv rt db id us st :
  quiet (fst st) -> 0 <= snd st ->
  quiet (fst (fold_left (Main.saveStep rt db id) us st))
  /\ snd st <= snd (fold_left (Main.saveStep rt db id) us st).
Proof.
  revert st. induction us as [|u us IH]; intros st Hq Hn; simpl; [split; [exact Hq | lia]|].
  destruct (main_saveStep_inv rt db id st u Hq Hn) as [Hq' Hn'].
  destruct (IH (Main.saveStep rt db id st u) Hq' ltac:(lia)) as [Hq2 Hn2].
  split; [exact Hq2 | lia].
Qed.

Lemma main_saveAll_inv rt db id us :
  quiet (fst (Main.saveAll rt db id us)) /\ 0 <= snd (Main.saveAll rt db id us).
Proof. apply (main_saveLoop_inv rt db id us ([], 0)); [apply quiet_nil | simpl; lia]. Qed.

(** The shape of a pass of main.go, read off [processChannel]: the trace
    before the watermark decision is quiet, and the decision is taken on the
    number of saved messages. *)
Lemma main_pass_shape rt api db nm fromDate now :
  let '(tr, out) := Main.processChannel rt api db nm fromDate now in
  match out with
  | Some (Main.Completed updates n) =>
      0 <= n /\
      exists sid did since ftr slackUpdates,
        Main.summarizeChannel rt api sid (Go.TrimSpace nm) since = (ftr, Some (Ok slackUpdates))
        /\ n = snd (Main.saveAll rt db did slackUpdates)
        /\ watermark_writes tr = if n >? 0 then [EvUpdateLastFetch did] else []
  | Some Main.Skipped => quiet tr
  | None => quiet tr
  end.
Proof.
  unfold Main.processChannel.
  destruct (String.eqb (Go.TrimSpace nm) ""); [apply quiet_nil|].
  pose proof (main_getChannelID_quiet api db (Go.TrimSpace nm)) as H1.
  destruct (Main.getChannelID api db (Go.TrimSpace nm)) as [tr1 [[[sid did]|e]|]];
    simpl in H1; [|exact H1|exact H1].
  set (X := if negb (IsZero fromDate) then _ else _).
  assert (H2 : quiet (fst X)).
  { subst X. destruct (negb (IsZero fromDate)); [apply quiet_nil|].
    pose proof (main_getLastFetchTime_quiet db did now) as Hq.
    destruct (Main.getLastFetchTime db did now) as [tr lf]. exact Hq. }
  destruct X as [tr2 since]. simpl in H2.
  pose proof (main_fetchLoop_quiet rt sid (Go.TrimSpace nm) since (Remote.history api) "" []) as H3.
  destruct (Main.summarizeChannel rt api sid (Go.TrimSpace nm) since) as [tr3 fetched] eqn:F.
  unfold Main.summarizeChannel in F. rewrite F in H3. simpl in H3.
  destruct fetched as [[slackUpdates|e]|]; [|auto with quiet|auto with quiet].
  pose proof (main_getMessagesFromDB_quiet db did (sevenDaysBefore now)) as H4.
  destruct (Main.getMessagesFromDB db did (sevenDaysBefore now)) as [tr4 [dbUpdates|e]];
    simpl in H4; [|auto with quiet].
  destruct (main_saveAll_inv rt db did slackUpdates) as [H5 Hn].
  destruct (Main.saveAll rt db did slackUpdates) as [tr5 n] eqn:S. simpl in H5, Hn.
  split; [exact Hn|].
  exists sid, did, since, tr3, slackUpdates.
  split; [unfold Main.summarizeChannel; exact F|]. split; [rewrite S; reflexivity|].
  rewrite !watermark_writes_app, H1, H2, H3, H4, H5. simpl.
  destruct (n >? 0); [|reflexivity].
  unfold Main.updateLastFetchTime. destruct (Remote.updateLastFetchReply db); reflexivity.
Qed.

End MainWatermarkFacts.

Section WatermarkTheorems.

(** C4. When the history fetch of a channel ends with an error (in
    internal/slack that is a channel-not-found or a transport error, a rate
    limit being retried), the pass makes no write to last_fetched and does
    not return updates: SummarizeChannel returns before its step 4, and the
    channel loop of main.go continues with the next channel before any
    updateLastFetchTime call. *)
Theorem watermark_untouched_when_fetch_fails :
  (forall rt api db nm fromDate now,
     (forall sid since, exists e,
        snd (Slack.fetchLoop rt sid nm since (Remote.history api) "" []) = Some (Err e)) ->
     watermark_writes (fst (Slack.SummarizeChannel rt api db nm fromDate now)) = []
     /\ forall updates,
          snd (Slack.SummarizeChannel rt api db nm fromDate now) <> Some (Ok updates))
  /\
  (forall rt api db nm fromDate now,
     (forall sid since, exists e,
        snd (Main.summarizeChannel rt api sid (Go.TrimSpace nm) since) = Some (Err e)) ->
     watermark_writes (fst (Main.processChannel rt api db nm fromDate now)) = []
     /\ forall updates n,
          snd (Main.processChannel rt api db nm fromDate now)
          <> Some (Main.Completed updates n)).
Proof.
  split.
  - intros rt api db nm fromDate now Hfail.
    destruct (slack_pass_shape rt api db nm fromDate now)
      as [(us & sid & since & ftr & _ & F)|[Hq Hne]].
    + destruct (Hfail sid since) as [e He]. rewrite F in He. discriminate.
    + split; [exact Hq | exact Hne].
  - intros rt api db nm fromDate now Hfail.
    pose proof (main_pass_shape rt api db nm fromDate now) as H.
    destruct (Main.processChannel rt api db nm fromDate now) as [tr [[|us n]|]]; simpl.
    + split; [exact H | discriminate].
    + destruct H as (_ & sid & did & since & ftr & sus & F & _).
      destruct (Hfail sid since) as [e He]. rewrite F in He. discriminate.
    + split; [exact H | discriminate].
Qed.

Lemma watermark_untouched_when_fetch_fails_witness :
  watermark_writes
    (fst (Slack.SummarizeChannel GoEval.runtime Samples.forbiddenWorkspace
            (Some Samples.healthyDb) "support-tier1" zeroTime Samples.sampleNow)) = []
  /\ watermark_writes
       (fst (Main.processChannel GoEval.runtime Samples.unreachableWorkspace
               Samples.healthyDb "support-tier1" zeroTime Samples.sampleNow)) = [].
Proof.
  split.
  - apply (proj1 watermark_untouched_when_fetch_fails GoEval.runtime
             Samples.forbiddenWorkspace (Some Samples.healthyDb) "support-tier1"
             zeroTime Samples.sampleNow).
    intros sid since. eexists. reflexivity.
  - apply (proj2 watermark_untouched_when_fetch_fails GoEval.runtime
             Samples.unreachableWorkspace Samples.healthyDb "support-tier1"
             zeroTime Samples.sampleNow).
    intros sid since. eexists. reflexivity.
Defined.

(** C5 fails as stated.  A pass of main.go over a workspace whose history
    call succeeds with no message, against a store that accepts every
    write, completes with zero messages saved and makes no write to
    last_fetched. *)
Lemma zero_message_fetch_leaves_watermark :
  snd (Main.summarizeChannel GoEval.runtime Samples.quietWorkspace "C222" "support-tier1"
         1700000000000000000) = Some (Ok [])
  /\ snd (Main.processChannel GoEval.runtime Samples.quietWorkspace Samples.healthyDb
            "support-tier1" zeroTime Samples.sampleNow) = Some (Main.Completed [] 0)
  /\ watermark_writes
       (fst (Main.processChannel GoEval.runtime Samples.quietWorkspace Samples.healthyDb
               "support-tier1" zeroTime Samples.sampleNow)) = [].
Proof. repeat split. Qed.

(** The number of saved messages is the number of fetched messages for
    which saveMessage returns no error. *)
Lemma saveAll_count rt db id us :
  snd (Main.saveAll rt db id us)
  = Z.of_nat (List.length (List.filter (Run.savedOk rt db) us)).
Proof.
  unfold Main.saveAll.
  assert (H : forall st,
            snd (fold_left (Main.saveStep rt db id) us st)
            = snd st + Z.of_nat (List.length (List.filter (Run.savedOk rt db) us))).
  { induction us as [|u us IH]; intros [tr n]; simpl; [lia|].
    rewrite IH. unfold Main.saveStep, Main.saveMessage, Run.savedOk.
    destruct (Main.formatTimestamp rt (Timestamp u)); simpl; [|lia].
    destruct (Remote.saveReply db u); simpl; lia. }
  rewrite H. simpl. lia.
Qed.

Lemma savedOk_saveMessage rt db id u :
  Run.savedOk rt db u = true <-> snd (Main.saveMessage rt db id u) = Ok tt.
Proof.
  unfold Run.savedOk, Main.saveMessage.
  destruct (Main.formatTimestamp rt (Timestamp u)); simpl; [|split; discriminate].
  destruct (Remote.saveReply db u) as [[]|e]; simpl; split; try discriminate; reflexivity.
Qed.

(** A pass that runs to its end: the ids it resolved, what it fetched, the
    count of its save loop and its write to last_fetched. *)
Lemma main_pass_saves rt api db nm fromDate now tr updates n :
  Main.processChannel rt api db nm fromDate now = (tr, Some (Main.Completed updates n)) ->
  exists sid did since ftr slackUpdates,
    snd (Main.getChannelID api db (Go.TrimSpace nm)) = Some (Ok (sid, did))
    /\ Main.summarizeChannel rt api sid (Go.TrimSpace nm) since = (ftr, Some (Ok slackUpdates))
    /\ n = snd (Main.saveAll rt db did slackUpdates)
    /\ watermark_writes tr = if n >? 0 then [EvUpdateLastFetch did] else [].
Proof.
  unfold Main.processChannel.
  destruct (String.eqb (Go.TrimSpace nm) ""); [discriminate|].
  pose proof (main_getChannelID_quiet api db (Go.TrimSpace nm)) as H1.
  destruct (Main.getChannelID api db (Go.TrimSpace nm)) as [tr1 [[[sid did]|e]|]];
    simpl in H1; try discriminate.
  set (X := if negb (IsZero fromDate) then _ else _).
  assert (H2 : quiet (fst X)).
  { subst X. destruct (negb (IsZero fromDate)); [apply quiet_nil|].
    pose proof (main_getLastFetchTime_quiet db did now) as Hq.
    destruct (Main.getLastFetchTime db did now) as [t lf]. exact Hq. }
  destruct X as [tr2 since]. simpl in H2.
  pose proof (main_fetchLoop_quiet rt sid (Go.TrimSpace nm) since (Remote.history api) "" []) as H3.
  destruct (Main.summarizeChannel rt api sid (Go.TrimSpace nm) since) as [tr3 fetched] eqn:F.
  unfold Main.summarizeChannel in F. rewrite F in H3. simpl in H3.
  destruct fetched as [[slackUpdates|e]|]; try discriminate.
  pose proof (main_getMessagesFromDB_quiet db did (sevenDaysBefore now)) as H4.
  destruct (Main.getMessagesFromDB db did (sevenDaysBefore now)) as [tr4 [dbUpdates|e]];
    simpl in H4; try discriminate.
  destruct (main_saveAll_inv rt db did slackUpdates) as [H5 _].
  destruct (Main.saveAll rt db did slackUpdates) as [tr5 m] eqn:S. simpl in H5.
  intros [= <- <- <-].
  exists sid, did, since, tr3, slackUpdates.
  split; [reflexivity|]. split; [unfold Main.summarizeChannel; exact F|].
  split; [rewrite S; reflexivity|].
  rewrite !watermark_writes_app, H1, H2, H3, H4, H5. simpl.
  destruct (m >? 0); [|reflexivity].
  unfold Main.updateLastFetchTime. destruct (Remote.updateLastFetchReply db); reflexivity.
Qed.

(** C5, as main.go has it: in a pass of the channel loop that runs to its
    end, last_fetched is written exactly when saveMessage returned no error
    for at least one of the fetched messages, and then once, for the local
    id of the channel: the guard messagesSaved > 0 is taken on the count of
    the save loop, which is the number of fetched messages that saveMessage
    accepted.  A fetch that succeeds with zero messages saves nothing, so
    the pass leaves the watermark as it was. *)
Theorem watermark_written_iff_message_saved
    rt api db nm fromDate now tr updates messagesSaved :
  Main.processChannel rt api db nm fromDate now
    = (tr, Some (Main.Completed updates messagesSaved)) ->
  0 <= messagesSaved
  /\ (watermark_writes tr <> [] <-> 0 < messagesSaved)
  /\ ((forall sid since,
         snd (Main.summarizeChannel rt api sid (Go.TrimSpace nm) since) = Some (Ok []))
      -> messagesSaved = 0 /\ watermark_writes tr = [])
  /\ exists channelSlackID channelDbID since ftr slackUpdates,
       snd (Main.getChannelID api db (Go.TrimSpace nm))
         = Some (Ok (channelSlackID, channelDbID))
       /\ Main.summarizeChannel rt api channelSlackID (Go.TrimSpace nm) since
          = (ftr, Some (Ok slackUpdates))
       /\ messagesSaved
          = Z.of_nat (List.length (List.filter (Run.savedOk rt db) slackUpdates))
       /\ (watermark_writes tr <> [] <->
           exists u, In u slackUpdates
                     /\ snd (Main.saveMessage rt db channelDbID u) = Ok tt)
       /\ (watermark_writes tr <> [] -> watermark_writes tr = [EvUpdateLastFetch channelDbID]).
Proof.
  intros E.
  destruct (main_pass_saves rt api db nm fromDate now tr updates messagesSaved E)
    as (sid & did & since & ftr & sus & R & F & Hsaved & Hw).
  rewrite saveAll_count in Hsaved.
  assert (Hiff : watermark_writes tr <> [] <-> 0 < messagesSaved).
  { rewrite Hw. destruct (Z.gtb_spec messagesSaved 0); split; intros; try lia; congruence. }
  split; [lia|]. split; [exact Hiff|]. split.
  - intros Hzero. specialize (Hzero sid since). rewrite F in Hzero. simpl in Hzero.
    injection Hzero as ->. simpl in Hsaved. subst messagesSaved. split; [reflexivity|].
    rewrite Hw. reflexivity.
  - exists sid, did, since, ftr, sus. split; [exact R|]. split; [exact F|].
    split; [exact Hsaved|]. split.
    + rewrite Hiff, Hsaved. split.
      * intros Hpos. destruct (List.filter (Run.savedOk rt db) sus) as [|u l] eqn:L;
          [simpl in Hpos; lia|].
        assert (Hu : In u (List.filter (Run.savedOk rt db) sus)) by (rewrite L; left; reflexivity).
        apply filter_In in Hu as [Hin Hok]. exists u. split; [exact Hin|].
        apply (savedOk_saveMessage rt db did u), Hok.
      * intros (u & Hin & Hok). apply (savedOk_saveMessage rt db did u) in Hok.
        assert (Hu : In u (List.filter (Run.savedOk rt db) sus)) by (apply filter_In; auto).
        destruct (List.filter (Run.savedOk rt db) sus); [destruct Hu | simpl; lia].
    + intros Hwritten. apply Hiff in Hwritten. rewrite Hw.
      destruct (Z.gtb_spec messagesSaved 0) as [_|Hle]; [reflexivity | lia].
Qed.

Lemma watermark_written_iff_message_saved_witness :
  watermark_writes
    (fst (Main.processChannel GoEval.runtime Samples.busyWorkspace Samples.healthyDb
            "support-tier1" zeroTime Samples.sampleNow)) <> [] <-> 0 < 1.
Proof.
  apply (watermark_written_iff_message_saved GoEval.runtime Samples.busyWorkspace
           Samples.healthyDb "support-tier1" zeroTime Samples.sampleNow _
           [ {| Text := "deploy finished"
              ; Timestamp := "1700000200.000300"
              ; Link := "https://example.slack.com/archives/C222/p1"
              ; Channel := "support-tier1"
              ; Category := "support"
              ; Priority := 2 |} ] 1).
  vm_compute. reflexivity.
Defined.

End WatermarkTheorems.

(** ** Rate limits in the history loop of internal/slack *)

Section RetryFacts.
Import Retry.

Lemma history_cursors_app tr1 tr2 :
  history_cursors (tr1 ++ tr2) = history_cursors tr1 ++ history_cursors tr2.
Proof. unfold history_cursors. apply flat_map_app. Qed.

Lemma backoffs_app tr1 tr2 : backoffs (tr1 ++ tr2) = (backoffs tr1 + backoffs tr2)%nat.
Proof. unfold backoffs. rewrite List.filter_app, length_app. reflexivity. Qed.

Lemma slack_processMessage_events rt id nm msgs st :
  history_cursors (fst st) = [] -> backoffs (fst st) = 0%nat ->
  history_cursors (fst (fold_left (Slack.processMessage rt id nm) msgs st)) = []
  /\ backoffs (fst (fold_left (Slack.processMessage rt id nm) msgs st)) = 0%nat.
Proof.
  revert st. induction msgs as [|d msgs IH]; intros [tr us] Hc Hb; simpl; [split; assumption|].
  apply IH; unfold Slack.processMessage; destruct (Slack.skipped _); try assumption;
    destruct (Slack.categorizeMessage _ _ _); simpl in *.
  - rewrite history_cursors_app, Hc. reflexivity.
  - rewrite backoffs_app, Hb. reflexivity.
Qed.

(** One iteration of the loop: it either ends the loop on a reply that is
    not a rate limit, or goes on with the rest of the replies; after a rate
    limit it goes on with the same cursor and the same updates, having
    paused once. *)
Lemma slack_fetchLoop_step rt sid nm since r rest cursor acc :
  let run := Slack.fetchLoop rt sid nm since (r :: rest) cursor acc in
  (exists mid,
      fst run = EvGetHistory sid since cursor :: mid
      /\ history_cursors mid = [] /\ backoffs mid = 0%nat
      /\ Script.isRateLimitedReply r = false
      /\ (forall e, snd run = Some (Err e) ->
            exists err, r = Remote.HistoryError err /\ Script.rateLimited err = false)
      /\ snd run <> None)
  \/ (exists mid cursor' acc',
      fst run = EvGetHistory sid since cursor :: mid
                ++ fst (Slack.fetchLoop rt sid nm since rest cursor' acc')
      /\ snd run = snd (Slack.fetchLoop rt sid nm since rest cursor' acc')
      /\ history_cursors mid = []
      /\ backoffs mid = (if Script.isRateLimitedReply r then 1 else 0)%nat
      /\ (Script.isRateLimitedReply r = true ->
          cursor' = cursor /\ acc' = acc /\ mid = [EvSleep 30000])).
Proof.
  simpl. destruct r as [err|msgs more next]; simpl; unfold Script.rateLimited.
  - destruct (Go.Contains err "channel_not_found") eqn:Enf; simpl.
    { left. exists []. repeat split; try discriminate. intros e _. exists err.
      unfold Script.rateLimited. rewrite Enf. auto. }
    destruct (Go.Contains err "ratelimited") eqn:Erl; simpl.
    + right. exists [EvSleep 30000], cursor, acc.
      destruct (Slack.fetchLoop rt sid nm since rest cursor acc) as [tr out]. simpl.
      repeat split.
    + left. exists []. repeat split; try discriminate. intros e _. exists err.
      unfold Script.rateLimited. rewrite Enf, Erl. auto.
  - destruct (slack_processMessage_events rt sid nm msgs ([], acc) eq_refl eq_refl) as [Hc Hb].
    destruct (fold_left _ msgs ([], acc)) as [ptr us]. simpl in Hc, Hb.
    destruct (negb more || String.eqb next ""); simpl.
    + left. exists ptr. repeat split; try assumption; discriminate.
    + right. exists (ptr ++ [EvSleep 1200]), next, us.
      destruct (Slack.fetchLoop rt sid nm since rest next us) as [tr out]. simpl.
      repeat split.
      * rewrite <- app_assoc. reflexivity.
      * rewrite history_cursors_app, Hc. reflexivity.
      * rewrite backoffs_app, Hb. reflexivity.
      * discriminate.
      * discriminate.
      * discriminate.
Qed.

Lemma slack_fetchLoop_first_cursor rt sid nm since r rest cursor acc :
  exists tl,
    history_cursors (fst (Slack.fetchLoop rt sid nm since (r :: rest) cursor acc))
    = cursor :: tl.
Proof.
  destruct (slack_fetchLoop_step rt sid nm since r rest cursor acc)
    as [(mid & -> & Hc & _)|(mid & c' & a' & -> & _ & Hc & _)].
  - exists []. simpl. rewrite Hc. reflexivity.
  - eexists. simpl. rewrite history_cursors_app, Hc. reflexivity.
Qed.

End RetryFacts.

Section RetryTheorems.
Import Retry.






End RetryTheorems.

(** ** Prompt assembly *)

Section RenderFacts.
Variable rt : Go.GoRuntime.
Import OpenAI Digest.

Lemma string_append_assoc (a b c : string) : (a +:+ b) +:+ c = a +:+ (b +:+ c).
Proof.
  induction a as [|x a IH]; [reflexivity|].
  change (String x ((a +:+ b) +:+ c) = String x (a +:+ (b +:+ c))). f_equal. exact IH.
Qed.

Lemma string_append_nil_r (a : string) : a +:+ EmptyString = a.
Proof.
  induction a as [|x a IH]; [reflexivity|].
  change (String x (a +:+ EmptyString) = String x a). f_equal. exact IH.
Qed.

Lemma lineTokens_nonneg line : 0 <= lineTokens line.
Proof. unfold lineTokens. lia. Qed.

Lemma sumTokens_nonneg lines : 0 <= sumTokens lines.
Proof.
  induction lines as [|l lines IH]; simpl; [lia|].
  pose proof (lineTokens_nonneg l). lia.
Qed.

(** What the loop adds to its variables: a journal [J] of the updates it
    visited, in order; the limit can only be the fate of the last one. *)
Lemma render_journal limit us :
  forall b0, 0 <= currentTokenCount b0 ->
  exists J,
    journal (render rt limit us b0) = journal b0 ++ J
    /\ map fst J = take (List.length J) us
    /\ (List.length J <= List.length us)%nat
    /\ (forall k u, J !! k = Some (u, OverLimit) -> S k = List.length J)
    /\ sb (render rt limit us b0) = sb b0 +:+ written (writtenLines J)
    /\ currentTokenCount (render rt limit us b0)
       = currentTokenCount b0 + sumTokens (writtenLines J)
    /\ includedMessages (render rt limit us b0)
       = includedMessages b0 + Z.of_nat (List.length (writtenLines J))
    /\ currentTokenCount (render rt limit us b0) <= Z.max (currentTokenCount b0) limit.
Proof.
  induction us as [|u us IH]; intros b0 Hpos.
  - exists []. simpl. rewrite app_nil_r, string_append_nil_r.
    repeat split; try reflexivity; try lia.
    intros k v H. rewrite lookup_nil in H. discriminate.
  - simpl. destruct (formatTimestamp rt (Timestamp u)) as [ft|e] eqn:F.
    + destruct (currentTokenCount b0 + lineTokens (messageLine ft u) >? limit) eqn:G.
      * exists [(u, OverLimit)]. simpl. rewrite string_append_nil_r.
        repeat split; try reflexivity; try lia.
        intros k v H. destruct k as [|k]; [reflexivity|].
        simpl in H. rewrite lookup_nil in H. discriminate.
      * pose proof (lineTokens_nonneg (messageLine ft u)) as Hl.
        match goal with |- context [render rt limit us ?b] => destruct (IH b) as (J & H1 & H2 & H3 & H4 & H5 & H6 & H7 & H8) end.
        { simpl. lia. }
        simpl in *. exists ((u, Written (messageLine ft u)) :: J). simpl.
        rewrite H1, H2, H5, H6, H7, <- app_assoc, string_append_assoc.
        repeat split; try reflexivity; try lia.
        intros k v H. destruct k as [|k]; [discriminate|]. simpl in H.
        f_equal. apply (H4 k v H).
    + match goal with |- context [render rt limit us ?b] => destruct (IH b) as (J & H1 & H2 & H3 & H4 & H5 & H6 & H7 & H8) end.
      { simpl. exact Hpos. }
      simpl in *. exists ((u, Unformattable) :: J). simpl.
      rewrite H1, H2, H5, H6, H7, <- app_assoc.
      repeat split; try reflexivity; try lia.
      intros k v H. destruct k as [|k]; [discriminate|]. simpl in H.
      f_equal. apply (H4 k v H).
Qed.

Lemma render_sound limit us :
  forall b0, Forall (fateSound rt) (journal b0) ->
  Forall (fateSound rt) (journal (render rt limit us b0)).
Proof.
  induction us as [|u us IH]; intros b0 H0; simpl; [exact H0|].
  destruct (formatTimestamp rt (Timestamp u)) as [ft|e] eqn:F.
  - destruct (currentTokenCount b0 + lineTokens (messageLine ft u) >? limit).
    + simpl. apply Forall_app. split; [exact H0|].
      constructor; [|constructor]. unfold fateSound. simpl. eauto.
    + apply IH. simpl. apply Forall_app. split; [exact H0|].
      constructor; [|constructor]. unfold fateSound. simpl. eauto.
  - apply IH. simpl. apply Forall_app. split; [exact H0|].
    constructor; [|constructor]. unfold fateSound. simpl. eauto.
Qed.

Lemma assemble_journal limit updates :
  let b := assemble rt limit updates in
  map fst (journal b) = take (List.length (journal b)) (rev (SliceStable updates))
  /\ (List.length (journal b) <= List.length (SliceStable updates))%nat
  /\ (forall k u, journal b !! k = Some (u, OverLimit) -> S k = List.length (journal b))
  /\ sb b = written (writtenLines (journal b))
  /\ currentTokenCount b = sumTokens (writtenLines (journal b))
  /\ includedMessages b = Z.of_nat (List.length (writtenLines (journal b)))
  /\ currentTokenCount b <= Z.max 0 limit.
Proof.
  unfold assemble.
  destruct (render_journal limit (rev (SliceStable updates)) emptyBuilder ltac:(simpl; lia))
    as (J & H1 & H2 & H3 & H4 & H5 & H6 & H7 & H8).
  simpl in *. rewrite H6 in H8. rewrite H1, H5, H6, H7. rewrite length_rev in H3.
  repeat split; try assumption; try reflexivity; lia.
Qed.

End RenderFacts.

Section SortFacts.
Import OpenAI.

Lemma insertLeft_perm x sorted : insertLeft x sorted ≡ₚ x :: sorted.
Proof.
  induction sorted as [|y rest IH]; simpl; [reflexivity|].
  destruct (less x y); [|reflexivity].
  rewrite IH. apply Permutation_swap.
Qed.

Lemma SliceStable_perm updates : SliceStable updates ≡ₚ updates.
Proof.
  unfold SliceStable. rewrite <- Permutation_rev.
  assert (H : forall acc, fold_left (fun sorted x => insertLeft x sorted) updates acc
                          ≡ₚ updates ++ acc).
  { induction updates as [|u us IH]; intros acc; simpl; [reflexivity|].
    rewrite IH, insertLeft_perm. symmetry. apply Permutation_middle. }
  rewrite H, app_nil_r. reflexivity.
Qed.

Lemma SliceStable_length updates : List.length (SliceStable updates) = List.length updates.
Proof. apply Permutation_length, SliceStable_perm. Qed.

(** [less] never puts a higher priority first. *)
Lemma less_priority x y : less x y = true -> Priority x <= Priority y.
Proof.
  unfold less. destruct (Z.eqb_spec (Priority x) (Priority y)); simpl; intros H; lia.
Qed.

Lemma not_less_priority x y : less x y = false -> Priority y <= Priority x.
Proof.
  unfold less. destruct (Z.eqb_spec (Priority x) (Priority y)); simpl; intros H; lia.
Qed.

Lemma insertLeft_sorted x sorted :
  StronglySorted (flip byPriority) sorted ->
  StronglySorted (flip byPriority) (insertLeft x sorted).
Proof.
  induction sorted as [|y rest IH]; simpl; intros H.
  - constructor; constructor.
  - apply StronglySorted_cons in H as [Hy Hrest].
    destruct (less x y) eqn:L.
    + apply StronglySorted_cons. split; [|apply IH, Hrest].
      rewrite insertLeft_perm. constructor; [|exact Hy].
      unfold flip, byPriority. apply less_priority, L.
    + apply not_less_priority in L.
      apply StronglySorted_cons. split; [|apply StronglySorted_cons; split; assumption].
      constructor; [exact L|].
      eapply Forall_impl; [exact Hy|]. unfold flip, byPriority. intros z Hz. lia.
Qed.

(** The sorted slice is in ascending order of priority, whatever the
    timestamps are. *)
Lemma SliceStable_by_priority updates : StronglySorted byPriority (SliceStable updates).
Proof.
  unfold SliceStable.
  assert (H : forall acc, StronglySorted (flip byPriority) acc ->
            StronglySorted (flip byPriority)
              (fold_left (fun sorted x => insertLeft x sorted) updates acc)).
  { induction updates as [|u us IH]; intros acc Hacc; simpl; [exact Hacc|].
    apply IH, insertLeft_sorted, Hacc. }
  specialize (H [] ltac:(constructor)).
  revert H. generalize (fold_left (fun sorted x => insertLeft x sorted) updates []).
  intros l. induction l as [|a l IH]; simpl; intros H; [constructor|].
  apply StronglySorted_cons in H as [Ha Hl].
  apply StronglySorted_app_2; [|apply IH, Hl|constructor; constructor].
  intros x1 x2 H1 H2. apply list_elem_of_singleton in H2 as ->.
  apply list_elem_of_In, in_rev, list_elem_of_In in H1.
  rewrite Forall_forall in Ha. apply (Ha x1 H1).
Qed.

Lemma StronglySorted_lookup {A} (R : relation A) (l : list A) i j a b :
  StronglySorted R l -> (i < j)%nat -> l !! i = Some a -> l !! j = Some b -> R a b.
Proof.
  intros Hs Hij Ha Hb. rewrite <- (take_drop j l) in Hs.
  apply (StronglySorted_app_1_elem_of R _ _ a b Hs).
  - apply list_elem_of_lookup. exists i. rewrite lookup_take_lt by exact Hij. exact Ha.
  - apply list_elem_of_lookup. exists 0%nat. rewrite lookup_drop, Nat.add_0_r. exact Hb.
Qed.

End SortFacts.

Section DigestTheorems.
Import OpenAI Digest.

Lemma fateAt_Some rt limit updates i f :
  fateAt rt limit updates i = Some f ->
  (i < List.length updates)%nat
  /\ exists u, journal (assemble rt limit updates) !! (List.length updates - 1 - i)%nat
               = Some (u, f).
Proof.
  unfold fateAt. destruct (Nat.ltb_spec i (List.length updates)) as [Hlt|Hge]; [|discriminate].
  intros H. split; [assumption|].
  destruct (journal (assemble rt limit updates) !! _) as [[u f']|]; [|discriminate].
  simpl in H. injection H as ->. eauto.
Qed.

Lemma fateAt_None rt limit updates i :
  (i < List.length updates)%nat -> fateAt rt limit updates i = None ->
  (List.length (journal (assemble rt limit updates)) <= List.length updates - 1 - i)%nat.
Proof.
  unfold fateAt. intros Hi. destruct (Nat.ltb_spec i (List.length updates)) as [Hlt|Hge]; [|lia].
  intros H. destruct (journal (assemble rt limit updates) !! _) eqn:E; [discriminate|].
  apply lookup_ge_None in E. exact E.
Qed.

(** C2, as the source has it: the running word count of the lines written
    by the rendering loop of GenerateSummary never exceeds the limit (it is
    the sum of the tokens of the lines in the prompt), and every message
    excluded for the budget (the one the loop stops at and those it does
    not reach) stands, in the sorted slice, before every message that has
    its line in the prompt, hence has at most its priority.  A message
    whose timestamp cannot be formatted is skipped wherever it stands. *)
Theorem budget_kept_and_budget_exclusions_precede
    (rt : Go.GoRuntime) (limit : Z) (updates : list Update) :
  let b := assemble rt limit updates in
  let sorted := SliceStable updates in
  currentTokenCount b <= Z.max 0 limit
  /\ currentTokenCount b = sumTokens (writtenLines (journal b))
  /\ sb b = written (writtenLines (journal b))
  /\ map fst (journal b) = take (List.length (journal b)) (rev sorted)
  /\ Forall (fateSound rt) (journal b)
  /\ (forall i j,
        excludedForBudget rt limit updates i -> included rt limit updates j ->
        (i < j)%nat
        /\ forall a c, sorted !! i = Some a -> sorted !! j = Some c ->
                       Priority a <= Priority c).
Proof.
  intros b sorted.
  destruct (assemble_journal rt limit updates) as (H1 & H2 & H3 & H4 & H5 & H6 & H7).
  fold b in H1, H2, H3, H4, H5, H6, H7. fold sorted in H1, H2.
  split; [exact H7|]. split; [exact H5|]. split; [exact H4|]. split; [exact H1|].
  split; [apply render_sound; constructor|].
  intros i j [Hi Hfate] [line Hj].
  assert (Hij : (i < j)%nat).
  { apply fateAt_Some in Hj as (Hjn & v & Hv). fold b in Hv.
    pose proof (lookup_lt_Some _ _ _ Hv) as Hlt.
    destruct Hfate as [Ho|Hnone].
    - apply fateAt_Some in Ho as (_ & u & Hu). fold b in Hu.
      pose proof (H3 _ _ Hu) as Hlast.
      assert (List.length updates - 1 - j <> List.length updates - 1 - i)%nat
        by (intros E; rewrite E in Hv; congruence).
      lia.
    - apply fateAt_None in Hnone; [|exact Hi]. fold b in Hnone. lia. }
  split; [exact Hij|]. intros a c Ha Hc.
  apply (StronglySorted_lookup byPriority sorted i j a c
           (SliceStable_by_priority updates) Hij Ha Hc).
Qed.

(** C2 fails as stated.  With the limit of the source, the long report is
    excluded for the budget, and the alert, which is last in the sorted
    slice and has the highest priority, has no line either, its timestamp
    not being decimal seconds: it is excluded although it stands after the
    included short note. *)
Lemma unformattable_top_priority_is_dropped :
  ~ exclusionsPrecedeInclusions GoEval.runtime maxPromptLength Samples.digestInput.
Proof.
  intros H.
  assert (H0 : fateAt GoEval.runtime maxPromptLength Samples.digestInput 0
               = Some OverLimit) by (vm_compute; reflexivity).
  assert (H2 : fateAt GoEval.runtime maxPromptLength Samples.digestInput 2
               = Some Unformattable) by (vm_compute; reflexivity).
  assert (H1 : exists line, fateAt GoEval.runtime maxPromptLength Samples.digestInput 1
                            = Some (Written line)) by (eexists; vm_compute; reflexivity).
  assert (Hlt : (2 < 1)%nat); [|lia].
  apply H.
  - exists 0%nat. split; [simpl; lia | left; exact H0].
  - split; [simpl; lia|]. intros [line Hline]. rewrite H2 in Hline. discriminate.
  - exact H1.
Qed.

End DigestTheorems.

Section NothingRenderable.
Import OpenAI Digest Renderable.





(** C10. For the empty list of updates GenerateSummary returns the fixed
    text for no new updates with a nil error, whatever the client, the
    focus and the time are, and makes no call to the model. *)
Theorem empty_updates_short_circuit
    (rt : Go.GoRuntime) (client : Client) (focus : string) (now : Z) :
  GenerateSummary rt client [] focus now = ([], Ok "No new updates found.").
Proof. reflexivity. Qed.

End NothingRenderable.

(** ** The model on concrete runs *)

Section Scenarios.

(** Fresh timestamps 100.001, 100.001, 200.000 merged with persisted
    200.000, 50.000: three entries, the fresh copies first. *)
Example merge_scenario :
  map Text (Merge.merge Samples.freshBatch Samples.persistedBatch)
  = ["fresh a"; "fresh b"; "stored c"].
Proof. vm_compute. reflexivity. Qed.

(** No cached mapping, no match on the first directory page, a match on the
    second: the id of the second page is returned and one cache row is
    written. *)
Example resolve_scenario :
  Slack.getChannelID Samples.twoPageDirectory (Some Samples.emptyCacheDb) "support-tier1"
  = ([ EvLookupChannel "support-tier1"
     ; EvGetConversations ""
     ; EvSleep 500
     ; EvGetConversations "cursor-2"
     ; EvUpsertChannel "C222" "support-tier1" ],
     Some (Ok ("C222", 7))).
Proof. reflexivity. Qed.

(** Two rate limits and then channel_not_found: three requests for the
    first page, two pauses, and the error of the last reply. *)
Example rate_limit_scenario :
  Slack.fetchLoop GoEval.runtime "C222" "support-tier1" 0
    (Remote.history Samples.forbiddenWorkspace) "" []
  = ([ EvGetHistory "C222" 0 ""; EvSleep 30000
     ; EvGetHistory "C222" 0 ""; EvSleep 30000
     ; EvGetHistory "C222" 0 "" ],
     Some (Err "slack channel 'support-tier1' (ID: C222) not found or bot lacks permission")).
Proof. reflexivity. Qed.

(** The error that internal/slack answers with a retry is returned by
    main.go. *)
Example main_returns_rate_limit :
  snd (Main.summarizeChannel GoEval.runtime Samples.forbiddenWorkspace "C222"
         "support-tier1" 0)
  = Some (Err "error getting channel history (cursor: ): slack rate limit exceeded: ratelimited").
Proof. reflexivity. Qed.

(** A pass of main.go that fetches and saves one message writes the
    watermark once, after the save. *)
Example saved_message_advances_watermark :
  fst (Main.processChannel GoEval.runtime Samples.busyWorkspace Samples.healthyDb
         " support-tier1 " zeroTime Samples.sampleNow)
  = [ EvLookupChannel "support-tier1"
    ; EvGetLastFetch 7
    ; EvGetHistory "C222" 1700000000000000000 ""
    ; EvGetPermalink "C222" "1700000200.000300"
    ; EvQueryMessages 7 (sevenDaysBefore Samples.sampleNow)
    ; EvSaveMessage 7
        {| Text := "deploy finished"
         ; Timestamp := "1700000200.000300"
         ; Link := "https://example.slack.com/archives/C222/p1"
         ; Channel := "support-tier1"
         ; Category := "support"
         ; Priority := 2 |}
    ; EvUpdateLastFetch 7 ].
Proof. vm_compute. reflexivity. Qed.

(** The digest of the short note alone, sent with the support template. *)
Example short_note_prompt :
  let b := OpenAI.assemble GoEval.runtime OpenAI.maxPromptLength [Samples.shortNote] in
  OpenAI.sb b
  = "[2023-11-15 07:18:20 JST] #support-tier1: ticket 42 is waiting for the customer"
    +:+ " Link: <https://example.slack.com/archives/C222/p2|View Message>" +:+ OpenAI.nl
  /\ OpenAI.currentTokenCount b = 14
  /\ OpenAI.includedMessages b = 1.
Proof. vm_compute. repeat split. Qed.

End Scenarios.

(** * Further properties of the sources *)

(** ** The merge of main.go *)

Section MergeExtras.
Import Merge.

Lemma step_keys st u k :
  merge_inv st ->
  In k (keys (snd (step st u))) <-> In k (keys (snd st)) \/ k = Timestamp u.
Proof.
  destruct st as [seen out]. intros [_ Hseen]. unfold step. simpl in *.
  destruct (seen_get seen (Timestamp u)) eqn:E; simpl.
  - split; [tauto|]. intros [H| ->]; [exact H|]. apply Hseen, E.
  - unfold keys. rewrite map_app, in_app_iff. simpl. intuition.
Qed.

Lemma range_keys l st k :
  merge_inv st ->
  In k (keys (snd (range l st))) <-> In k (keys (snd st)) \/ In k (keys l).
Proof.
  revert st. induction l as [|u l IH]; intros st Hinv; simpl; [tauto|].
  rewrite (IH _ (step_inv st u Hinv)), (step_keys st u k Hinv). intuition.
Qed.

(** The result of a loop extends the list it started from by a subsequence
    of the ranged list whose keys were not yet in the result. *)
Lemma range_extends l st :
  merge_inv st ->
  exists added,
    snd (range l st) = snd st ++ added
    /\ sublist added l
    /\ (forall u, In u added -> ~ In (Timestamp u) (keys (snd st))).
Proof.
  revert st. induction l as [|u l IH]; intros st Hinv; simpl.
  - exists []. rewrite app_nil_r. repeat split; [constructor | intros u []].
  - destruct (IH _ (step_inv st u Hinv)) as (added & Heq & Hsub & Hnew).
    destruct st as [seen out]. destruct Hinv as [Hnd Hseen]. unfold step in *. simpl in *.
    destruct (seen_get seen (Timestamp u)) eqn:E; simpl in *.
    + exists added. split; [exact Heq|]. split; [apply sublist_cons, Hsub | exact Hnew].
    + exists (u :: added). rewrite Heq, <- app_assoc. split; [reflexivity|].
      split; [apply sublist_skip, Hsub|].
      intros v [<-|Hv].
      * intros Hin. apply Hseen in Hin. congruence.
      * intros Hin. apply (Hnew v Hv). unfold keys. rewrite map_app, in_app_iff.
        left. exact Hin.
Qed.

Lemma range_nodup_id l st :
  merge_inv st -> NoDup (keys l) ->
  (forall u, In u l -> ~ In (Timestamp u) (keys (snd st))) ->
  snd (range l st) = snd st ++ l.
Proof.
  revert st. induction l as [|u l IH]; intros st Hinv Hnd Hnew; simpl.
  - rewrite app_nil_r. reflexivity.
  - unfold keys in Hnd. simpl in Hnd. apply NoDup_cons in Hnd as [Hu Hnd].
    pose proof (step_inv st u Hinv) as Hinv'.
    destruct st as [seen out]. destruct Hinv as [Hnd0 Hseen]. unfold step in *. simpl in *.
    destruct (seen_get seen (Timestamp u)) eqn:E.
    + exfalso. apply (Hnew u (or_introl eq_refl)). apply Hseen, E.
    + simpl in *. rewrite IH; [simpl; rewrite <- app_assoc; reflexivity | exact Hinv' | exact Hnd |].
      intros v Hv. simpl. unfold keys. rewrite map_app, in_app_iff. simpl.
      intros [Hin|[Heq|[]]].
      * apply (Hnew v (or_intror Hv)). exact Hin.
      * apply Hu. apply list_elem_of_In, in_map_iff. exists v. split; [congruence | exact Hv].
Qed.

(** X1. The merge loses no message key and invents none: a Timestamp
    occurs in the merged list exactly when it occurs among the fresh or the
    persisted messages. *)
Theorem merge_keys_are_the_union (slackUpdates dbUpdates : list Update) (k : string) :
  In k (keys (merge slackUpdates dbUpdates))
  <-> In k (keys slackUpdates) \/ In k (keys dbUpdates).
Proof.
  unfold merge.
  rewrite (range_keys dbUpdates _ k (range_inv slackUpdates _ merge_inv_init)).
  rewrite (range_keys slackUpdates _ k merge_inv_init). simpl. tauto.
Qed.

(** X2. The merge keeps the order in which messages are first seen and
    takes every element from its inputs: the merged list is a subsequence
    of the fresh messages followed by the persisted ones. *)
Theorem merge_is_subsequence (slackUpdates dbUpdates : list Update) :
  sublist (merge slackUpdates dbUpdates) (slackUpdates ++ dbUpdates).
Proof.
  unfold merge.
  destruct (range_extends slackUpdates (∅, []) merge_inv_init) as (a1 & H1 & S1 & _).
  destruct (range_extends dbUpdates _ (range_inv slackUpdates _ merge_inv_init))
    as (a2 & H2 & S2 & _).
  rewrite H2, H1. simpl. apply sublist_app; assumption.
Qed.

(** X3. Persisted messages never displace fresh ones: the merge is the
    merge of the fresh messages alone, followed by a subsequence of the
    persisted messages whose Timestamps do not occur among the fresh ones;
    and fresh messages without a repeated Timestamp are kept as they are,
    so that merging a merged list again changes nothing. *)
Theorem merge_appends_unseen_persisted (slackUpdates dbUpdates : list Update) :
  (exists kept,
     merge slackUpdates dbUpdates = merge slackUpdates [] ++ kept
     /\ sublist kept dbUpdates
     /\ forall u, In u kept -> ~ In (Timestamp u) (keys slackUpdates))
  /\ (NoDup (keys slackUpdates) -> merge slackUpdates [] = slackUpdates)
  /\ merge (merge slackUpdates dbUpdates) [] = merge slackUpdates dbUpdates.
Proof.
  assert (Hid : forall l, NoDup (keys l) -> merge l [] = l).
  { intros l Hnd. unfold merge. simpl.
    rewrite (range_nodup_id l (∅, []) merge_inv_init Hnd); [reflexivity|].
    intros u _ []. }
  split; [|split].
  - unfold merge at 1 2. simpl.
    destruct (range_extends dbUpdates _ (range_inv slackUpdates _ merge_inv_init))
      as (kept & H & Hsub & Hnew).
    exists kept. split; [exact H|]. split; [exact Hsub|].
    intros u Hu Hin. apply (Hnew u Hu).
    apply (range_keys slackUpdates (∅, []) _ merge_inv_init). right. exact Hin.
  - apply Hid.
  - apply Hid. unfold merge.
    apply (range_inv dbUpdates _ (range_inv slackUpdates _ merge_inv_init)).
Qed.

End MergeExtras.

(** ** The classifiers *)

Section ClassifierExtras.
Import Go.

(** X4. categorizeMessage of internal/slack returns one of five results:
    alert with priority 3, support with priority 2 or 3, general with
    priority 1 or 3.  The category is alert when the text has an alert
    keyword, else support when the channel name has support, customer or
    help or the text has a support keyword, else general; the priority is 3
    exactly for alerts and for texts with a high-urgency keyword. *)
Theorem slack_classifier_table (rt : GoRuntime) (channelName text : string) :
  let lowerText := ToLower rt text in
  let lowerChannelName := ToLower rt channelName in
  let alert := Slack.containsAny lowerText Slack.alertKeywords in
  let urgent := Slack.containsAny lowerText Slack.highPriorityKeywords in
  let support :=
    Contains lowerChannelName "support" || Contains lowerChannelName "customer"
    || Contains lowerChannelName "help"
    || Slack.containsAny lowerText Slack.supportKeywords in
  Slack.categorizeMessage rt channelName text
  = (if alert then "alert" else if support then "support" else "general",
     if alert || urgent then 3 else if support then 2 else 1).
Proof.
  cbv zeta. unfold Slack.categorizeMessage.
  destruct (Slack.containsAny (ToLower rt text) Slack.highPriorityKeywords),
           (Slack.containsAny (ToLower rt text) Slack.alertKeywords),
           (Contains (ToLower rt channelName) "support"),
           (Contains (ToLower rt channelName) "customer"),
           (Contains (ToLower rt channelName) "help"),
           (Slack.containsAny (ToLower rt text) Slack.supportKeywords); reflexivity.
Qed.

Lemma count_terms_fold (s : string) (terms : list string) (p : Z) :
  fold_left (fun p term => if Contains s term then p + 1 else p) terms p
  = p + Z.of_nat (List.length (List.filter (Contains s) terms)).
Proof.
  revert p. induction terms as [|t terms IH]; intros p; simpl; [lia|].
  rewrite IH. destruct (Contains s t); simpl; lia.
Qed.

(** X5. categorizeMessage of main.go takes category and base priority from
    the channel name as written (alert 3, support 2, general 1) and adds one
    for every urgent term that the lower-cased text contains: the priority
    is the base plus the number of such terms, so it lies between the base
    and the base plus 8 and is not capped at 3. *)
Theorem main_priority_counts_urgent_terms (rt : GoRuntime) (channelName text : string) :
  let base :=
    if Contains channelName "alert" || Contains channelName "incident" then 3
    else if Contains channelName "support" then 2 else 1 in
  let hits := List.filter (Contains (ToLower rt text)) Main.urgentTerms in
  snd (Main.categorizeMessage rt channelName text) = base + Z.of_nat (List.length hits)
  /\ base <= snd (Main.categorizeMessage rt channelName text) <= base + 8.
Proof.
  cbv zeta. unfold Main.categorizeMessage.
  pose proof (List.filter_length_le (Contains (ToLower rt text)) Main.urgentTerms) as Hle.
  change (List.length Main.urgentTerms) with 8%nat in Hle.
  destruct (Contains channelName "alert" || Contains channelName "incident");
    [|destruct (Contains channelName "support")];
    lazy beta iota zeta delta [snd]; rewrite count_terms_fold; lia.
Qed.

End ClassifierExtras.

(** ** The message filters *)

Section FilterExtras.

(** X7. A message that internal/slack keeps is kept by main.go as well,
    provided its type is message; main.go moreover keeps thread parents (the
    thread timestamp is the message's own) and messages with a subtype,
    which internal/slack skips. *)
Theorem slack_filter_is_stricter (m : Remote.Message) :
  (Slack.skipped m = false -> Remote.Type_ m = "message" -> Main.skipped m = false)
  /\ (Remote.BotID m = "" -> Remote.Type_ m = "message" ->
      Remote.ThreadTimestamp m = Remote.Timestamp m -> Main.skipped m = false)
  /\ (Remote.ThreadTimestamp m <> "" -> Slack.skipped m = true).
Proof.
  split; [|split].
  - intros Hs Ht. apply slack_skipped_iff in Hs as (Hb & _ & Hth).
    unfold Main.skipped. rewrite Hb, Ht, Hth. reflexivity.
  - intros Hb Ht Hth. unfold Main.skipped. rewrite Hb, Ht, Hth.
    rewrite !String.eqb_refl. simpl. destruct (String.eqb (Remote.Timestamp m) ""); reflexivity.
  - intros Hth. destruct (Slack.skipped m) eqn:E; [reflexivity|].
    apply slack_skipped_iff in E as (_ & _ & H). contradiction.
Qed.

End FilterExtras.

(** A message kept by internal/slack has neither bot id, subtype nor thread
    timestamp. *)
Section FilterExtras2.

(** X6. The two guards of internal/slack keep a message exactly when its
    bot id, its subtype and its thread timestamp are all empty: the second
    guard is only reached with an empty subtype, so every message of a
    thread, the thread parent included, is skipped. *)
Theorem slack_keeps_only_plain_messages (m : Remote.Message) :
  Slack.skipped m = false <->
  Remote.BotID m = "" /\ Remote.SubType m = "" /\ Remote.ThreadTimestamp m = "".
Proof. apply slack_skipped_iff. Qed.

End FilterExtras2.

(** ** The history fetch *)

Section FetchExtras.
Import Reading.
Variable rt : Go.GoRuntime.

Lemma slack_fold_messages sid nm msgs tr us :
  fold_left (Slack.processMessage rt sid nm) msgs (tr, us)
  = (tr ++ map (fun d => EvGetPermalink sid (Remote.Timestamp (Remote.msg d)))
              (List.filter slackKept msgs),
     us ++ map (slackUpdateFor rt sid nm) (List.filter slackKept msgs)).
Proof.
  revert tr us. induction msgs as [|d msgs IH]; intros tr us.
  - simpl. rewrite !app_nil_r. reflexivity.
  - assert (Hstep : Slack.processMessage rt sid nm (tr, us) d
             = if slackKept d
               then (tr ++ [EvGetPermalink sid (Remote.Timestamp (Remote.msg d))],
                     us ++ [slackUpdateFor rt sid nm d])
               else (tr, us)).
    { unfold Slack.processMessage, slackKept, slackUpdateFor.
      destruct (Slack.skipped (Remote.msg d)); simpl; [reflexivity|].
      destruct (Slack.categorizeMessage rt nm (Remote.Text (Remote.msg d))); reflexivity. }
    cbn [fold_left List.filter]. rewrite Hstep.
    destruct (slackKept d); cbn [map]; rewrite IH, <- ?app_assoc; reflexivity.
Qed.

Lemma main_fold_messages sid nm msgs tr us :
  fold_left (Main.processMessage rt sid nm) msgs (tr, us)
  = (tr ++ map (fun d => EvGetPermalink sid (Remote.Timestamp (Remote.msg d)))
              (List.filter mainKept msgs),
     us ++ map (mainUpdateFor rt nm) (List.filter mainKept msgs)).
Proof.
  revert tr us. induction msgs as [|d msgs IH]; intros tr us.
  - simpl. rewrite !app_nil_r. reflexivity.
  - assert (Hstep : Main.processMessage rt sid nm (tr, us) d
             = if mainKept d
               then (tr ++ [EvGetPermalink sid (Remote.Timestamp (Remote.msg d))],
                     us ++ [mainUpdateFor rt nm d])
               else (tr, us)).
    { unfold Main.processMessage, mainKept, mainUpdateFor.
      destruct (Main.skipped (Remote.msg d)); simpl; [reflexivity|].
      destruct (Main.categorizeMessage rt nm (Remote.Text (Remote.msg d))); reflexivity. }
    cbn [fold_left List.filter]. rewrite Hstep.
    destruct (mainKept d); cbn [map]; rewrite IH, <- ?app_assoc; reflexivity.
Qed.

Lemma history_cursors_permalinks sid (ds : list Remote.Delivered) :
  history_cursors (map (fun d => EvGetPermalink sid (Remote.Timestamp (Remote.msg d))) ds) = [].
Proof. induction ds as [|d ds IH]; simpl; [reflexivity | exact IH]. Qed.

Lemma permalinkCalls_permalinks sid (ds : list Remote.Delivered) :
  permalinkCalls (map (fun d => EvGetPermalink sid (Remote.Timestamp (Remote.msg d))) ds)
  = map (fun d => Remote.Timestamp (Remote.msg d)) ds.
Proof. induction ds as [|d ds IH]; simpl; [reflexivity | rewrite IH; reflexivity]. Qed.

Lemma permalinkCalls_app tr1 tr2 :
  permalinkCalls (tr1 ++ tr2) = permalinkCalls tr1 ++ permalinkCalls tr2.
Proof. unfold permalinkCalls. apply flat_map_app. Qed.

Lemma deliveredOf_app r1 r2 : deliveredOf (r1 ++ r2) = deliveredOf r1 ++ deliveredOf r2.
Proof. unfold deliveredOf. apply flat_map_app. Qed.

End FetchExtras.

Section FetchTheorems.
Import Reading.
Variable rt : Go.GoRuntime.

Lemma slack_fetch_ok sid nm since replies :
  forall cursor acc tr us,
  Slack.fetchLoop rt sid nm since replies cursor acc = (tr, Some (Ok us)) ->
  us = acc ++ map (slackUpdateFor rt sid nm)
                  (List.filter slackKept
                     (deliveredOf (take (List.length (history_cursors tr)) replies)))
  /\ permalinkCalls tr
     = map (fun d => Remote.Timestamp (Remote.msg d))
           (List.filter slackKept
              (deliveredOf (take (List.length (history_cursors tr)) replies))).
Proof.
  induction replies as [|r rest IH]; intros cursor acc tr us H; [discriminate|].
  cbn [Slack.fetchLoop] in H. destruct r as [err|msgs more next].
  - destruct (Go.Contains err "channel_not_found"); [discriminate|].
    destruct (Go.Contains err "ratelimited"); [|discriminate].
    destruct (Slack.fetchLoop rt sid nm since rest cursor acc) as [tr' out'] eqn:E.
    injection H as <- ->. destruct (IH cursor acc tr' us E) as [H1 H2].
    simpl. split; assumption.
  - rewrite slack_fold_messages in H. cbn [app] in H.
    destruct (negb more || String.eqb next "").
    + injection H as <- <-. simpl.
      rewrite history_cursors_permalinks, permalinkCalls_permalinks. simpl.
      rewrite ?take_0. simpl. rewrite !app_nil_r. split; reflexivity.
    + destruct (Slack.fetchLoop rt sid nm since rest next _) as [tr' out'] eqn:E.
      injection H as <- ->. destruct (IH _ _ tr' us E) as [H1 H2].
      simpl. rewrite history_cursors_app, permalinkCalls_app,
        history_cursors_permalinks, permalinkCalls_permalinks. simpl.
      rewrite List.filter_app, !map_app, H2. split; [|reflexivity].
      rewrite H1 at 1. rewrite <- app_assoc. reflexivity.
Qed.

Lemma main_fetch_ok sid nm since replies :
  forall cursor acc tr us,
  Main.fetchLoop rt sid nm since replies cursor acc = (tr, Some (Ok us)) ->
  us = acc ++ map (mainUpdateFor rt nm)
                  (List.filter mainKept
                     (deliveredOf (take (List.length (history_cursors tr)) replies)))
  /\ permalinkCalls tr
     = map (fun d => Remote.Timestamp (Remote.msg d))
           (List.filter mainKept
              (deliveredOf (take (List.length (history_cursors tr)) replies))).
Proof.
  induction replies as [|r rest IH]; intros cursor acc tr us H; [discriminate|].
  cbn [Main.fetchLoop] in H. destruct r as [err|msgs more next]; [discriminate|].
  rewrite main_fold_messages in H. cbn [app] in H.
  destruct (negb more || String.eqb next "").
  - injection H as <- <-. simpl.
    rewrite history_cursors_permalinks, permalinkCalls_permalinks. simpl.
    rewrite ?take_0. simpl. rewrite !app_nil_r. split; reflexivity.
  - destruct (Main.fetchLoop rt sid nm since rest next _) as [tr' out'] eqn:E.
    injection H as <- ->. destruct (IH _ _ tr' us E) as [H1 H2].
    simpl. rewrite history_cursors_app, permalinkCalls_app,
      history_cursors_permalinks, permalinkCalls_permalinks. simpl.
    rewrite List.filter_app, !map_app, H2. split; [|reflexivity].
    rewrite H1 at 1. rewrite <- app_assoc. reflexivity.
Qed.

End FetchTheorems.

Section PaginationTheorems.
Import Reading.
Variable rt : Go.GoRuntime.

Lemma main_fetchLoop_first_cursor sid nm since r rest cursor acc :
  exists tl,
    history_cursors (fst (Main.fetchLoop rt sid nm since (r :: rest) cursor acc))
    = cursor :: tl.
Proof.
  cbn [Main.fetchLoop]. destruct r as [err|msgs more next]; [eexists; reflexivity|].
  rewrite main_fold_messages.
  destruct (negb more || String.eqb next ""); [eexists; reflexivity|].
  destruct (Main.fetchLoop rt sid nm since rest next _) as [tr out].
  eexists. reflexivity.
Qed.

Lemma slack_cursor_chain sid nm since replies :
  forall cursor acc i msgs more next,
  replies !! i = Some (Remote.HistoryPage msgs more next) ->
  (S i < List.length
           (history_cursors (fst (Slack.fetchLoop rt sid nm since replies cursor acc))))%nat ->
  more = true /\ next <> ""
  /\ history_cursors (fst (Slack.fetchLoop rt sid nm since replies cursor acc)) !! S i
     = Some next.
Proof.
  induction replies as [|r rest IH]; intros cursor acc i msgs more next Hi Hlen.
  - rewrite lookup_nil in Hi. discriminate.
  - destruct i as [|i].
    + simpl in Hi. injection Hi as ->.
      cbn [Slack.fetchLoop] in *. rewrite slack_fold_messages in *. cbn [app] in *.
      destruct more; [|simpl in Hlen; rewrite history_cursors_permalinks in Hlen;
                        simpl in Hlen; lia].
      destruct (String.eqb next "") eqn:Hnext;
        [simpl in Hlen; rewrite history_cursors_permalinks in Hlen; simpl in Hlen; lia|].
      apply String.eqb_neq in Hnext. simpl negb in *. cbn [orb] in *.
      destruct rest as [|r' rest'].
      { simpl in Hlen. rewrite history_cursors_app, history_cursors_permalinks in Hlen.
        simpl in Hlen. lia. }
      match goal with |- context [Slack.fetchLoop rt sid nm since (r' :: rest') next ?a] =>
        destruct (slack_fetchLoop_first_cursor rt sid nm since r' rest' next a) as [tl Htl];
        destruct (Slack.fetchLoop rt sid nm since (r' :: rest') next a) as [tr' out']
      end.
      simpl in *. rewrite history_cursors_app, history_cursors_permalinks. simpl.
      rewrite Htl. auto.
    + simpl in Hi.
      destruct (slack_fetchLoop_step rt sid nm since r rest cursor acc)
        as [(mid & Hf & Hc & _)|(mid & c' & a' & Hf & _ & Hc & _)];
        rewrite Hf in *; simpl in Hlen |- *.
      * rewrite Hc in Hlen. simpl in Hlen. lia.
      * rewrite history_cursors_app, Hc in *. simpl in *.
        apply (IH c' a' i msgs more next Hi). lia.
Qed.

Lemma main_cursor_chain sid nm since replies :
  forall cursor acc i msgs more next,
  replies !! i = Some (Remote.HistoryPage msgs more next) ->
  (S i < List.length
           (history_cursors (fst (Main.fetchLoop rt sid nm since replies cursor acc))))%nat ->
  more = true /\ next <> ""
  /\ history_cursors (fst (Main.fetchLoop rt sid nm since replies cursor acc)) !! S i
     = Some next.
Proof.
  induction replies as [|r rest IH]; intros cursor acc i msgs more next Hi Hlen.
  - rewrite lookup_nil in Hi. discriminate.
  - cbn [Main.fetchLoop] in *. destruct r as [err|msgs0 more0 next0].
    { simpl in Hlen. lia. }
    rewrite main_fold_messages in *. cbn [app] in *.
    destruct (negb more0 || String.eqb next0 "") eqn:T.
    { simpl in Hlen. rewrite history_cursors_permalinks in Hlen. simpl in Hlen. lia. }
    apply orb_false_elim in T as [Tm Tn]. apply negb_false_iff in Tm.
    apply String.eqb_neq in Tn.
    destruct i as [|i].
    + simpl in Hi. injection Hi as -> -> ->.
      destruct rest as [|r' rest'].
      { simpl in Hlen. rewrite history_cursors_app, history_cursors_permalinks in Hlen.
        simpl in Hlen. lia. }
      match goal with |- context [Main.fetchLoop rt sid nm since (r' :: rest') next ?a] =>
        destruct (main_fetchLoop_first_cursor sid nm since r' rest' next a) as [tl Htl];
        destruct (Main.fetchLoop rt sid nm since (r' :: rest') next a) as [tr' out']
      end.
      simpl in *. rewrite history_cursors_app, history_cursors_permalinks. simpl.
      rewrite Htl. auto.
    + simpl in Hi.
      match goal with |- context [Main.fetchLoop rt sid nm since rest next0 ?a] =>
        specialize (IH next0 a i msgs more next Hi);
        destruct (Main.fetchLoop rt sid nm since rest next0 a) as [tr' out']
      end.
      simpl in *. rewrite history_cursors_app, history_cursors_permalinks in *. simpl in *.
      apply IH. lia.
Qed.

End PaginationTheorems.

Section FetchEntries.
Import Reading.

(** X8. A history fetch that succeeds returns exactly the kept messages of
    the pages it consumed, in page order and in the order within each page,
    each turned into an Update with the channel name, the classification of
    its text and its permalink (or the fallback link); it makes one
    permalink call per kept message and none for a skipped one.  This holds
    for SummarizeChannel's loop in internal/slack and for summarizeChannel
    of main.go, each with its own filter and fallback. *)
Theorem fetch_returns_kept_messages_in_order :
  (forall rt sid nm since replies tr us,
     Slack.fetchLoop rt sid nm since replies "" [] = (tr, Some (Ok us)) ->
     let kept := List.filter slackKept
                   (deliveredOf (take (List.length (history_cursors tr)) replies)) in
     us = map (slackUpdateFor rt sid nm) kept
     /\ permalinkCalls tr = map (fun d => Remote.Timestamp (Remote.msg d)) kept)
  /\ (forall rt api sid nm since tr us,
        Main.summarizeChannel rt api sid nm since = (tr, Some (Ok us)) ->
        let kept := List.filter mainKept
                      (deliveredOf (take (List.length (history_cursors tr))
                                         (Remote.history api))) in
        us = map (mainUpdateFor rt nm) kept
        /\ permalinkCalls tr = map (fun d => Remote.Timestamp (Remote.msg d)) kept).
Proof.
  split.
  - intros rt sid nm since replies tr us H.
    apply (slack_fetch_ok rt sid nm since replies "" [] tr us H).
  - intros rt api sid nm since tr us H.
    apply (main_fetch_ok rt sid nm since (Remote.history api) "" [] tr us H).
Qed.

Lemma fetch_returns_kept_messages_in_order_witness :
  map Text (snd (Samples.pagedFetch)) = ["urgent: need help with login"; "deploy finished"]
  /\ map Link (snd (Samples.pagedFetch))
     = ["https://example.slack.com/archives/C222/p8";
        "https://slack.com/archives/C222/p1700000200000300"]
  /\ permalinkCalls (fst (Samples.pagedFetch)) = ["1700000300.000200"; "1700000200.000300"].
Proof.
  destruct (proj1 fetch_returns_kept_messages_in_order GoEval.runtime "C222" "support-tier1"
              0 Samples.pagedHistory (fst Samples.pagedFetch) (snd Samples.pagedFetch)
              eq_refl) as [H1 H2].
  rewrite H1, H2. vm_compute. repeat split.
Defined.

(** X9. Pagination follows the cursors of the remote side: whenever a
    history request is made after a page, that page reported more messages
    with a non-empty next cursor, and the request carries exactly that
    cursor; so the loop stops at the first page that reports no more
    messages or gives no cursor, and requests nothing beyond it. *)
Theorem pagination_follows_next_cursor :
  (forall rt sid nm since replies i msgs more next,
     let cursors := history_cursors (fst (Slack.fetchLoop rt sid nm since replies "" [])) in
     replies !! i = Some (Remote.HistoryPage msgs more next) ->
     (S i < List.length cursors)%nat ->
     more = true /\ next <> "" /\ cursors !! S i = Some next)
  /\ (forall rt api sid nm since i msgs more next,
        let cursors := history_cursors (fst (Main.summarizeChannel rt api sid nm since)) in
        Remote.history api !! i = Some (Remote.HistoryPage msgs more next) ->
        (S i < List.length cursors)%nat ->
        more = true /\ next <> "" /\ cursors !! S i = Some next).
Proof.
  split.
  - intros rt sid nm since replies i msgs more next cursors.
    apply slack_cursor_chain.
  - intros rt api sid nm since i msgs more next cursors.
    apply main_cursor_chain.
Qed.

End FetchEntries.

(** ** Channel resolution, continued *)

Section ResolverExtras.
Import Reading Directory.

Lemma matchName_name channels nm ch :
  Slack.matchName channels nm = Some ch -> Remote.Name ch = nm.
Proof.
  unfold Slack.matchName. intros H. apply find_some in H as [_ H].
  apply String.eqb_eq, H.
Qed.

Lemma upserts_app tr1 tr2 : upserts (tr1 ++ tr2) = upserts tr1 ++ upserts tr2.
Proof. apply List.filter_app. Qed.

Lemma directoryCursors_app tr1 tr2 :
  directoryCursors (tr1 ++ tr2) = directoryCursors tr1 ++ directoryCursors tr2.
Proof. apply flat_map_app. Qed.

Lemma slack_scan_no_upsert replies cursor nm :
  upserts (fst (Slack.scanConversations replies cursor nm)) = [].
Proof.
  revert cursor. induction replies as [|r rest IH]; intros cursor; simpl; [reflexivity|].
  destruct r as [e|chs next]; [reflexivity|].
  destruct (Slack.matchName chs nm); [reflexivity|].
  destruct (String.eqb next ""); [reflexivity|].
  specialize (IH next). destruct (Slack.scanConversations rest next nm). exact IH.
Qed.

Lemma slack_getChannelID_writes api db nm :
  writesAtMostTheMatch nm (Slack.getChannelID api db nm).
Proof.
  assert (Hr : writesAtMostTheMatch nm (Slack.resolveRemote api db nm)).
  { unfold Slack.resolveRemote.
    pose proof (slack_scan_no_upsert (Remote.conversations api) "" nm) as Hs.
    destruct (Slack.scanConversations _ "" nm) as [tr [[sid|e]|]]; simpl in Hs;
      try (left; exact Hs).
    destruct db as [d|]; [|left; exact Hs].
    unfold Slack.upsertChannel. right.
    destruct (Remote.upsertReply d) as [id|e]; simpl; eexists _, _;
      rewrite upserts_app, Hs; split; reflexivity. }
  unfold Slack.getChannelID. destruct db as [d|]; [|exact Hr].
  destruct (Remote.lookupReply d); try (left; reflexivity).
  destruct (Slack.resolveRemote api (Some d) nm) as [tr out].
  destruct Hr as [H|(sid & id & H1 & H2)]; [left; exact H|right].
  exists sid, id. split; assumption.
Qed.

Lemma slack_exported_scan_writes db replies cursor nm :
  writesAtMostTheMatch nm (Slack.ScanConversations db replies cursor nm).
Proof.
  revert cursor. induction replies as [|r rest IH]; intros cursor; simpl; [left; reflexivity|].
  destruct r as [e|chs next]; [left; reflexivity|].
  destruct (Slack.matchName chs nm) as [ch|] eqn:M.
  - apply matchName_name in M. unfold Slack.UpsertChannel. rewrite M. right.
    destruct (Remote.upsertReply db); simpl; eexists _, _; split; reflexivity.
  - destruct (String.eqb next ""); [left; reflexivity|].
    specialize (IH next). destruct (Slack.ScanConversations db rest next nm) as [tr out].
    destruct IH as [H|(sid & id & H1 & H2)]; [left; exact H|right].
    exists sid, id. split; assumption.
Qed.

Lemma main_scan_writes db replies cursor nm :
  writesAtMostTheMatch nm (Main.scanConversations db replies cursor nm).
Proof.
  revert cursor. induction replies as [|r rest IH]; intros cursor; simpl; [left; reflexivity|].
  destruct r as [e|chs next]; [left; reflexivity|].
  destruct (Slack.matchName chs nm) as [ch|] eqn:M.
  - unfold Main.upsertChannel. right.
    destruct (Remote.upsertReply db); simpl; eexists _, _; split; reflexivity.
  - destruct (String.eqb next ""); [left; reflexivity|].
    specialize (IH next). destruct (Main.scanConversations db rest next nm) as [tr out].
    destruct IH as [H|(sid & id & H1 & H2)]; [left; exact H|right].
    exists sid, id. split; assumption.
Qed.

End ResolverExtras.

Section ResolverEntries.
Import Reading Directory.

(** X10. Resolving a channel writes at most one row to the channel cache,
    and only for a channel it found: in getChannelID and GetChannelID of
    internal/slack and in getChannelID of main.go the trace has no upsert
    unless the call returns a remote id, and then it has exactly one, for
    that id and the name looked for. *)
Theorem resolve_writes_only_the_match
    (api : Remote.Client) (db : Remote.DB) (channelName : string) :
  writesAtMostTheMatch channelName (Slack.getChannelID api (Some db) channelName)
  /\ writesAtMostTheMatch channelName (Slack.getChannelID api None channelName)
  /\ writesAtMostTheMatch channelName (Slack.GetChannelID api db channelName)
  /\ writesAtMostTheMatch channelName (Main.getChannelID api db channelName).
Proof.
  split; [apply slack_getChannelID_writes|]. split; [apply slack_getChannelID_writes|]. split.
  - unfold Slack.GetChannelID. destruct (Remote.lookupReply db); try (left; reflexivity).
    pose proof (slack_exported_scan_writes db (Remote.conversations api) "" channelName) as H.
    destruct (Slack.ScanConversations db _ "" channelName) as [tr out].
    destruct H as [H|(sid & id & H1 & H2)]; [left; exact H|right].
    exists sid, id. split; assumption.
  - unfold Main.getChannelID. destruct (Remote.lookupReply db); try (left; reflexivity).
    pose proof (main_scan_writes db (Remote.conversations api) "" channelName) as H.
    destruct (Main.scanConversations db _ "" channelName) as [tr out].
    destruct H as [H|(sid & id & H1 & H2)]; [left; exact H|right].
    exists sid, id. split; assumption.
Qed.

Lemma slack_scan_fails nm pre final post cursor :
  forallb (Script.isMissPage nm) pre = true ->
  endsWithoutMatch nm final = true ->
  (exists e, snd (Slack.scanConversations (pre ++ final :: post) cursor nm) = Some (Err e))
  /\ List.length (directoryCursors (fst (Slack.scanConversations (pre ++ final :: post) cursor nm)))
     = S (List.length pre).
Proof.
  intros Hpre Hfin. revert cursor. induction pre as [|r pre IH]; intros cursor; simpl.
  - destruct final as [e|chs next]; simpl in *; [split; [eexists|]; reflexivity|].
    destruct (Slack.matchName chs nm); [discriminate|]. rewrite Hfin.
    split; [eexists|]; reflexivity.
  - simpl in Hpre. apply andb_prop in Hpre as [Hr Hpre].
    destruct r as [e|chs next]; simpl in Hr; [discriminate|].
    destruct (Slack.matchName chs nm); [discriminate|].
    destruct (String.eqb next ""); [discriminate|].
    destruct (IH Hpre next) as [[e He] Hl].
    destruct (Slack.scanConversations (pre ++ final :: post) next nm) as [tr out].
    simpl in *. split; [eauto | rewrite Hl; reflexivity].
Qed.

Lemma main_scan_fails db nm pre final post cursor :
  forallb (Script.isMissPage nm) pre = true ->
  endsWithoutMatch nm final = true ->
  (exists e, snd (Main.scanConversations db (pre ++ final :: post) cursor nm) = Some (Err e))
  /\ upserts (fst (Main.scanConversations db (pre ++ final :: post) cursor nm)) = []
  /\ List.length (directoryCursors
                    (fst (Main.scanConversations db (pre ++ final :: post) cursor nm)))
     = S (List.length pre).
Proof.
  intros Hpre Hfin. revert cursor. induction pre as [|r pre IH]; intros cursor; simpl.
  - destruct final as [e|chs next]; simpl in *; [repeat split; eexists; reflexivity|].
    destruct (Slack.matchName chs nm); [discriminate|]. rewrite Hfin.
    repeat split; eexists; reflexivity.
  - simpl in Hpre. apply andb_prop in Hpre as [Hr Hpre].
    destruct r as [e|chs next]; simpl in Hr; [discriminate|].
    destruct (Slack.matchName chs nm); [discriminate|].
    destruct (String.eqb next ""); [discriminate|].
    destruct (IH Hpre next) as ([e He] & Hu & Hl).
    destruct (Main.scanConversations db (pre ++ final :: post) next nm) as [tr out].
    simpl in *. repeat split; [eauto | exact Hu | rewrite Hl; reflexivity].
Qed.

(** X11. When the cache has no row for the name and the directory ends
    without a match (a page without the name and without a continuation
    cursor, or an error of the directory call, after any number of pages
    without the name), getChannelID of internal/slack and of main.go return
    an error, have asked for every page up to that point exactly once and
    for none beyond, and have written nothing to the cache. *)
Theorem resolve_fails_cleanly_without_match
    (db : Remote.DB) (channelName : string)
    (pre post : list Remote.ConversationsReply) (final : Remote.ConversationsReply)
    (history : list Remote.HistoryReply) :
  let api := {| Remote.conversations := pre ++ final :: post; Remote.history := history |} in
  Remote.lookupReply db = Remote.ErrNoRows ->
  forallb (Script.isMissPage channelName) pre = true ->
  endsWithoutMatch channelName final = true ->
  (exists e, snd (Slack.getChannelID api (Some db) channelName) = Some (Err e))
  /\ upserts (fst (Slack.getChannelID api (Some db) channelName)) = []
  /\ List.length (directoryCursors (fst (Slack.getChannelID api (Some db) channelName)))
     = S (List.length pre)
  /\ (exists e, snd (Main.getChannelID api db channelName) = Some (Err e))
  /\ upserts (fst (Main.getChannelID api db channelName)) = []
  /\ List.length (directoryCursors (fst (Main.getChannelID api db channelName)))
     = S (List.length pre).
Proof.
  intros api Hmiss Hpre Hfin.
  destruct (slack_scan_fails channelName pre final post "" Hpre Hfin) as [[e He] Hl].
  destruct (main_scan_fails db channelName pre final post "" Hpre Hfin) as ([e' He'] & Hu' & Hl').
  pose proof (slack_scan_no_upsert (pre ++ final :: post) "" channelName) as Hu.
  unfold Slack.getChannelID, Main.getChannelID, Slack.resolveRemote. rewrite Hmiss. simpl.
  destruct (Slack.scanConversations (pre ++ final :: post) "" channelName) as [tr out].
  destruct (Main.scanConversations db (pre ++ final :: post) "" channelName) as [tr' out'].
  simpl in *. subst out out'. simpl.
  repeat split; eauto.
Qed.

Lemma resolve_fails_cleanly_without_match_witness :
  (exists e, snd (Slack.getChannelID Samples.exhaustedDirectory (Some Samples.emptyCacheDb)
                    "billing") = Some (Err e))
  /\ upserts (fst (Slack.getChannelID Samples.exhaustedDirectory (Some Samples.emptyCacheDb)
                     "billing")) = []
  /\ List.length (directoryCursors
                    (fst (Slack.getChannelID Samples.exhaustedDirectory
                            (Some Samples.emptyCacheDb) "billing"))) = 2%nat
  /\ (exists e, snd (Main.getChannelID Samples.exhaustedDirectory Samples.emptyCacheDb
                       "billing") = Some (Err e))
  /\ upserts (fst (Main.getChannelID Samples.exhaustedDirectory Samples.emptyCacheDb
                     "billing")) = []
  /\ List.length (directoryCursors
                    (fst (Main.getChannelID Samples.exhaustedDirectory Samples.emptyCacheDb
                            "billing"))) = 2%nat.
Proof.
  apply (resolve_fails_cleanly_without_match Samples.emptyCacheDb "billing"
           [Samples.firstPage] [] (Remote.ConversationsPage Samples.secondPageChannels "") []);
    reflexivity.
Defined.

End ResolverEntries.

(** ** The start time and the watermark of a pass *)

Create HintDb within.

Section PassEvents.
Import Reading Pass.

Lemma within_nil r w s : within r w s [].
Proof. constructor. Qed.

Lemma within_app r w s tr1 tr2 : within r w s tr1 -> within r w s tr2 -> within r w s (tr1 ++ tr2).
Proof. unfold within. intros. apply Forall_app. split; assumption. Qed.

Lemma within_cons r w s e tr : allowed r w s e = true -> within r w s tr -> within r w s (e :: tr).
Proof. unfold within. intros. constructor; assumption. Qed.

Lemma within_reads r w s tr : within r w s tr -> r = false -> lastFetchReads tr = [].
Proof.
  intros H ->. induction H as [|e tr He _ IH]; [reflexivity|].
  unfold lastFetchReads in *. simpl. destruct e; simpl in *; try exact IH. discriminate.
Qed.

Lemma within_writes r w s tr : within r w s tr -> w = false -> watermark_writes tr = [].
Proof.
  intros H ->. induction H as [|e tr He _ IH]; [reflexivity|].
  unfold watermark_writes in *. simpl. destruct e; simpl in *; try exact IH. discriminate.
Qed.

#[local] Hint Resolve within_nil within_app within_cons : within.

Lemma slack_scan_within r w s replies cursor nm :
  within r w s (fst (Slack.scanConversations replies cursor nm)).
Proof.
  revert cursor. induction replies as [|x rest IH]; intros cursor; simpl; auto with within.
  destruct x as [e|chs next]; simpl; auto with within.
  destruct (Slack.matchName chs nm); simpl; auto with within.
  destruct (String.eqb next ""); simpl; auto with within.
  specialize (IH next). destruct (Slack.scanConversations rest next nm). simpl in *.
  auto with within.
Qed.

Lemma slack_getChannelID_within r w s api db nm :
  within r w s (fst (Slack.getChannelID api db nm)).
Proof.
  assert (Hr : within r w s (fst (Slack.resolveRemote api db nm))).
  { unfold Slack.resolveRemote.
    pose proof (slack_scan_within r w s (Remote.conversations api) "" nm) as Hs.
    destruct (Slack.scanConversations _ "" nm) as [tr [[sid|e]|]]; simpl in *; auto.
    destruct db as [d|]; simpl; auto.
    destruct (Remote.upsertReply d); simpl; auto with within. }
  unfold Slack.getChannelID. destruct db as [d|]; [|exact Hr].
  destruct (Remote.lookupReply d); simpl; auto with within.
  destruct (Slack.resolveRemote api (Some d) nm). simpl in *. auto with within.
Qed.

Lemma main_scan_within r w s db replies cursor nm :
  within r w s (fst (Main.scanConversations db replies cursor nm)).
Proof.
  revert cursor. induction replies as [|x rest IH]; intros cursor; simpl; auto with within.
  destruct x as [e|chs next]; simpl; auto with within.
  destruct (Slack.matchName chs nm).
  - unfold Main.upsertChannel. destruct (Remote.upsertReply db); simpl; auto with within.
  - destruct (String.eqb next ""); simpl; auto with within.
    specialize (IH next). destruct (Main.scanConversations db rest next nm). simpl in *.
    auto with within.
Qed.

Lemma main_getChannelID_within r w s api db nm :
  within r w s (fst (Main.getChannelID api db nm)).
Proof.
  unfold Main.getChannelID. destruct (Remote.lookupReply db); simpl; auto with within.
  pose proof (main_scan_within r w s db (Remote.conversations api) "" nm) as H.
  destruct (Main.scanConversations db _ "" nm). simpl in *. auto with within.
Qed.

Lemma permalinks_within r w s sid (ds : list Remote.Delivered) :
  within r w s (map (fun d => EvGetPermalink sid (Remote.Timestamp (Remote.msg d))) ds).
Proof. induction ds; simpl; auto with within. Qed.

Lemma slack_fetchLoop_within rt r w sid nm since replies cursor acc :
  within r w since (fst (Slack.fetchLoop rt sid nm since replies cursor acc)).
Proof.
  assert (Hreq : forall c, allowed r w since (EvGetHistory sid since c) = true)
    by (intros c; simpl; apply Z.eqb_refl).
  revert cursor acc. induction replies as [|x rest IH]; intros cursor acc;
    cbn [Slack.fetchLoop]; auto with within.
  destruct x as [err|msgs more next].
  - destruct (Go.Contains err "channel_not_found"); simpl; auto with within.
    destruct (Go.Contains err "ratelimited"); simpl; auto with within.
    specialize (IH cursor acc).
    destruct (Slack.fetchLoop rt sid nm since rest cursor acc). simpl in *. auto with within.
  - rewrite slack_fold_messages. cbn [app].
    pose proof (permalinks_within r w since sid (List.filter slackKept msgs)) as Hp.
    destruct (negb more || String.eqb next ""); simpl; auto with within.
    match goal with |- context [Slack.fetchLoop rt sid nm since rest next ?a] =>
      specialize (IH next a); destruct (Slack.fetchLoop rt sid nm since rest next a) end.
    simpl in *. auto with within.
Qed.

Lemma main_fetchLoop_within rt r w sid nm since replies cursor acc :
  within r w since (fst (Main.fetchLoop rt sid nm since replies cursor acc)).
Proof.
  assert (Hreq : forall c, allowed r w since (EvGetHistory sid since c) = true)
    by (intros c; simpl; apply Z.eqb_refl).
  revert cursor acc. induction replies as [|x rest IH]; intros cursor acc;
    cbn [Main.fetchLoop]; auto with within.
  destruct x as [err|msgs more next]; [simpl; auto with within|].
  rewrite main_fold_messages. cbn [app].
  pose proof (permalinks_within r w since sid (List.filter mainKept msgs)) as Hp.
  destruct (negb more || String.eqb next ""); simpl; auto with within.
  match goal with |- context [Main.fetchLoop rt sid nm since rest next ?a] =>
    specialize (IH next a); destruct (Main.fetchLoop rt sid nm since rest next a) end.
  simpl in *. auto with within.
Qed.

Lemma main_saveAll_within rt r w s db id us :
  within r w s (fst (Main.saveAll rt db id us)).
Proof.
  unfold Main.saveAll.
  assert (H : forall st, within r w s (fst st) ->
            within r w s (fst (fold_left (Main.saveStep rt db id) us st))).
  { induction us as [|u us IH]; intros st Hst; simpl; [exact Hst|].
    apply IH. destruct st as [tr n]. unfold Main.saveStep, Main.saveMessage. simpl in *.
    destruct (Main.formatTimestamp rt (Timestamp u)); simpl.
    - destruct (Remote.saveReply db u); simpl; auto with within.
    - rewrite app_nil_r. exact Hst. }
  apply H. apply within_nil.
Qed.

End PassEvents.

Section PassEntries.
Import Reading Pass.

#[local] Hint Resolve within_nil within_app within_cons : within.

Lemma slack_update_within r s db id : within r true s (fst (Slack.updateLastFetchTime db id)).
Proof.
  unfold Slack.updateLastFetchTime. destruct db as [d|]; [|apply within_nil].
  destruct (id =? 0); [apply within_nil|].
  destruct (Remote.updateLastFetchReply d); simpl; auto with within.
Qed.

Lemma slack_override_within rt api db nm fromDate now :
  IsZero fromDate = false ->
  within false true fromDate (fst (Slack.SummarizeChannel rt api db nm fromDate now)).
Proof.
  intros Hz. unfold Slack.SummarizeChannel. rewrite Hz.
  replace (match db with Some _ => false | None => false end) with false
    by (destruct db; reflexivity).
  pose proof (slack_getChannelID_within false true fromDate api db nm) as H1.
  destruct (Slack.getChannelID api db nm) as [tr1 [[[sid did]|e]|]]; simpl in *; auto.
  pose proof (slack_fetchLoop_within rt false true sid nm fromDate (Remote.history api) "" [])
    as H3.
  destruct (Slack.fetchLoop rt sid nm fromDate (Remote.history api) "" [])
    as [tr3 [[us|e]|]]; simpl in *; auto with within.
  apply within_app; [exact H1|]. apply within_app; [exact H3|].
  destruct db as [d|]; [apply slack_update_within | apply within_nil].
Qed.

Lemma main_override_within rt api db nm fromDate now :
  IsZero fromDate = false ->
  within false true fromDate (fst (Main.processChannel rt api db nm fromDate now)).
Proof.
  intros Hz. unfold Main.processChannel. rewrite Hz.
  destruct (String.eqb (Go.TrimSpace nm) ""); [apply within_nil|].
  pose proof (main_getChannelID_within false true fromDate api db (Go.TrimSpace nm)) as H1.
  destruct (Main.getChannelID api db (Go.TrimSpace nm)) as [tr1 [[[sid did]|e]|]];
    simpl in *; auto.
  pose proof (main_fetchLoop_within rt false true sid (Go.TrimSpace nm) fromDate
                (Remote.history api) "" []) as H3.
  unfold Main.summarizeChannel.
  destruct (Main.fetchLoop rt sid (Go.TrimSpace nm) fromDate (Remote.history api) "" [])
    as [tr3 [[us|e]|]]; simpl in *; auto with within.
  unfold Main.getMessagesFromDB.
  destruct (Remote.messagesReply db) as [rows|e]; simpl; auto 6 with within.
  pose proof (main_saveAll_within rt false true fromDate db did us) as H5.
  destruct (Main.saveAll rt db did us) as [tr5 n]. simpl in *.
  repeat (apply within_app; [assumption|]).
  apply within_cons; [reflexivity|]. apply within_app; [exact H5|].
  destruct (n >? 0); [|apply within_nil].
  unfold Main.updateLastFetchTime. destruct (Remote.updateLastFetchReply db); simpl;
    auto with within.
Qed.

Lemma main_scan_any_watermark db stored replies cursor nm :
  Main.scanConversations (withLastFetch db stored) replies cursor nm
  = Main.scanConversations db replies cursor nm.
Proof.
  revert cursor. induction replies as [|r rest IH]; intros cursor; [reflexivity|].
  cbn [Main.scanConversations]. destruct r as [err|channels nextCursor]; [reflexivity|].
  destruct (Slack.matchName channels nm); [reflexivity|].
  destruct (String.eqb nextCursor ""); [reflexivity|]. rewrite IH. reflexivity.
Qed.

Lemma main_pass_any_watermark rt api db nm fromDate now stored :
  IsZero fromDate = false ->
  Main.processChannel rt api (withLastFetch db stored) nm fromDate now
  = Main.processChannel rt api db nm fromDate now.
Proof.
  intros Hz. unfold Main.processChannel, Main.getChannelID. rewrite Hz. cbn [negb].
  rewrite main_scan_any_watermark. reflexivity.
Qed.

Lemma slack_pass_any_watermark rt api db nm fromDate now stored :
  IsZero fromDate = false ->
  Slack.SummarizeChannel rt api (Some (withLastFetch db stored)) nm fromDate now
  = Slack.SummarizeChannel rt api (Some db) nm fromDate now.
Proof.
  intros Hz. unfold Slack.SummarizeChannel. rewrite Hz. cbn [negb]. reflexivity.
Qed.

(** X12. An explicit start time bypasses the watermark: when the override
    is not the zero time, a pass of SummarizeChannel (internal/slack) and a
    pass of the channel loop of main.go never read last_fetched, and they
    make the same calls and give the same result whatever last_fetched
    holds. *)
Theorem override_bypasses_watermark_read
    (rt : Go.GoRuntime) (api : Remote.Client) (db : Remote.DB) (channelName : string)
    (fromDate now : Time) :
  IsZero fromDate = false ->
  (forall db', lastFetchReads (fst (Slack.SummarizeChannel rt api db' channelName fromDate now))
               = [])
  /\ lastFetchReads (fst (Main.processChannel rt api db channelName fromDate now)) = []
  /\ (forall stored,
        Slack.SummarizeChannel rt api (Some (withLastFetch db stored)) channelName fromDate now
        = Slack.SummarizeChannel rt api (Some db) channelName fromDate now)
  /\ (forall stored,
        Main.processChannel rt api (withLastFetch db stored) channelName fromDate now
        = Main.processChannel rt api db channelName fromDate now).
Proof.
  intros Hz. split; [intros db'|split; [|split]].
  - eapply within_reads; [apply (slack_override_within rt api db' channelName fromDate now Hz)|].
    reflexivity.
  - eapply within_reads; [apply (main_override_within rt api db channelName fromDate now Hz)|].
    reflexivity.
  - intros stored. apply slack_pass_any_watermark, Hz.
  - intros stored. apply main_pass_any_watermark, Hz.
Qed.

Lemma override_bypasses_watermark_read_witness :
  lastFetchReads
    (fst (Main.processChannel GoEval.runtime Samples.busyWorkspace Samples.healthyDb
            "support-tier1" 1699900000000000000 Samples.sampleNow)) = []
  /\ Main.processChannel GoEval.runtime Samples.busyWorkspace
       (withLastFetch Samples.healthyDb Remote.LastFetchNull)
       "support-tier1" 1699900000000000000 Samples.sampleNow
     = Main.processChannel GoEval.runtime Samples.busyWorkspace Samples.healthyDb
         "support-tier1" 1699900000000000000 Samples.sampleNow.
Proof.
  destruct (override_bypasses_watermark_read GoEval.runtime Samples.busyWorkspace
              Samples.healthyDb "support-tier1" 1699900000000000000 Samples.sampleNow
              eq_refl) as (_ & Hreads & _ & Hsame).
  split; [exact Hreads | exact (Hsame Remote.LastFetchNull)].
Defined.

End PassEntries.

Section LocalIdEntries.
Import Reading Pass.

#[local] Hint Resolve within_nil within_app within_cons : within.

(** X13. Without a local id there is no watermark in internal/slack: when
    channel resolution returns the local id 0 (the upsert failed, or there
    is no store), SummarizeChannel neither reads nor writes last_fetched,
    also when it returns updates. *)
Theorem no_local_id_means_no_watermark
    (rt : Go.GoRuntime) (api : Remote.Client) (db : option Remote.DB) (channelName : string)
    (fromDate now : Time) (slackID : string) :
  snd (Slack.getChannelID api db channelName) = Some (Ok (slackID, 0)) ->
  let run := Slack.SummarizeChannel rt api db channelName fromDate now in
  lastFetchReads (fst run) = []
  /\ watermark_writes (fst run) = [].
Proof.
  intros Hres run.
  assert (H : within false false (if IsZero fromDate then sevenDaysBefore now else fromDate)
                (fst run)).
  { subst run. unfold Slack.SummarizeChannel.
    set (since := if IsZero fromDate then sevenDaysBefore now else fromDate).
    destruct (match db with Some _ => false | None => IsZero fromDate end) eqn:G;
      [apply within_nil|].
    pose proof (slack_getChannelID_within false false since api db channelName) as H1.
    destruct (Slack.getChannelID api db channelName) as [tr1 out]. simpl in Hres. subst out.
    simpl in H1. unfold Slack.getLastFetchTime, Slack.updateLastFetchTime. subst since.
    destruct (IsZero fromDate) eqn:Hz; simpl.
    - destruct db as [d|]; [|discriminate]. simpl.
      pose proof (slack_fetchLoop_within rt false false slackID channelName
                    (sevenDaysBefore now) (Remote.history api) "" []) as H3.
      destruct (Slack.fetchLoop rt slackID channelName (sevenDaysBefore now)
                  (Remote.history api) "" []) as [tr3 [[us|e]|]]; simpl in *;
        auto with within.
    - pose proof (slack_fetchLoop_within rt false false slackID channelName fromDate
                    (Remote.history api) "" []) as H3.
      destruct (Slack.fetchLoop rt slackID channelName fromDate (Remote.history api) "" [])
        as [tr3 [[us|e]|]]; simpl in *; auto with within.
      destruct db as [d|]; simpl; auto with within. }
  split; [eapply within_reads; [exact H | reflexivity]|].
  eapply within_writes; [exact H | reflexivity].
Qed.

Lemma no_local_id_means_no_watermark_witness :
  let api := {| Remote.conversations := Remote.conversations Samples.twoPageDirectory
              ; Remote.history := Samples.pagedHistory |} in
  let run := Slack.SummarizeChannel GoEval.runtime api (Some Samples.brokenUpsertDb)
               "support-tier1" zeroTime Samples.sampleNow in
  lastFetchReads (fst run) = []
  /\ watermark_writes (fst run) = [].
Proof.
  apply (no_local_id_means_no_watermark GoEval.runtime
           {| Remote.conversations := Remote.conversations Samples.twoPageDirectory
            ; Remote.history := Samples.pagedHistory |}
           (Some Samples.brokenUpsertDb) "support-tier1" zeroTime Samples.sampleNow "C222").
  reflexivity.
Defined.

(** X14. In internal/slack a pass that returns updates for a channel with a
    local id ends with the one and only write to last_fetched of that pass,
    whatever the number of messages fetched (zero included) and whether or
    not the store accepts the write. *)
Theorem slack_success_ends_with_watermark_write
    (rt : Go.GoRuntime) (api : Remote.Client) (db : Remote.DB) (channelName : string)
    (fromDate now : Time) (slackID : string) (dbID : Z) (updates : list Update) :
  snd (Slack.getChannelID api (Some db) channelName) = Some (Ok (slackID, dbID)) ->
  dbID <> 0 ->
  snd (Slack.SummarizeChannel rt api (Some db) channelName fromDate now)
    = Some (Ok updates) ->
  exists before,
    fst (Slack.SummarizeChannel rt api (Some db) channelName fromDate now)
      = before ++ [EvUpdateLastFetch dbID]
    /\ watermark_writes before = [].
Proof.
  intros Hres Hid. unfold Slack.SummarizeChannel. cbn match.
  pose proof (slack_getChannelID_quiet api (Some db) channelName) as H1.
  destruct (Slack.getChannelID api (Some db) channelName) as [tr1 out].
  simpl in Hres, H1. subst out.
  set (X := if negb (IsZero fromDate) then _ else _).
  assert (H2 : quiet (fst X) /\ exists since, snd X = Ok since).
  { subst X. destruct (negb (IsZero fromDate)); [split; [apply quiet_nil | eauto]|].
    pose proof (slack_getLastFetchTime_quiet (Some db) dbID now) as Hq.
    destruct (Slack.getLastFetchTime (Some db) dbID now) as [tr [t|e]]; simpl; eauto. }
  destruct X as [tr2 since0]. simpl in H2. destruct H2 as [H2 [since ->]].
  pose proof (slack_fetchLoop_quiet rt slackID channelName since (Remote.history api) "" [])
    as H3.
  destruct (Slack.fetchLoop rt slackID channelName since (Remote.history api) "" [])
    as [tr3 [[us|e]|]]; simpl in *; try discriminate.
  intros _. unfold Slack.updateLastFetchTime.
  destruct (Z.eqb_spec dbID 0) as [|_]; [contradiction|].
  exists (tr1 ++ tr2 ++ tr3). split.
  - destruct (Remote.updateLastFetchReply db); simpl; rewrite <- !app_assoc; reflexivity.
  - apply quiet_app; [exact H1|]. apply quiet_app; assumption.
Qed.

Lemma slack_success_ends_with_watermark_write_witness :
  exists before,
    fst (Slack.SummarizeChannel GoEval.runtime Samples.quietWorkspace (Some Samples.healthyDb)
           "support-tier1" zeroTime Samples.sampleNow)
      = before ++ [EvUpdateLastFetch 7]
    /\ watermark_writes before = [].
Proof.
  apply (slack_success_ends_with_watermark_write GoEval.runtime Samples.quietWorkspace
           Samples.healthyDb "support-tier1" zeroTime Samples.sampleNow "C222" 7 []).
  - reflexivity.
  - discriminate.
  - reflexivity.
Defined.

End LocalIdEntries.

(** ** The sort of GenerateSummary *)

Section SortExtras.
Import OpenAI Order.

Lemma less_asym a b : less a b = true -> less b a = false.
Proof.
  unfold less. rewrite (Z.eqb_sym (Priority b) (Priority a)).
  destruct (Z.eqb_spec (Priority a) (Priority b)) as [E|E]; simpl.
  - destruct (FormatTimestamp (Timestamp a)) as [[sa na]|],
             (FormatTimestamp (Timestamp b)) as [[sb nb]|];
      try (unfold stringLess; rewrite (String.compare_antisym (Timestamp b) (Timestamp a));
           destruct (String.compare (Timestamp a) (Timestamp b)); simpl; congruence).
    unfold Before. simpl. intros H.
    destruct (Z.ltb_spec sa sb), (Z.ltb_spec sb sa), (Z.eqb_spec sa sb), (Z.eqb_spec sb sa),
             (Z.ltb_spec na nb), (Z.ltb_spec nb na); simpl in *; try reflexivity;
      try discriminate; try lia.
  - intros H. apply Z.ltb_lt in H. apply Z.ltb_ge. lia.
Qed.

Lemma insertLeft_hd x y rest :
  HdRel (fun p q => less p q = false) y rest -> less x y = true ->
  HdRel (fun p q => less p q = false) y (insertLeft x rest).
Proof.
  intros Hhd Hxy. destruct rest as [|z rest]; simpl.
  - constructor. apply less_asym, Hxy.
  - destruct (less x z); constructor.
    + inversion Hhd; assumption.
    + apply less_asym, Hxy.
Qed.

Lemma insertLeft_locally_sorted x sorted :
  Sorted (fun p q => less p q = false) sorted ->
  Sorted (fun p q => less p q = false) (insertLeft x sorted).
Proof.
  induction sorted as [|y rest IH]; simpl; intros H.
  - constructor; constructor.
  - inversion H as [|? ? Hrest Hhd]; subst. destruct (less x y) eqn:L.
    + constructor; [apply IH, Hrest | apply insertLeft_hd; assumption].
    + constructor; [exact H | constructor; exact L].
Qed.

Lemma SliceStable_locally_sorted updates : Sorted inOrder (SliceStable updates).
Proof.
  unfold SliceStable. rewrite rev_alt. change (rev_append ?l []) with (reverse l).
  apply (Sorted_reverse (fun p q => less p q = false)).
  assert (H : forall acc, Sorted (fun p q => less p q = false) acc ->
            Sorted (fun p q => less p q = false)
              (fold_left (fun sorted x => insertLeft x sorted) updates acc)).
  { induction updates as [|u us IH]; intros acc Hacc; simpl; [exact Hacc|].
    apply IH, insertLeft_locally_sorted, Hacc. }
  apply H. constructor.
Qed.

Lemma SliceStable_sorted_input updates : Sorted inOrder updates -> SliceStable updates = updates.
Proof.
  unfold SliceStable. intros Hs.
  assert (H : forall acc,
            HdRel (fun q p => less q p = false)
                  (match updates with u :: _ => u | [] => mkUpdate "" "" "" "" "" 0 end)
                  acc \/ updates = [] ->
            fold_left (fun sorted x => insertLeft x sorted) updates acc = rev updates ++ acc).
  { induction Hs as [|u us Hs IH Hhd]; intros acc Hacc; simpl; [reflexivity|].
    destruct Hacc as [Hacc|Hacc]; [|discriminate].
    assert (E : insertLeft u acc = u :: acc).
    { destruct acc as [|y acc]; [reflexivity|]. simpl. inversion Hacc as [|? ? L]; subst.
      rewrite L. reflexivity. }
    rewrite E, IH, <- app_assoc; [reflexivity|].
    destruct us as [|v us]; [right; reflexivity|left]. constructor.
    inversion Hhd; assumption. }
  rewrite H, app_nil_r, rev_involutive; [reflexivity|].
  destruct updates; [right; reflexivity | left; constructor].
Qed.

(** X15. The slice sorted by GenerateSummary is a rearrangement of the
    updates (none lost, none added or repeated) in ascending order of
    priority, whatever the timestamps are. *)
Theorem sort_permutes_by_priority (updates : list Update) :
  SliceStable updates ≡ₚ updates
  /\ List.length (SliceStable updates) = List.length updates
  /\ StronglySorted byPriority (SliceStable updates).
Proof.
  split; [apply SliceStable_perm|]. split; [apply SliceStable_length|].
  apply SliceStable_by_priority.
Qed.

End SortExtras.

Section TotalOrderExtras.
Import OpenAI Order.

Lemma inOrder_trans a b c :
  sortable a -> sortable b -> sortable c -> inOrder a b -> inOrder b c -> inOrder a c.
Proof.
  unfold sortable, inOrder, less. intros Ha Hb Hc.
  destruct (FormatTimestamp (Timestamp a)) as [[sa na]|]; [|contradiction].
  destruct (FormatTimestamp (Timestamp b)) as [[sb nb]|]; [|contradiction].
  destruct (FormatTimestamp (Timestamp c)) as [[sc nc]|]; [|contradiction].
  unfold Before. simpl.
  destruct (Z.eqb_spec (Priority b) (Priority a)), (Z.eqb_spec (Priority c) (Priority b)),
           (Z.eqb_spec (Priority c) (Priority a)); simpl; try lia;
    repeat match goal with
           | |- context [?x <? ?y] => destruct (Z.ltb_spec x y); simpl
           | |- context [?x =? ?y] => destruct (Z.eqb_spec x y); simpl
           end; intros; try reflexivity; try discriminate; lia.
Qed.

Lemma Sorted_strong_on {A} (R : A -> A -> Prop) (P : A -> Prop) (l : list A) :
  (forall a b c, P a -> P b -> P c -> R a b -> R b c -> R a c) ->
  Forall P l -> Sorted R l -> StronglySorted R l.
Proof.
  intros Htrans HP Hs. induction Hs as [|a l Hs IH Hhd]; [constructor|].
  apply Forall_cons in HP as [Pa Pl]. specialize (IH Pl).
  constructor; [exact IH|].
  destruct l as [|b l]; [constructor|].
  inversion Hhd as [|? ? Rab]; subst.
  apply StronglySorted_cons in IH as [Hb _].
  apply Forall_cons in Pl as [Pb Pl].
  constructor; [exact Rab|].
  rewrite Forall_forall in *. intros c Hc. apply (Htrans a b c); auto.
Qed.

(** X17. When every timestamp has the form seconds.fraction that
    FormatTimestamp accepts, the slice sorted by GenerateSummary is in
    order throughout: no update is less (lower priority, or same priority
    and earlier time) than any update standing before it. *)
Theorem sort_orders_sortable_updates (updates : list Update) :
  Forall sortable updates -> StronglySorted inOrder (SliceStable updates).
Proof.
  intros Hall. apply (Sorted_strong_on inOrder sortable).
  - apply inOrder_trans.
  - rewrite SliceStable_perm. exact Hall.
  - apply SliceStable_locally_sorted.
Qed.

Lemma sort_orders_sortable_updates_witness :
  StronglySorted inOrder (SliceStable [Samples.shortNote; Samples.longReport]).
Proof.
  apply (sort_orders_sortable_updates [Samples.shortNote; Samples.longReport]).
  repeat constructor; vm_compute; discriminate.
Defined.

End TotalOrderExtras.

(** ** Stability of the sort *)

Section StableExtras.
Import OpenAI Order.

Lemma tied_not_less a u y :
  sortable a -> sortable u -> sortable y ->
  tied a u = true -> tied a y = true -> less u y = false.
Proof.
  unfold sortable, tied, less. intros Ha Hu Hy.
  destruct (FormatTimestamp (Timestamp a)) as [[sa na]|]; [|contradiction].
  destruct (FormatTimestamp (Timestamp u)) as [[su nu]|]; [|contradiction].
  destruct (FormatTimestamp (Timestamp y)) as [[sy ny]|]; [|contradiction].
  unfold Before. simpl.
  destruct (Z.eqb_spec (Priority a) (Priority u)), (Z.eqb_spec (Priority u) (Priority a)),
           (Z.eqb_spec (Priority a) (Priority y)), (Z.eqb_spec (Priority y) (Priority a)),
           (Z.eqb_spec (Priority u) (Priority y)); simpl; try lia;
    repeat match goal with
           | |- context [?x <? ?y] => destruct (Z.ltb_spec x y); simpl
           | |- context [?x =? ?y] => destruct (Z.eqb_spec x y); simpl
           end; intros; try reflexivity; try discriminate; lia.
Qed.

Lemma filter_rev_list {A} (p : A -> bool) (l : list A) :
  List.filter p (rev l) = rev (List.filter p l).
Proof.
  induction l as [|x l IH]; [reflexivity|]. simpl.
  rewrite List.filter_app, IH. simpl. destruct (p x); simpl; [reflexivity|apply app_nil_r].
Qed.

Lemma insertLeft_stable a u sorted :
  sortable a -> sortable u -> Forall sortable sorted ->
  List.filter (tied a) (insertLeft u sorted) = List.filter (tied a) (u :: sorted).
Proof.
  intros Ha Hu Hs. induction Hs as [|y rest Hy Hrest IH]; [reflexivity|].
  cbn [insertLeft]. destruct (less u y) eqn:L; [|reflexivity].
  cbn [List.filter] in *. rewrite IH.
  destruct (tied a y) eqn:Ty, (tied a u) eqn:Tu; try reflexivity.
  rewrite (tied_not_less a u y Ha Hu Hy Tu Ty) in L. discriminate.
Qed.

Lemma insertLeft_sortable u sorted :
  sortable u -> Forall sortable sorted -> Forall sortable (insertLeft u sorted).
Proof.
  intros Hu Hs. rewrite insertLeft_perm. constructor; assumption.
Qed.

Lemma SliceStable_stable a updates :
  sortable a -> Forall sortable updates ->
  List.filter (tied a) (SliceStable updates) = List.filter (tied a) updates.
Proof.
  intros Ha Hall. unfold SliceStable.
  assert (H : forall acc, Forall sortable acc ->
            List.filter (tied a) (rev (fold_left (fun sorted x => insertLeft x sorted) updates acc))
            = List.filter (tied a) (rev acc) ++ List.filter (tied a) updates).
  { induction Hall as [|u us Hu Hus IH]; intros acc Hacc; cbn [fold_left].
    - simpl. rewrite app_nil_r. reflexivity.
    - rewrite IH by (apply insertLeft_sortable; assumption).
      rewrite !filter_rev_list, insertLeft_stable by assumption.
      cbn [List.filter]. destruct (tied a u); simpl; rewrite <- ?app_assoc; reflexivity. }
  rewrite H by constructor. reflexivity.
Qed.

(** X16. When FormatTimestamp accepts every timestamp, the sort of
    GenerateSummary is stable: updates of which neither is less than the
    other (same priority and same time) keep the order they came in, a
    slice that is already in order is left as it is, and sorting the sorted
    slice again changes nothing.  The less function itself is asymmetric
    for all updates. *)
Theorem sort_is_stable_on_sortable_updates (updates : list Update) :
  Forall sortable updates ->
  (forall a b, less a b = true -> less b a = false)
  /\ (forall a, sortable a ->
        List.filter (tied a) (SliceStable updates) = List.filter (tied a) updates)
  /\ (Sorted inOrder updates -> SliceStable updates = updates)
  /\ SliceStable (SliceStable updates) = SliceStable updates.
Proof.
  intros Hall. split; [apply less_asym|]. split; [|split].
  - intros a Ha. apply SliceStable_stable; assumption.
  - apply SliceStable_sorted_input.
  - apply SliceStable_sorted_input, SliceStable_locally_sorted.
Qed.

Lemma sort_is_stable_on_sortable_updates_witness :
  SliceStable (SliceStable [Samples.longReport; Samples.shortNote; Samples.longReport])
  = SliceStable [Samples.longReport; Samples.shortNote; Samples.longReport].
Proof.
  apply (sort_is_stable_on_sortable_updates
           [Samples.longReport; Samples.shortNote; Samples.longReport]).
  repeat constructor; vm_compute; discriminate.
Defined.

End StableExtras.

(** ** What GenerateSummary sends and returns *)

Section ContainsFacts.
Import Go.

Lemma prefix_iff (a s : string) : String.prefix a s = true <-> exists q, s = a +:+ q.
Proof.
  revert s. induction a as [|x a IH]; intros s.
  - split; [intros _; exists s; reflexivity | intros _; destruct s; reflexivity].
  - destruct s as [|y s]; simpl; [split; [discriminate | intros [q H]; discriminate]|].
    destruct (Ascii.ascii_dec x y) as [->|Hne].
    + rewrite IH. split; intros [q H]; exists q.
      * change (String y s = String y (a +:+ q)). rewrite H. reflexivity.
      * change (String y s = String y (a +:+ q)) in H. congruence.
    + split; [discriminate|]. intros [q H].
      change (String y s = String x (a +:+ q)) in H. congruence.
Qed.

Lemma Contains_iff (s sub : string) :
  Contains s sub = true <-> exists p q, s = p +:+ sub +:+ q.
Proof.
  induction s as [|x s IH]; cbn [Contains].
  - rewrite orb_false_r, prefix_iff. split.
    + intros [q H]. exists EmptyString, q. exact H.
    + intros (p & q & H). destruct p as [|y p]; [exists q; exact H|discriminate].
  - rewrite orb_true_iff, IH, prefix_iff. split.
    + intros [[q H]|(p & q & H)].
      * exists EmptyString, q. exact H.
      * exists (String x p), q. change (String x s = String x (p +:+ sub +:+ q)).
        rewrite H. reflexivity.
    + intros (p & q & H). destruct p as [|y p].
      * left. exists q. exact H.
      * right. exists p, q. change (String x s = String y (p +:+ sub +:+ q)) in H.
        congruence.
Qed.

Lemma Contains_trans (a b c : string) :
  Contains a b = true -> Contains b c = true -> Contains a c = true.
Proof.
  rewrite !Contains_iff. intros (p & q & ->) (p' & q' & ->).
  exists (p +:+ p'), (q' +:+ q). rewrite !string_append_assoc. reflexivity.
Qed.

Lemma Contains_middle (p s q : string) : Contains (p +:+ s +:+ q) s = true.
Proof. apply Contains_iff. exists p, q. reflexivity. Qed.

End ContainsFacts.

Section GenerateSummaryExtras.
Import OpenAI Digest Reading.
Variable rt : Go.GoRuntime.

Lemma messageLine_nonempty ft u : messageLine ft u <> EmptyString.
Proof. unfold messageLine. discriminate. Qed.

Lemma written_app l1 l2 : written (l1 ++ l2) = written l1 +:+ written l2.
Proof.
  induction l1 as [|x l1 IH]; simpl; [reflexivity|].
  rewrite IH, string_append_assoc. reflexivity.
Qed.

Lemma written_empty lines :
  Forall (fun l => l <> EmptyString) lines -> written lines = EmptyString -> lines = [].
Proof.
  intros H. destruct H as [|l lines Hl _]; [reflexivity|]. simpl.
  destruct l as [|c l]; [contradiction|]. discriminate.
Qed.

Lemma writtenLines_sound j :
  Forall (fateSound rt) j -> Forall (fun l => l <> EmptyString) (writtenLines j).
Proof.
  induction 1 as [|[u f] j Hf _ IH]; [constructor|].
  unfold writtenLines in *. simpl. destruct f; simpl; try exact IH.
  constructor; [|exact IH]. unfold fateSound in Hf. simpl in Hf.
  destruct Hf as (ft & _ & ->). apply messageLine_nonempty.
Qed.

Lemma string_length_zero s : (String.length s =? 0)%nat = true <-> s = EmptyString.
Proof. destruct s; simpl; split; congruence. Qed.

(** The builder is empty exactly when no message was included. *)
Lemma assemble_empty_iff limit updates :
  (String.length (sb (assemble rt limit updates)) =? 0)%nat = true
  <-> includedMessages (assemble rt limit updates) = 0.
Proof.
  destruct (assemble_journal rt limit updates) as (_ & _ & _ & Hsb & _ & Hinc & _).
  pose proof (writtenLines_sound _ (render_sound rt limit (rev (SliceStable updates))
                                      emptyBuilder ltac:(constructor))) as Hne.
  fold (assemble rt limit updates) in Hne.
  rewrite string_length_zero, Hsb, Hinc. split.
  - intros H. rewrite (written_empty _ Hne H). reflexivity.
  - intros H. destruct (writtenLines (journal (assemble rt limit updates)));
      [reflexivity | simpl in H; lia].
Qed.

Lemma generate_summary_shape
    (client : Client) (updates : list Update) (focus : string) (now : Z) :
  let run := GenerateSummary rt client updates focus now in
  let b := assemble rt maxPromptLength updates in
  (includedMessages b = 0 /\ fst run = [] /\ exists s, snd run = Ok s /\ s <> EmptyString)
  \/ (0 < includedMessages b
      /\ fst run = [EvChatCompletion "gpt-4-turbo-preview" systemMessage
                      (prompt focus (Go.FormatJST rt "2006-01-02 15:04 JST" now) (sb b))]
      /\ forall s, snd run = Ok s -> s <> EmptyString).
Proof.
  intros run b. subst run. unfold GenerateSummary.
  destruct updates as [|u us].
  { left. simpl. split; [reflexivity|]. split; [reflexivity|]. eexists. split; [reflexivity|].
    discriminate. }
  change (List.length (u :: us) =? 0)%nat with false. cbv iota. fold b.
  pose proof (assemble_empty_iff maxPromptLength (u :: us)) as Hiff. fold b in Hiff.
  destruct (assemble_journal rt maxPromptLength (u :: us)) as (_ & _ & _ & _ & _ & Hinc & _).
  fold b in Hinc.
  destruct (String.length (sb b) =? 0)%nat eqn:E.
  - left. simpl. split; [apply Hiff; reflexivity|]. split; [reflexivity|].
    eexists. split; [reflexivity | discriminate].
  - right. split.
    { destruct (Z.eq_dec (includedMessages b) 0) as [Z0|Z0]; [|lia].
      apply Hiff in Z0. congruence. }
    destruct (client _) as [[|content rest]|e]; simpl.
    + split; [reflexivity | discriminate].
    + destruct (String.eqb_spec content ""); simpl.
      * split; [reflexivity | discriminate].
      * split; [reflexivity|]. intros s [= <-]. assumption.
    + split; [reflexivity | discriminate].
Qed.

(** X18. GenerateSummary calls the model at most once, and exactly when at
    least one message line was written; the call carries the fixed system
    message and the template of the focus filled with the current time and
    the written lines.  A result without error is never the empty text,
    and an error is only returned after the call. *)
Theorem generate_summary_calls_once_when_rendered
    (client : Client) (updates : list Update) (focus : string) (now : Z) :
  let run := GenerateSummary rt client updates focus now in
  let b := assemble rt maxPromptLength updates in
  (fst run = []
   \/ fst run = [EvChatCompletion "gpt-4-turbo-preview" systemMessage
                   (prompt focus (Go.FormatJST rt "2006-01-02 15:04 JST" now) (sb b))])
  /\ (fst run <> [] <-> 0 < includedMessages b)
  /\ (forall s, snd run = Ok s -> s <> EmptyString)
  /\ (forall e, snd run = Err e -> fst run <> []).
Proof.
  intros run b.
  destruct (generate_summary_shape client updates focus now)
    as [(H0 & Htr & s & Hs & Hne)|(Hpos & Htr & Hok)]; fold run in Htr; fold b in Htr.
  - fold run in Hs. fold b in H0. rewrite Htr, Hs.
    split; [left; reflexivity|]. split; [split; [congruence | lia]|].
    split; [intros s' [= <-]; exact Hne | discriminate].
  - fold run in Hok. fold b in Hpos. rewrite Htr.
    split; [right; reflexivity|]. split; [split; [intros _; exact Hpos | discriminate]|].
    split; [exact Hok | discriminate].
Qed.

Lemma written_contains lines line : In line lines -> Go.Contains (written lines) line = true.
Proof.
  intros H. apply in_split in H as (l1 & l2 & ->). rewrite written_app. simpl.
  apply Contains_middle.
Qed.

Lemma writtenLines_In j u line : In (u, Written line) j -> In line (writtenLines j).
Proof.
  intros H. unfold writtenLines. apply in_flat_map. exists (u, Written line).
  split; [exact H | left; reflexivity].
Qed.

Lemma prompt_contains_messages focus t messages :
  Go.Contains (prompt focus t messages) messages = true.
Proof.
  unfold prompt. apply Contains_iff.
  destruct (String.eqb focus "support").
  - exists (supportTemplateHead +:+ t +:+ supportTemplateMiddle), supportTemplateTail.
    rewrite !string_append_assoc. reflexivity.
  - exists (defaultTemplateHead +:+ t +:+ defaultTemplateMiddle), defaultTemplateTail.
    rewrite !string_append_assoc. reflexivity.
Qed.

Lemma messageLine_contains_link ft u : Go.Contains (messageLine ft u) (Link u) = true.
Proof.
  apply Contains_iff.
  exists ("[" +:+ ft +:+ "] #" +:+ Channel u +:+ ": " +:+ formatMessage (Text u) +:+ " Link: <"),
         ("|View Message>" +:+ nl).
  unfold messageLine. rewrite !string_append_assoc. reflexivity.
Qed.

(** X19. The prompt sent to the model reproduces every included message
    verbatim: for each update whose line was written, the user prompt
    contains that line, and with it the update's link exactly as given. *)
Theorem prompt_reproduces_included_lines_and_links
    (client : Client) (updates : list Update) (focus : string) (now : Z)
    (model system user : string) (u : Update) (line : string) :
  In (EvChatCompletion model system user) (fst (GenerateSummary rt client updates focus now)) ->
  In (u, Written line) (journal (assemble rt maxPromptLength updates)) ->
  Go.Contains user line = true /\ Go.Contains user (Link u) = true.
Proof.
  intros Hcall Hline.
  destruct (generate_summary_shape client updates focus now)
    as [(_ & H & _)|(_ & H & _)]; rewrite H in Hcall; [contradiction|].
  destruct Hcall as [[= _ _ <-]|[]].
  destruct (assemble_journal rt maxPromptLength updates) as (_ & _ & _ & Hsb & _).
  assert (Hin : Go.Contains (prompt focus (Go.FormatJST rt "2006-01-02 15:04 JST" now)
                               (sb (assemble rt maxPromptLength updates))) line = true).
  { eapply Contains_trans; [apply prompt_contains_messages|].
    rewrite Hsb. apply written_contains. eapply writtenLines_In. exact Hline. }
  split; [exact Hin|].
  eapply Contains_trans; [exact Hin|].
  pose proof (render_sound rt maxPromptLength (rev (SliceStable updates)) emptyBuilder
                ltac:(constructor)) as Hsound.
  rewrite Forall_forall in Hsound. specialize (Hsound (u, Written line)).
  unfold fateSound in Hsound. simpl in Hsound.
  destruct Hsound as (ft & _ & ->); [apply list_elem_of_In; exact Hline|].
  apply messageLine_contains_link.
Qed.

End GenerateSummaryExtras.

Lemma prompt_reproduces_included_lines_and_links_witness :
  Go.Contains Samples.shortNotePrompt "https://example.slack.com/archives/C222/p2" = true.
Proof.
  apply (prompt_reproduces_included_lines_and_links GoEval.runtime
           (fun _ => Ok ["a summary"]) [Samples.shortNote] "support" 1700006400
           "gpt-4-turbo-preview" OpenAI.systemMessage Samples.shortNotePrompt Samples.shortNote
           (OpenAI.messageLine "2023-11-15 07:18:20 JST" Samples.shortNote)).
  - vm_compute. left. reflexivity.
  - vm_compute. left. reflexivity.
Defined.

(** ** The channel loop of main.go *)

Section RunExtras.
Import Reading Run.
Variable rt : Go.GoRuntime.



Lemma processChannels_isolated targets fromDate now :
  forall allUpdates totalMessagesSaved,
  Forall (fun t => snd (passOf rt fromDate now t) <> None) targets ->
  Main.processChannels rt targets fromDate now allUpdates totalMessagesSaved
  = (List.concat (map (fun t => fst (passOf rt fromDate now t)) targets),
     Some (allUpdates
             ++ List.concat (map (fun t => passUpdates (snd (passOf rt fromDate now t))) targets),
           totalMessagesSaved
             + fold_right Z.add 0
                 (map (fun t => passSaved (snd (passOf rt fromDate now t))) targets))).
Proof.
  induction targets as [|[[nm api] db] rest IH]; intros all total Hall.
  - simpl. rewrite app_nil_r, Z.add_0_r. reflexivity.
  - apply Forall_cons in Hall as [Hp Hrest]. cbn [Main.processChannels map List.concat fold_right].
    change (passOf rt fromDate now (nm, api, db))
      with (Main.processChannel rt api db nm fromDate now) in *.
    destruct (Main.processChannel rt api db nm fromDate now) as [tr [[|us n]|]];
      [| |simpl in Hp; contradiction].
    + rewrite (IH all total Hrest). simpl. rewrite Z.add_0_l. reflexivity.
    + rewrite (IH (all ++ us) (total + n) Hrest). simpl.
      rewrite <- app_assoc, Z.add_assoc. reflexivity.
Qed.

End RunExtras.

Section RunEntries.
Import Reading Run.


(** X21. Channel failures are isolated in the channel loop of main.go: as
    long as every pass comes to an end (by a continue or at its last
    statement), the loop visits every target; its calls are those of the
    passes in order, allUpdates grows by the updates of the passes that ran
    to their end and by nothing for a skipped channel, and
    totalMessagesSaved by their saved counts. *)
Theorem channel_failures_are_isolated
    (rt : Go.GoRuntime) (targets : list (string * Remote.Client * Remote.DB))
    (fromDate now : Time) (allUpdates : list Update) (totalMessagesSaved : Z) :
  Forall (fun t => snd (passOf rt fromDate now t) <> None) targets ->
  Main.processChannels rt targets fromDate now allUpdates totalMessagesSaved
  = (List.concat (map (fun t => fst (passOf rt fromDate now t)) targets),
     Some (allUpdates
             ++ List.concat (map (fun t => passUpdates (snd (passOf rt fromDate now t))) targets),
           totalMessagesSaved
             + fold_right Z.add 0
                 (map (fun t => passSaved (snd (passOf rt fromDate now t))) targets))).
Proof. apply processChannels_isolated. Qed.

Lemma channel_failures_are_isolated_witness :
  snd (Main.processChannels GoEval.runtime Samples.threeTargets zeroTime Samples.sampleNow [] 0)
  = Some ([ {| Text := "deploy finished"
             ; Timestamp := "1700000200.000300"
             ; Link := "https://example.slack.com/archives/C222/p1"
             ; Channel := "support-tier1"
             ; Category := "support"
             ; Priority := 2 |} ], 1).
Proof.
  rewrite (channel_failures_are_isolated GoEval.runtime Samples.threeTargets zeroTime
             Samples.sampleNow [] 0).
  - vm_compute. reflexivity.
  - repeat constructor; vm_compute; discriminate.
Defined.

End RunEntries.

(** ** formatMessage of main.go *)

Section FormatMessageExtras.
Import MainText.

Lemma bytes_append a b : bytes (a +:+ b) = bytes a ++ bytes b.
Proof.
  induction a as [|x a IH]; [reflexivity|].
  change (x :: bytes (a +:+ b) = x :: bytes a ++ bytes b). rewrite IH. reflexivity.
Qed.

Lemma length_append a b : String.length (a +:+ b) = (String.length a + String.length b)%nat.
Proof.
  induction a as [|x a IH]; [reflexivity|].
  change (S (String.length (a +:+ b)) = S (String.length a + String.length b)).
  rewrite IH. reflexivity.
Qed.

(** A replacement brings in no byte that is neither in the text nor in the
    replacement. *)
Lemma replaceFrom_bytes s h t new skip c :
  In c (bytes (replaceFrom s h t new skip)) -> In c (bytes s) \/ In c (bytes new).
Proof.
  revert skip. induction s as [|x s IH]; intros skip; cbn [replaceFrom]; [tauto|].
  destruct skip as [|k].
  - destruct (String.prefix (String h t) (String x s)).
    + rewrite bytes_append, in_app_iff. intros [H|H]; [tauto|].
      destruct (IH _ H); [left; right; assumption | tauto].
    + intros [H|H]; [left; left; exact H|].
      destruct (IH _ H); [left; right; assumption | tauto].
  - intros H. destruct (IH _ H); [left; right; assumption | tauto].
Qed.

(** Replacing a byte by nothing removes it. *)
Lemma remove_byte s c : ~ In c (bytes (ReplaceAll s c "" "")).
Proof.
  unfold ReplaceAll. induction s as [|x s IH]; cbn [replaceFrom]; [tauto|].
  assert (E : String.prefix (String c "") (String x s)
              = if Ascii.ascii_dec c x then true else false).
  { simpl. destruct (Ascii.ascii_dec c x); [destruct s|]; reflexivity. }
  rewrite E. destruct (Ascii.ascii_dec c x) as [->|Hne]; simpl.
  - exact IH.
  - intros [H|H]; [congruence | exact (IH H)].
Qed.

Lemma replaceFrom_length s h t new skip :
  (String.length new <= S (String.length t))%nat ->
  (String.length (replaceFrom s h t new skip) + Nat.min skip (String.length s)
   <= String.length s)%nat.
Proof.
  intros Hnew. revert skip. induction s as [|x s IH]; intros skip; cbn [replaceFrom].
  - simpl. lia.
  - destruct skip as [|k].
    + destruct (String.prefix (String h t) (String x s)) eqn:P.
      * apply prefix_iff in P as [q Hq].
        change (String x s = String h (t +:+ q)) in Hq. injection Hq as _ Hs.
        pose proof (IH (String.length t)) as H. rewrite length_append.
        assert (String.length s = String.length t + String.length q)%nat
          by (rewrite Hs; apply length_append).
        simpl. lia.
      * pose proof (IH 0%nat). simpl in *. lia.
    + pose proof (IH k). simpl. lia.
Qed.

Lemma ReplaceAll_length s h t new :
  (String.length new <= S (String.length t))%nat ->
  (String.length (ReplaceAll s h t new) <= String.length s)%nat.
Proof.
  intros H. pose proof (replaceFrom_length s h t new 0 H). unfold ReplaceAll. simpl in *. lia.
Qed.

(** X22. formatMessage of main.go returns a text without any asterisk,
    underscore or backquote, and never a longer one than it was given. *)
Theorem formatMessage_strips_markup (text : string) :
  ~ In "*"%char (bytes (formatMessage text))
  /\ ~ In "_"%char (bytes (formatMessage text))
  /\ ~ In "`"%char (bytes (formatMessage text))
  /\ (String.length (formatMessage text) <= String.length text)%nat.
Proof.
  unfold formatMessage.
  set (t1 := ReplaceAll text "*" "" "").
  set (t2 := ReplaceAll t1 "_" "" "").
  set (t3 := ReplaceAll t2 "`" "" "").
  assert (Hkeep : forall c s,
            (c = "*" \/ c = "_" \/ c = "`")%char ->
            ~ In c (bytes s) ->
            ~ In c (bytes (ReplaceAll
                             (ReplaceAll (ReplaceAll s bulletHead bulletTail "-")
                                lf (String lf (String lf EmptyString)) (String lf EmptyString))
                             lf (String lf EmptyString) (String lf EmptyString)))).
  { intros c s Hc Hs H. unfold ReplaceAll in H.
    assert (Hnl : ~ In c (bytes (String lf EmptyString)))
      by (destruct Hc as [ -> | [ -> | -> ] ]; simpl; intros [E|[]]; discriminate).
    assert (Hdash : ~ In c (bytes "-"))
      by (destruct Hc as [ -> | [ -> | -> ] ]; simpl; intros [E|[]]; discriminate).
    apply replaceFrom_bytes in H as [H|H]; [|contradiction].
    apply replaceFrom_bytes in H as [H|H]; [|contradiction].
    apply replaceFrom_bytes in H as [H|H]; contradiction. }
  assert (H1 : ~ In "*"%char (bytes t1)) by apply remove_byte.
  assert (H2 : ~ In "_"%char (bytes t2)) by apply remove_byte.
  assert (H3 : ~ In "`"%char (bytes t3)) by apply remove_byte.
  assert (Hpass : forall c s h, ~ In c (bytes s) -> ~ In c (bytes (ReplaceAll s h "" ""))).
  { intros c s h Hs H. apply replaceFrom_bytes in H as [H|[]]. contradiction. }
  split; [apply Hkeep; [tauto|]; subst t3 t2; apply Hpass, Hpass, H1|].
  split; [apply Hkeep; [tauto|]; subst t3; apply Hpass, H2|].
  split; [apply Hkeep; [tauto|]; exact H3|].
  repeat (etransitivity; [apply ReplaceAll_length; simpl; lia|]).
  reflexivity.
Qed.

End FormatMessageExtras.

(** ** Timestamps that the sort accepts are rendered *)

Section SortableExtras.
Variable rt : Go.GoRuntime.
Import OpenAI Digest Order.

(** What FormatTimestamp parses, formatTimestamp formats: both read the
    seconds before the first dot. *)
Lemma sortable_is_formattable u :
  sortable u -> exists formattedTime, formatTimestamp rt (Timestamp u) = Ok formattedTime.
Proof.
  unfold sortable, FormatTimestamp, formatTimestamp.
  destruct (Go.Split (Timestamp u) ".") as [|secStr [|nsecStr [|x rest]]]; try congruence.
  destruct (Go.ParseInt secStr) as [sec|]; [eauto | congruence].
Qed.

Lemma journal_visits_updates limit updates k u f :
  journal (assemble rt limit updates) !! k = Some (u, f) -> In u updates.
Proof.
  intros H. destruct (assemble_journal rt limit updates) as (Hfst & _).
  assert (Hu : map fst (journal (assemble rt limit updates)) !! k = Some u)
    by (rewrite list_lookup_fmap, H; reflexivity).
  rewrite Hfst in Hu. apply lookup_take_Some in Hu as [Hu _].
  apply list_elem_of_lookup_2, list_elem_of_In, in_rev in Hu.
  apply list_elem_of_In. rewrite <- (SliceStable_perm updates). apply list_elem_of_In, Hu.
Qed.

(** X23. When FormatTimestamp accepts the timestamp of every update,
    GenerateSummary skips none of them as unformattable: a message is left
    out of the prompt only by the token limit, and every message left out
    stands, in the sorted slice, before every message in the prompt. *)
Theorem sortable_updates_are_cut_only_by_limit (limit : Z) (updates : list Update) :
  Forall sortable updates ->
  Forall (fun e => snd e <> Unformattable) (journal (assemble rt limit updates))
  /\ (forall i, excluded rt limit updates i -> excludedForBudget rt limit updates i)
  /\ (forall i j, excluded rt limit updates i -> included rt limit updates j -> (i < j)%nat).
Proof.
  intros Hs.
  assert (Hno : forall k u, journal (assemble rt limit updates) !! k <> Some (u, Unformattable)).
  { intros k u H.
    pose proof (render_sound rt limit (rev (SliceStable updates)) emptyBuilder
                  ltac:(constructor)) as Hsound.
    change (render rt limit (rev (SliceStable updates)) emptyBuilder)
      with (assemble rt limit updates) in Hsound.
    rewrite Forall_forall in Hsound.
    pose proof (Hsound _ (list_elem_of_lookup_2 _ _ _ H)) as [err He].
    simpl in He. rewrite Forall_forall in Hs.
    destruct (sortable_is_formattable u
                (Hs _ (proj2 (list_elem_of_In _ _) (journal_visits_updates _ _ _ _ _ H))))
      as [ft Hft].
    congruence. }
  assert (Hbudget : forall i, excluded rt limit updates i -> excludedForBudget rt limit updates i).
  { intros i [Hi Hnot]. split; [exact Hi|].
    destruct (fateAt rt limit updates i) as [[line| |]|] eqn:F; [| |left; reflexivity|right; reflexivity].
    - exfalso. apply Hnot. exists line. exact F.
    - exfalso. apply fateAt_Some in F as [_ [u Hu]]. exact (Hno _ _ Hu). }
  split; [|split; [exact Hbudget|]].
  - apply Forall_forall. intros [u f] Hin Hf. simpl in Hf. subst f.
    apply list_elem_of_lookup in Hin as [k Hk]. exact (Hno _ _ Hk).
  - intros i j Hex [line Hj]. apply Hbudget in Hex as [Hi Hex].
    apply fateAt_Some in Hj as [Hjn [v Hv]].
    destruct (assemble_journal rt limit updates) as (_ & _ & Hlast & _).
    pose proof (lookup_lt_Some _ _ _ Hv) as Hlen.
    destruct Hex as [Hover|Hnone].
    + apply fateAt_Some in Hover as [_ [w Hw]]. pose proof (Hlast _ _ Hw) as Hend.
      destruct (Nat.eq_dec i j) as [->|Hne]; [congruence|]. lia.
    + apply fateAt_None in Hnone; [lia | exact Hi].
Qed.

End SortableExtras.

Lemma sortable_updates_are_cut_only_by_limit_witness :
  Forall Order.sortable [Samples.shortNote; Samples.longReport]
  /\ Forall (fun e => snd e <> OpenAI.Unformattable)
       (OpenAI.journal
          (OpenAI.assemble GoEval.runtime OpenAI.maxPromptLength
             [Samples.shortNote; Samples.longReport])).
Proof.
  assert (H : Forall Order.sortable [Samples.shortNote; Samples.longReport])
    by (repeat constructor; vm_compute; discriminate).
  split; [exact H|].
  exact (proj1 (sortable_updates_are_cut_only_by_limit GoEval.runtime
                  OpenAI.maxPromptLength [Samples.shortNote; Samples.longReport] H)).
Defined.

(** ** generateSummary of main.go *)

Section MainSummaryExtras.
Variable rt : Go.GoRuntime.
Import MainSummary Bucket.

Lemma fill_from (updates : list Update) :
  forall b0,
    let b := fold_left place updates b0 in
    highPriorityUpdates b = highPriorityUpdates b0 ++ List.filter isHigh updates
    /\ alertUpdates b = alertUpdates b0 ++ List.filter isAlert updates
    /\ supportUpdates b = supportUpdates b0 ++ List.filter isSupport updates
    /\ generalUpdates b = generalUpdates b0 ++ List.filter isGeneral updates.
Proof.
  induction updates as [|u us IH]; intros b0.
  - simpl. rewrite !app_nil_r. repeat split.
  - cbn [fold_left]. destruct (IH (place b0 u)) as (H1 & H2 & H3 & H4).
    cbv zeta. rewrite H1, H2, H3, H4. clear.
    unfold place, isGeneral, isHigh, isAlert, isSupport. cbn [List.filter].
    destruct (Priority u >=? 3), (String.eqb (Category u) "alert") eqn:A,
             (String.eqb (Category u) "support") eqn:S;
      try (apply String.eqb_eq in A; apply String.eqb_eq in S; congruence);
      cbn; rewrite <- ?app_assoc; repeat split.
Qed.

Lemma fill_filters (updates : list Update) :
  highPriorityUpdates (fill updates) = List.filter isHigh updates
  /\ alertUpdates (fill updates) = List.filter isAlert updates
  /\ supportUpdates (fill updates) = List.filter isSupport updates
  /\ generalUpdates (fill updates) = List.filter isGeneral updates.
Proof. exact (fill_from updates noBuckets). Qed.

Lemma categories_partition (updates : list Update) :
  List.filter isAlert updates ++ List.filter isSupport updates ++ List.filter isGeneral updates ≡ₚ updates.
Proof.
  induction updates as [|u us IH]; [reflexivity|].
  cbn [List.filter]. unfold isGeneral at 1.
  assert (A' : isAlert u = String.eqb (Category u) "alert") by reflexivity.
  assert (S' : isSupport u = String.eqb (Category u) "support") by reflexivity.
  destruct (String.eqb (Category u) "alert") eqn:A,
           (String.eqb (Category u) "support") eqn:S; rewrite A', S'; cbn.
  - apply String.eqb_eq in A. apply String.eqb_eq in S. congruence.
  - constructor. exact IH.
  - rewrite <- Permutation_middle. constructor. exact IH.
  - rewrite app_assoc, <- Permutation_middle, <- app_assoc. constructor. exact IH.
Qed.

(** X24. The loop of generateSummary in main.go puts every update into
    exactly one of the alert, support and general slices, by its category
    alone, and puts those of priority 3 or more into the high-priority
    slice as well, each slice in the order of the sorted one: the blocks
    written are those of all the updates and a second block for each
    update of priority 3 or more. *)
Theorem high_priority_updates_are_written_twice (sorted : list Update) :
  highPriorityUpdates (fill sorted) = List.filter isHigh sorted
  /\ alertUpdates (fill sorted) = List.filter isAlert sorted
  /\ supportUpdates (fill sorted) = List.filter isSupport sorted
  /\ generalUpdates (fill sorted) = List.filter isGeneral sorted
  /\ blocksWritten sorted ≡ₚ List.filter isHigh sorted ++ sorted.
Proof.
  destruct (fill_filters sorted) as (H1 & H2 & H3 & H4).
  repeat (split; [assumption|]).
  unfold blocksWritten. rewrite H1, H2, H3, H4.
  apply Permutation_app_head, categories_partition.
Qed.

Lemma write_blocks (updates : list Update) :
  forall sb, fold_left (fun sb update => sb +:+ block rt update) updates sb
             = sb +:+ String.concat "" (map (block rt) updates).
Proof.
  induction updates as [|u us IH]; intros sb.
  - simpl. rewrite string_append_nil_r. reflexivity.
  - cbn [fold_left map]. rewrite IH.
    assert (E : String.concat "" (block rt u :: map (block rt) us)
                = block rt u +:+ String.concat "" (map (block rt) us)).
    { destruct us as [|v vs]; [simpl; rewrite string_append_nil_r; reflexivity|reflexivity]. }
    rewrite E, string_append_assoc. reflexivity.
Qed.

Lemma concat_blocks_app (l1 l2 : list Update) :
  String.concat "" (map (block rt) (l1 ++ l2))
  = String.concat "" (map (block rt) l1) +:+ String.concat "" (map (block rt) l2).
Proof.
  pose proof (write_blocks (l1 ++ l2) EmptyString) as H.
  rewrite fold_left_app, !write_blocks in H. simpl in H. symmetry. exact H.
Qed.

Lemma concat_blocks_contains (updates : list Update) u :
  In u updates -> Go.Contains (String.concat "" (map (block rt) updates)) (block rt u) = true.
Proof.
  intros H. apply in_split in H as (l1 & l2 & ->). apply Contains_iff.
  exists (String.concat "" (map (block rt) l1)), (String.concat "" (map (block rt) l2)).
  rewrite concat_blocks_app. f_equal.
  change (u :: l2) with ([u] ++ l2). rewrite concat_blocks_app. simpl. reflexivity.
Qed.

(** What writeUpdates adds to the builder holds the block of each update
    of its slice. *)
Lemma writeUpdates_adds sb updates section :
  exists added, writeUpdates rt sb updates section = sb +:+ added
                /\ forall u, In u updates -> Go.Contains added (block rt u) = true.
Proof.
  unfold writeUpdates. destruct updates as [|v vs].
  - exists EmptyString. simpl. rewrite string_append_nil_r. split; [reflexivity|]. intros u [].
  - change (0 <? List.length (v :: vs))%nat with true. cbv iota.
    rewrite write_blocks.
    exists ((section +:+ ":" +:+ nl) +:+ String.concat "" (map (block rt) (v :: vs))).
    split; [rewrite string_append_assoc; reflexivity|].
    intros u Hu. apply Contains_iff.
    apply (concat_blocks_contains (v :: vs)) in Hu. apply Contains_iff in Hu as (p & q & ->).
    exists ((section +:+ ":" +:+ nl) +:+ p), q. rewrite !string_append_assoc. reflexivity.
Qed.

Lemma Contains_left a b sub : Go.Contains a sub = true -> Go.Contains (a +:+ b) sub = true.
Proof.
  rewrite !Contains_iff. intros (p & q & ->). exists p, (q +:+ b).
  rewrite !string_append_assoc. reflexivity.
Qed.

Lemma Contains_right a b sub : Go.Contains b sub = true -> Go.Contains (a +:+ b) sub = true.
Proof.
  rewrite !Contains_iff. intros (p & q & ->). exists (a +:+ p), q.
  rewrite !string_append_assoc. reflexivity.
Qed.

Lemma messages_contains_block sorted u :
  In u sorted -> Go.Contains (messages rt sorted) (block rt u) = true.
Proof.
  intros Hu. unfold messages.
  destruct (fill_filters sorted) as (_ & H2 & H3 & H4). cbv zeta.
  set (sb1 := writeUpdates rt header _ _).
  destruct (writeUpdates_adds sb1 (alertUpdates (fill sorted)) "Alert Messages")
    as (a2 & -> & C2).
  destruct (writeUpdates_adds (sb1 +:+ a2) (supportUpdates (fill sorted)) "Support Messages")
    as (a3 & -> & C3).
  destruct (writeUpdates_adds ((sb1 +:+ a2) +:+ a3) (generalUpdates (fill sorted))
              "General Messages") as (a4 & -> & C4).
  assert (Hin : In u (alertUpdates (fill sorted)) \/ In u (supportUpdates (fill sorted))
                \/ In u (generalUpdates (fill sorted))).
  { rewrite H2, H3, H4, !filter_In. unfold isGeneral.
    destruct (isAlert u), (isSupport u); simpl; tauto. }
  destruct Hin as [Hin|[Hin|Hin]].
  - apply Contains_left, Contains_left, Contains_right, C2, Hin.
  - apply Contains_left, Contains_right, C3, Hin.
  - apply Contains_right, C4, Hin.
Qed.

Lemma request_contains_messages clock sorted focus :
  Go.Contains (snd (request rt clock sorted focus)) (messages rt sorted) = true.
Proof.
  unfold request. apply Contains_iff. destruct (String.eqb focus "support"); cbn [snd].
  - exists (supportPromptHead +:+ clock "2006-01-02 15:04 JST" +:+ supportPromptMiddle),
           supportPromptTail.
    rewrite !string_append_assoc. reflexivity.
  - exists (defaultPromptHead +:+ clock "2006-01-02 15:04:05 JST" +:+ defaultPromptMiddle),
           defaultPromptTail.
    rewrite !string_append_assoc. reflexivity.
Qed.

Lemma block_contains_link u : Go.Contains (block rt u) (Link u) = true.
Proof.
  unfold block. apply Contains_right, Contains_right, Contains_right, Contains_right.
  apply Contains_left, Contains_iff. exists EmptyString, EmptyString.
  simpl. rewrite string_append_nil_r. reflexivity.
Qed.

(** X25. generateSummary of main.go makes exactly one chat completion
    call, whatever the updates, and the user prompt of that call holds the
    block of every update, with its link: no update is left out for a
    limit or for its timestamp. *)
Theorem main_summary_sends_every_update
    (client : Client) (clock : string -> string) (sorted : list Update) (focus : string) :
  exists systemMessage prompt,
    fst (generateSummary rt client clock sorted focus)
    = [EvChatCompletion "gpt-4o-mini-2024-07-18" systemMessage prompt]
    /\ forall u, In u sorted ->
         Go.Contains prompt (block rt u) = true /\ Go.Contains prompt (Link u) = true.
Proof.
  exists (fst (request rt clock sorted focus)), (snd (request rt clock sorted focus)).
  split.
  - unfold generateSummary. destruct (request rt clock sorted focus) as [sys user]. cbn [fst snd].
    destruct (client sys user) as [[|c cs]|e]; reflexivity.
  - intros u Hu.
    assert (Hb : Go.Contains (snd (request rt clock sorted focus)) (block rt u) = true).
    { eapply Contains_trans; [apply request_contains_messages|].
      apply messages_contains_block, Hu. }
    split; [exact Hb|]. eapply Contains_trans; [exact Hb | apply block_contains_link].
Qed.

Lemma descending_filter (p : Update -> bool) (sorted : list Update) :
  descending sorted -> descending (List.filter p sorted).
Proof.
  unfold descending. induction 1 as [|u us Hs IH Hu]; cbn [List.filter]; [constructor|].
  destruct (p u); [|exact IH].
  constructor; [exact IH|].
  apply Forall_forall. intros v Hv. apply list_elem_of_In, filter_In in Hv as [Hv _].
  rewrite Forall_forall in Hu. apply Hu, list_elem_of_In, Hv.
Qed.

Lemma descending_high_prefix (sorted : list Update) :
  descending sorted ->
  List.filter isHigh sorted
  = take (List.length (List.filter isHigh sorted)) sorted.
Proof.
  unfold descending. induction 1 as [|u us Hs IH Hu]; [reflexivity|].
  cbn [List.filter]. destruct (isHigh u) eqn:E.
  - cbn [List.length take]. f_equal. exact IH.
  - assert (Hnone : List.filter isHigh us = []).
    { clear IH Hs. induction us as [|v vs IHv]; [reflexivity|].
      apply Forall_cons in Hu as [Hv Hvs]. cbn [List.filter].
      unfold isHigh in *. destruct (Z.geb_spec (Priority v) 3) as [G|G];
        [destruct (Z.geb_spec (Priority u) 3); [discriminate|lia]|].
      apply IHv, Hvs. }
    rewrite Hnone. reflexivity.
Qed.

(** X26. On a slice in descending order of priority, as the sort of
    generateSummary leaves it, the high-priority slice is the leading part
    of the sorted slice, and each of the four slices is again in
    descending order of priority. *)
Theorem sections_keep_descending_priority (sorted : list Update) :
  descending sorted ->
  highPriorityUpdates (fill sorted)
  = take (List.length (highPriorityUpdates (fill sorted))) sorted
  /\ descending (highPriorityUpdates (fill sorted))
  /\ descending (alertUpdates (fill sorted))
  /\ descending (supportUpdates (fill sorted))
  /\ descending (generalUpdates (fill sorted)).
Proof.
  intros Hs. destruct (fill_filters sorted) as (H1 & H2 & H3 & H4).
  rewrite H1, H2, H3, H4.
  split; [apply descending_high_prefix, Hs|].
  repeat split; apply descending_filter, Hs.
Qed.

End MainSummaryExtras.

Lemma sections_keep_descending_priority_witness :
  MainSummary.descending Samples.sortedInput
  /\ MainSummary.highPriorityUpdates (MainSummary.fill Samples.sortedInput)
     = take 1 Samples.sortedInput.
Proof.
  assert (H : MainSummary.descending Samples.sortedInput).
  { unfold MainSummary.descending, Samples.sortedInput.
    repeat constructor; simpl; lia. }
  split; [exact H|].
  exact (proj1 (sections_keep_descending_priority Samples.sortedInput H)).
Defined.

(** ** parseFromDate of main.go *)

Section ParseFromDateExtras.
Import MainFlags.

(** X27. A from-date that parseFromDate accepts is the zero time for the
    empty flag, the local midnight of the date when the flag parses as a
    date, and otherwise a time that is not after the reading of the clock:
    a positive duration is taken backwards, like a negative one. *)
Theorem relative_from_date_is_not_after_now
    (tp : TimeParsers) (now : Time) (fromDateStr : string) (t : Time) :
  parseFromDate tp now fromDateStr = Ok t ->
  (fromDateStr = "" /\ t = zeroTime)
  \/ (fromDateStr <> "" /\ ParseLocalDate tp fromDateStr = Some t)
  \/ (fromDateStr <> "" /\ ParseLocalDate tp fromDateStr = None /\ t <= now).
Proof.
  unfold parseFromDate. destruct (String.eqb_spec fromDateStr "") as [->|Hne].
  - intros [= <-]. left. split; reflexivity.
  - destruct (ParseLocalDate tp fromDateStr) as [d|].
    + intros [= <-]. right. left. split; [exact Hne | reflexivity].
    + intros H. right. right. split; [exact Hne|]. split; [reflexivity|].
      assert (Hdur : forall s, match ParseDuration tp s with
                               | Some dur => Ok (now + (if dur >? 0 then - dur else dur))
                               | None => Err "invalid --from-date format. Use YYYY-MM-DD or duration (e.g., 24h, 7d)"
                               end = Ok t -> t <= now).
      { intros s. destruct (ParseDuration tp s) as [dur|]; [|discriminate].
        intros [= <-]. destruct (Z.gtb_spec dur 0); lia. }
      destruct (HasSuffix fromDateStr "d"); [|exact (Hdur _ H)].
      destruct (Go.ParseInt (TrimSuffix fromDateStr "d")) as [days|]; [|discriminate].
      destruct (days >? 0); [exact (Hdur _ H) | discriminate].
Qed.

Lemma relative_from_date_is_not_after_now_witness :
  parseFromDate Samples.wholeHours 1700006400000000000 "7d" = Ok 1699401600000000000
  /\ 1699401600000000000 <= 1700006400000000000.
Proof.
  assert (H : parseFromDate Samples.wholeHours 1700006400000000000 "7d"
              = Ok 1699401600000000000) by (vm_compute; reflexivity).
  split; [exact H|].
  destruct (relative_from_date_is_not_after_now Samples.wholeHours 1700006400000000000
              "7d" 1699401600000000000 H) as [[E _]|[[_ E]|[_ [_ E]]]].
  - discriminate E.
  - discriminate E.
  - exact E.
Defined.

End ParseFromDateExtras.

(** ** Day counts in parseFromDate *)

Section DaysExtras.
Import MainFlags Go.

Lemma parse_digits_of_uint_acc (d : Decimal.uint) :
  forall acc : positive,
    parse_digits (NilEmpty.string_of_uint d) (Z.pos acc) = Some (Z.pos (Pos.of_uint_acc d acc)).
Proof.
  induction d; intros acc; cbn [NilEmpty.string_of_uint Pos.of_uint_acc]; [reflexivity|..].
  all: unfold parse_digits; fold parse_digits.
  all: match goal with |- context [code ?c] => let v := eval vm_compute in (code c) in
                                          change (code c) with v end.
  all: cbn [Z.leb Z.compare Pos.compare Pos.compare_cont andb].
  all: match goal with |- parse_digits _ ?a = Some (Z.pos (Pos.of_uint_acc _ ?b)) =>
         replace a with (Z.pos b) by lia end.
  all: apply IHd.
Qed.

Lemma parse_digits_of_uint (d : Decimal.uint) :
  parse_digits (NilEmpty.string_of_uint d) 0 = Some (Z.of_N (Pos.of_uint d)).
Proof.
  induction d; cbn [NilEmpty.string_of_uint Pos.of_uint]; [reflexivity|..].
  all: unfold parse_digits; fold parse_digits.
  all: match goal with |- context [code ?c] => let v := eval vm_compute in (code c) in
                                          change (code c) with v end.
  all: cbn [Z.leb Z.compare Pos.compare Pos.compare_cont andb].
  all: try exact IHd.
  all: match goal with |- parse_digits _ ?a = _ =>
         let v := eval vm_compute in a in change a with v end.
  all: rewrite parse_digits_of_uint_acc; reflexivity.
Qed.

(** The digits written by Itoa are read back by ParseInt. *)
Lemma ParseInt_Itoa (z : Z) : 0 < z < 2 ^ 63 -> ParseInt (Itoa z) = Some z.
Proof.
  intros [Hpos Hlt]. destruct z as [|p|p]; try lia.
  unfold Itoa. cbn [Z.to_int NilZero.string_of_int].
  pose proof (DecimalPos.Unsigned.of_to p) as Hof.
  assert (Hd : NilZero.string_of_uint (Pos.to_uint p) = NilEmpty.string_of_uint (Pos.to_uint p)).
  { destruct (Pos.to_uint p); try reflexivity. discriminate Hof. }
  rewrite Hd. pose proof (parse_digits_of_uint (Pos.to_uint p)) as Hp.
  rewrite Hof in Hp. cbn [Z.of_N] in Hp.
  destruct (NilEmpty.string_of_uint (Pos.to_uint p)) as [|c s] eqn:E; [discriminate Hp|].
  assert (Hc : (48 <=? code c) && (code c <=? 57) = true).
  { cbn [parse_digits] in Hp. destruct ((48 <=? code c) && (code c <=? 57)); [reflexivity|discriminate]. }
  assert (Hsign : Ascii.eqb c "+" || Ascii.eqb c "-" = false).
  { destruct (Ascii.eqb_spec c "+") as [->|_]; [discriminate Hc|].
    destruct (Ascii.eqb_spec c "-") as [->|_]; [discriminate Hc|]. reflexivity. }
  unfold ParseInt. rewrite Hsign.
  assert (Hneg : Ascii.eqb c "-" = false) by (apply orb_false_iff in Hsign; tauto).
  rewrite Hneg. unfold ParseUint64. rewrite Hp.
  assert (H64 : (Z.pos p <? 2 ^ 64) = true) by (apply Z.ltb_lt; lia).
  assert (H63 : (Z.pos p <? 2 ^ 63) = true) by (apply Z.ltb_lt; lia).
  rewrite H64, H63. reflexivity.
Qed.

Lemma substring_suffix (x y : string) :
  String.substring (String.length x) (String.length y) (x +:+ y) = y.
Proof.
  induction x as [|c x IH]; [|exact IH].
  simpl. induction y as [|c y IHy]; [reflexivity|]. simpl. f_equal. exact IHy.
Qed.

Lemma substring_prefix (x y : string) : String.substring 0 (String.length x) (x +:+ y) = x.
Proof.
  induction x as [|c x IH]; [destruct y; reflexivity|].
  simpl. f_equal. exact IH.
Qed.

Lemma HasSuffix_append (x y : string) : HasSuffix (x +:+ y) y = true.
Proof.
  unfold HasSuffix. rewrite length_append.
  replace (String.length x + String.length y - String.length y)%nat with (String.length x) by lia.
  rewrite substring_suffix, String.eqb_refl, andb_true_r. apply Nat.leb_le. lia.
Qed.

Lemma TrimSuffix_append (x y : string) : TrimSuffix (x +:+ y) y = x.
Proof.
  unfold TrimSuffix. rewrite HasSuffix_append, length_append.
  replace (String.length x + String.length y - String.length y)%nat with (String.length x) by lia.
  apply substring_prefix.
Qed.

Lemma HasSuffix_other (x y z : string) :
  String.length y = String.length z -> y <> z -> HasSuffix (x +:+ y) z = false.
Proof.
  intros Hlen Hne. unfold HasSuffix. rewrite length_append, <- Hlen.
  replace (String.length x + String.length y - String.length y)%nat with (String.length x) by lia.
  rewrite substring_suffix. apply andb_false_iff. right. apply String.eqb_neq, Hne.
Qed.

(** X28. A day count is read as that many times 24 hours: when the flag is
    a positive number of days followed by d and is not a date,
    parseFromDate gives what ParseDuration makes of the hours, taken
    backwards from the reading of the clock whatever the sign, and the
    error of an invalid format when ParseDuration rejects them. *)
Theorem days_are_read_as_hours (tp : TimeParsers) (now : Time) (days : Z) :
  0 < days -> days * 24 < 2 ^ 63 ->
  ParseLocalDate tp (Itoa days +:+ "d") = None ->
  parseFromDate tp now (Itoa days +:+ "d")
  = match ParseDuration tp (Itoa (days * 24) +:+ "h") with
    | Some dur => Ok (now - Z.abs dur)
    | None => Err "invalid --from-date format. Use YYYY-MM-DD or duration (e.g., 24h, 7d)"
    end.
Proof.
  intros Hpos Hlt Hdate. unfold parseFromDate.
  assert (Hne : String.eqb (Itoa days +:+ "d") "" = false).
  { apply String.eqb_neq. intros E. apply (f_equal String.length) in E.
    rewrite length_append in E. simpl in E. lia. }
  rewrite Hne, Hdate, HasSuffix_append, TrimSuffix_append, ParseInt_Itoa by lia.
  assert (Hgt : (days >? 0) = true) by (apply Z.gtb_lt; lia). rewrite Hgt.
  assert (Hwrap : wrap64 (days * 24) = days * 24).
  { unfold wrap64. rewrite Z.mod_small; lia. }
  rewrite Hwrap. destruct (ParseDuration tp (Itoa (days * 24) +:+ "h")) as [dur|]; [|reflexivity].
  f_equal. destruct (Z.gtb_spec dur 0); lia.
Qed.

Lemma days_are_read_as_hours_witness :
  parseFromDate Samples.wholeHours 1700006400000000000 (Itoa 7 +:+ "d")
  = Ok (1700006400000000000 - 7 * 24 * 3600 * 10 ^ 9).
Proof.
  rewrite (days_are_read_as_hours Samples.wholeHours 1700006400000000000 7);
    [vm_compute; reflexivity | lia | lia | vm_compute; reflexivity].
Defined.

End DaysExtras.
